(** * ProjectT dashboard: result filters, date sort, paging and scan polling

    A shallow embedding of the client-side logic of the threat-intelligence
    dashboard:
    - [handleSearch]            news screen          (app/page.tsx)
    - [filteredNews]            phishing-route page  (app/phishing/page.tsx)
    - [fetchPhishingSites]      phishing dashboard   (PhishingView)
    - [fetchSites], [fetchThreats], [startScan], [checkScanProgress]
                                PhishingDetection / ThreatsView components.

    The JavaScript run time the code relies on (date parsing, case mapping,
    the local time zone) is an interface, [Runtime]; general statements hold
    for every instance, concrete runs use [iso_runtime].

    The second part follows the screens through their events: the option
    lists and the effect of the news screen, the controls and the
    simulated scan of the dashboard's phishing tab, the requests of the
    threats and indicators tabs, and the listing of the phishing screen
    with its pagination and its button requests. *)

From Stdlib Require Import ZArith String Ascii List Bool Lia Sorted.
From Stdlib Require Import Decimal DecimalString DecimalPos.
From stdpp Require Import gmap strings list.
Import ListNotations.

Local Open Scope string_scope.
Local Open Scope Z_scope.

(** ** The JavaScript run time *)

Module JS.

(** A [Date] object is its time value: milliseconds since the epoch, or
    [None] for the Invalid Date (time value NaN). *)
Definition Date := option Z.

Class Runtime := {
  (** [Date.parse]: [None] is NaN. *)
  Date_parse : string -> option Z;
  (** [String.prototype.toLowerCase]. *)
  toLowerCase : string -> string;
  (** Offset of local time from UTC in milliseconds, positive east of
      Greenwich; taken constant (no daylight-saving transition). *)
  LocalTZA : Z
}.

(** [new Date(s)] for a string [s]. *)
Definition new_Date `{Runtime} (s : string) : Date := Date_parse s.

(** Truthiness of a possibly missing string property: [undefined], [null]
    and the empty string are falsy. *)
Definition truthy (v : option string) : bool :=
  match v with
  | Some EmptyString => false
  | Some _ => true
  | None => false
  end.

(** [a >= b] and [a <= b] on Date objects: both operands are converted to
    their time value, and every comparison with NaN is false. *)
Definition Date_ge (a b : Date) : bool :=
  match a, b with
  | Some x, Some y => y <=? x
  | _, _ => false
  end.

Definition Date_le (a b : Date) : bool :=
  match a, b with
  | Some x, Some y => x <=? y
  | _, _ => false
  end.

(** [isNaN(d.getTime())]. *)
Definition isNaN_getTime (d : Date) : bool :=
  match d with Some _ => false | None => true end.

(** *** Calendar arithmetic (ECMAScript 21.4.1)

    Time values are not clipped to the range of 8.64e15 milliseconds
    around the epoch outside of which a Date is invalid. *)

Definition msPerDay : Z := 86400000.
Definition Day (t : Z) : Z := t / msPerDay.
Definition TimeWithinDay (t : Z) : Z := t mod msPerDay.
Definition MakeTime (h m s ms : Z) : Z := h * 3600000 + m * 60000 + s * 1000 + ms.
Definition MakeDate (day time : Z) : Z := day * msPerDay + time.

Definition LocalTime `{Runtime} (t : Z) : Z := t + LocalTZA.
Definition UTC `{Runtime} (t : Z) : Z := t - LocalTZA.

(** Day number of the civil date [y]-[m]-[d] (months 1..12) in the
    proleptic Gregorian calendar, day 0 being 1970-01-01. *)
Definition days_from_civil (y m d : Z) : Z :=
  let y' := if m <=? 2 then y - 1 else y in
  let era := y' / 400 in
  let yoe := y' - era * 400 in
  let doy := (153 * (if 2 <? m then m - 3 else m + 9) + 2) / 5 + d - 1 in
  let doe := yoe * 365 + yoe / 4 - yoe / 100 + doy in
  era * 146097 + doe - 719468.

(** Civil date (year, month 1..12, day of month) of a day number. *)
Definition civil_from_days (z0 : Z) : Z * Z * Z :=
  let z := z0 + 719468 in
  let era := z / 146097 in
  let doe := z - era * 146097 in
  let yoe := (doe - doe / 1460 + doe / 36524 - doe / 146096) / 365 in
  let doy := doe - (365 * yoe + yoe / 4 - yoe / 100) in
  let mp := (5 * doy + 2) / 153 in
  let d := doy - (153 * mp + 2) / 5 + 1 in
  let m := if mp <? 10 then mp + 3 else mp - 9 in
  ((if m <=? 2 then yoe + era * 400 + 1 else yoe + era * 400), m, d).

(** [MakeDay(year, month, date)] with a 0-based month that may lie outside
    0..11 and a day of month that may lie outside the month. *)
Definition MakeDay (year month date : Z) : Z :=
  days_from_civil (year + month / 12) (month mod 12 + 1) 1 + date - 1.

(** [d.setDate(d.getDate() + k)]: by the definition of [MakeDay] the local
    day number moves by [k] and the time within the day is kept. *)
Definition setDate_plus `{Runtime} (d : Z) (k : Z) : Z :=
  let t := LocalTime d in
  let '(y, m, dt) := civil_from_days (Day t) in
  UTC (MakeDate (MakeDay y (m - 1) (dt + k)) (TimeWithinDay t)).

(** [d.setMonth(d.getMonth() + k)]. *)
Definition setMonth_plus `{Runtime} (d : Z) (k : Z) : Z :=
  let t := LocalTime d in
  let '(y, m, dt) := civil_from_days (Day t) in
  UTC (MakeDate (MakeDay y (m - 1 + k) dt) (TimeWithinDay t)).

(** [d.setHours(h, m, s, ms)]: the local day is kept, the time within the
    day replaced. An Invalid Date stays invalid. *)
Definition setHours `{Runtime} (d : Date) (h m s ms : Z) : Date :=
  match d with
  | Some t => Some (UTC (MakeDate (Day (LocalTime t)) (MakeTime h m s ms)))
  | None => None
  end.

(** *** Strings *)

(** [s.includes(q)]. *)
Fixpoint includes (s q : string) : bool :=
  String.prefix q s ||
  match s with
  | EmptyString => false
  | String _ s' => includes s' q
  end.

Definition lower_ascii (c : ascii) : ascii :=
  let n := N_of_ascii c in
  if ((65 <=? n) && (n <=? 90))%N then ascii_of_N (n + 32) else c.

Fixpoint lower_string (s : string) : string :=
  match s with
  | EmptyString => EmptyString
  | String c s' => String (lower_ascii c) (lower_string s')
  end.

Definition digit (c : ascii) : option Z :=
  let n := Z.of_N (N_of_ascii c) in
  if (48 <=? n) && (n <=? 57) then Some (n - 48) else None.

(** Reads exactly [n] decimal digits. *)
Fixpoint digits (n : nat) (acc : Z) (s : string) : option (Z * string) :=
  match n with
  | O => Some (acc, s)
  | S n' =>
      match s with
      | String c s' =>
          match digit c with
          | Some v => digits n' (acc * 10 + v) s'
          | None => None
          end
      | EmptyString => None
      end
  end.

(** Reads the longest prefix of decimal digits; [seen] tells whether a
    digit was read. *)
Fixpoint digit_run (s : string) (acc : Z) (seen : bool) : Z * bool :=
  match s with
  | String c s' =>
      match digit c with
      | Some v => digit_run s' (acc * 10 + v) true
      | None => (acc, seen)
      end
  | EmptyString => (acc, seen)
  end.

(** [parseInt(s)] on a string without leading white space and without a
    [0x] prefix: an optional sign and the longest run of decimal digits;
    [None] is NaN. *)
Definition parseInt (s : string) : option Z :=
  let '(sign, rest) :=
    match s with
    | String "-" r => (-1, r)
    | String "+" r => (1, r)
    | _ => (1, s)
    end in
  match digit_run rest 0 false with
  | (v, true) => Some (sign * v)
  | (_, false) => None
  end.

Definition expect (c : ascii) (s : string) : option string :=
  match s with
  | String c' s' => if Ascii.eqb c c' then Some s' else None
  | EmptyString => None
  end.

Definition DaysInMonth (y m : Z) : Z :=
  days_from_civil (if m =? 12 then y + 1 else y) (if m =? 12 then 1 else m + 1) 1
  - days_from_civil y m 1.

(** The time-zone suffix of a date-time string: [Z], [+HH:mm], [-HH:mm], or
    nothing (local time). The result is the offset to subtract. *)
Definition parse_offset (local : Z) (s : string) : option Z :=
  match s with
  | EmptyString => Some local
  | String "Z" EmptyString => Some 0
  | String sg r =>
      if Ascii.eqb sg "+" || Ascii.eqb sg "-" then
        '(hh, r) ← digits 2 0 r;
        r ← expect ":" r;
        '(mm, r) ← digits 2 0 r;
        match r with
        | EmptyString =>
            if (hh <=? 23) && (mm <=? 59) then
              Some ((if Ascii.eqb sg "+" then 1 else -1) * (hh * 3600000 + mm * 60000))
            else None
        | _ => None
        end
      else None
  end.

(** Optional [.sss] fraction. *)
Definition parse_millis (s : string) : option (Z * string) :=
  match s with
  | String "." r => digits 3 0 r
  | _ => Some (0, s)
  end.

(** The part after the calendar date: nothing, or [T] and a time. The
    result is the time within the day, already moved to UTC. *)
Definition parse_time (local : Z) (s : string) : option Z :=
  match s with
  | EmptyString => Some 0
  | String "T" r =>
      '(hh, r) ← digits 2 0 r;
      r ← expect ":" r;
      '(mi, r) ← digits 2 0 r;
      r ← expect ":" r;
      '(ss, r) ← digits 2 0 r;
      '(ms, r) ← parse_millis r;
      off ← parse_offset local r;
      if (hh <=? 23) && (mi <=? 59) && (ss <=? 59)
      then Some (MakeTime hh mi ss ms - off) else None
  | _ => None
  end.

(** [Date.parse] on the ECMAScript date-time string format
    [YYYY-MM-DD] (UTC) and [YYYY-MM-DDTHH:mm:ss(.sss)?(Z|+HH:mm|-HH:mm)?];
    every other string is NaN, as the standard allows. *)
Definition iso_parse (local : Z) (s : string) : option Z :=
  '(y, r) ← digits 4 0 s;
  r ← expect "-" r;
  '(m, r) ← digits 2 0 r;
  r ← expect "-" r;
  '(d, r) ← digits 2 0 r;
  if (1 <=? m) && (m <=? 12) && (1 <=? d) && (d <=? DaysInMonth y m) then
    time ← parse_time local r;
    Some (MakeDate (days_from_civil y m d) time)
  else None.

(** *** Arrays *)

Section Arrays.
Context {A : Type}.

(** [Array.prototype.sort(cmp)] as a function of the array's content. The
    standard asks for a stable sort when [cmp] is a consistent comparator
    and leaves the order to the implementation otherwise. The model is
    the stable insertion sort: each element, from the last to the first,
    goes before the first element it does not sort after. *)
Fixpoint sort_insert (cmp : A -> A -> Z) (x : A) (l : list A) : list A :=
  match l with
  | [] => [x]
  | y :: l' => if cmp x y <=? 0 then x :: y :: l' else y :: sort_insert cmp x l'
  end.

Definition Array_sort (cmp : A -> A -> Z) (l : list A) : list A :=
  foldr (sort_insert cmp) [] l.

(** [Array.prototype.slice(start, end)] for [0 <= start <= end]. *)
Definition Array_slice (l : list A) (start stop : nat) : list A :=
  firstn (stop - start) (skipn start l).
End Arrays.

(** A run time whose [Date.parse] reads the ECMAScript format and whose
    case mapping covers ASCII; [tz] is the local offset in milliseconds. *)
Definition iso_runtime (tz : Z) : Runtime :=
  {| Date_parse := iso_parse tz; toLowerCase := lower_string; LocalTZA := tz |}.

End JS.

Import JS.

(** ** News screen (app/page.tsx) *)

Module NewsPage.

(** A record of the [/news] feed; every property may be absent or null. *)
Record Article := {
  title : option string;
  category : option string;
  severity : option string;
  cve : option string;
  published_date : option string
}.

(** The component state read and written by [handleSearch]. An entry of
    [news] may be [null] ([None]). *)
Record State := {
  news : list (option Article);
  selectedCategory : string;
  selectedSeverity : string;
  selectedCVE : string;
  timeFilter : string;
  startDate : string;
  endDate : string;
  useDateRange : bool;
  filteredNews : list (option Article)
}.

Definition set_filteredNews (st : State) (l : list (option Article)) : State :=
  {| news := news st;
     selectedCategory := selectedCategory st;
     selectedSeverity := selectedSeverity st;
     selectedCVE := selectedCVE st;
     timeFilter := timeFilter st;
     startDate := startDate st;
     endDate := endDate st;
     useDateRange := useDateRange st;
     filteredNews := l |}.

Section HandleSearch.
Context `{Runtime}.
Variable st : State.
(** The clock reading of [new Date()]. *)
Variable now : Z.

Definition oneDayAgo : Z := setDate_plus now (-1).
Definition oneWeekAgo : Z := setDate_plus now (-7).
Definition oneMonthAgo : Z := setMonth_plus now (-1).

Definition startDateObj : option Date :=
  if String.eqb (startDate st) "" then None else Some (new_Date (startDate st)).

(** [endDateObj], after [setHours(23, 59, 59, 999)]. *)
Definition endDateObj : option Date :=
  if String.eqb (endDate st) "" then None
  else Some (setHours (new_Date (endDate st)) 23 59 59 999).

(** [sel === "All" || (field && field.toLowerCase() === sel.toLowerCase())] *)
Definition fieldMatch (sel : string) (field : option string) : bool :=
  String.eqb sel "All" ||
  (truthy field &&
   match field with
   | Some v => String.eqb (toLowerCase v) (toLowerCase sel)
   | None => false
   end).

Definition categoryMatch (article : Article) : bool :=
  fieldMatch (selectedCategory st) (category article).

Definition severityMatch (article : Article) : bool :=
  fieldMatch (selectedSeverity st) (severity article).

Definition cveMatch (article : Article) : bool :=
  fieldMatch (selectedCVE st) (cve article).

(** The date test applied to a parsed [articleDate]. *)
Definition inWindow (articleDate : Date) : bool :=
  if String.eqb (timeFilter st) "Custom" && useDateRange st then
    match startDateObj, endDateObj with
    | Some s, Some e => Date_ge articleDate s && Date_le articleDate e
    | Some s, None => Date_ge articleDate s
    | None, Some e => Date_le articleDate e
    | None, None => true
    end
  else if String.eqb (timeFilter st) "Latest" then Date_ge articleDate (Some oneDayAgo)
  else if String.eqb (timeFilter st) "Last Week" then Date_ge articleDate (Some oneWeekAgo)
  else if String.eqb (timeFilter st) "Last Month" then Date_ge articleDate (Some oneMonthAgo)
  else true.

(** [dateMatch] starts [true] and is computed only under
    [if (article.published_date)]. Inside the [try], the logging line
    calls [articleDate.toISOString()], which throws a RangeError on an
    Invalid Date; the [catch] sets [dateMatch = false]. *)
Definition dateMatch (article : Article) : bool :=
  if truthy (published_date article) then
    match published_date article with
    | Some raw =>
        let articleDate := new_Date raw in
        if isNaN_getTime articleDate then false
        else inWindow articleDate
    | None => true
    end
  else true.

(** The callback of [news.filter]. *)
Definition keeps (article : option Article) : bool :=
  match article with
  | None => false
  | Some a => categoryMatch a && severityMatch a && cveMatch a && dateMatch a
  end.

(** The comparator of the date sort (newest first). *)
Definition compareDates (a b : Article) : Z :=
  if negb (truthy (published_date a)) then 1
  else if negb (truthy (published_date b)) then -1
  else
    match published_date a, published_date b with
    | Some ra, Some rb =>
        match new_Date ra, new_Date rb with
        | None, _ => 1
        | Some _, None => -1
        | Some dateA, Some dateB => dateB - dateA
        end
    | None, _ => 1
    | Some _, None => -1
    end.

(** [news.filter(...)]: the entries kept are objects. *)
Definition filtered : list Article :=
  omap id (List.filter keeps (news st)).

Definition sortedResults : list Article :=
  Array_sort compareDates filtered.

(** [handleSearch]: returns at once when there is no news, else stores
    the filtered, sorted list. *)
Definition handleSearch : State :=
  match news st with
  | [] => st
  | _ => set_filteredNews st (map Some sortedResults)
  end.
End HandleSearch.

End NewsPage.

(** ** News page of the phishing route (app/phishing/page.tsx) *)

Module PhishingRoutePage.

(** The element type of the [news] state, as annotated in the source;
    [published_date] is tested for [undefined] and [null]. *)
Record Article := {
  title : string;
  summary : string;
  url : string;
  source : string;
  category : string;
  severity : string;
  published_date : option string;
  cve : option string
}.

Record State := {
  news : list Article;
  selectedCategory : string;
  selectedSeverity : string;
  selectedCVE : string;
  startDate : string;
  endDate : string
}.

Section FilteredNews.
Context `{Runtime}.
Variable st : State.

Definition isWithinCategory (article : Article) : bool :=
  String.eqb (selectedCategory st) "All" ||
  String.eqb (category article) (selectedCategory st).

Definition isWithinSeverity (article : Article) : bool :=
  String.eqb (selectedSeverity st) "All" ||
  String.eqb (severity article) (selectedSeverity st).

(** [article.cve === selectedCVE]: a [null] identifier equals no string. *)
Definition isWithinCVE (article : Article) : bool :=
  String.eqb (selectedCVE st) "All" ||
  match cve article with
  | Some v => String.eqb v (selectedCVE st)
  | None => false
  end.

Definition isWithinDateRange (publishedDate : Date) : bool :=
  (String.eqb (startDate st) "" || Date_le (new_Date (startDate st)) publishedDate) &&
  (String.eqb (endDate st) "" || Date_ge (new_Date (endDate st)) publishedDate).

(** The callback of [news.filter]. *)
Definition keeps (article : Article) : bool :=
  if negb (truthy (published_date article)) then false
  else
    match published_date article with
    | Some raw =>
        let publishedDate := new_Date raw in
        if isNaN_getTime publishedDate then false
        else isWithinCategory article && isWithinSeverity article &&
             isWithinCVE article && isWithinDateRange publishedDate
    | None => false
    end.

Definition filteredNews : list Article := List.filter keeps (news st).
End FilteredNews.

End PhishingRoutePage.

(** ** Phishing tab of the dashboard (PhishingView) *)

Module PhishingView.

(** The properties of a mock phishing site that the filter reads. *)
Record Site := {
  id : string;
  url : string;
  detectedDate : string;
  similarityScore : Z;
  status : string;
  targetPage : string
}.

Definition mockPhishingSites : list Site :=
  [ {| id := "ps-001"; url := "https://tam-m-abudhabi.com";
       detectedDate := "2025-02-15T08:30:00Z"; similarityScore := 92;
       status := "active"; targetPage := "main" |};
    {| id := "ps-002"; url := "https://tamm.service-abudhabi.net";
       detectedDate := "2025-02-18T14:45:00Z"; similarityScore := 88;
       status := "active"; targetPage := "login" |};
    {| id := "ps-003"; url := "https://tamm-abudhabi-services.org";
       detectedDate := "2025-02-20T09:10:00Z"; similarityScore := 76;
       status := "monitoring"; targetPage := "payments" |};
    {| id := "ps-004"; url := "https://tammabudhabiportal.com";
       detectedDate := "2025-02-22T11:25:00Z"; similarityScore := 85;
       status := "taken-down"; targetPage := "main" |};
    {| id := "ps-005"; url := "https://abudhabi-tamm-gov.site";
       detectedDate := "2025-02-24T15:20:00Z"; similarityScore := 65;
       status := "monitoring"; targetPage := "business-services" |} ].

Record State := {
  timeRange : string;
  searchQuery : string;
  thresholdScore : Z;
  targetFilter : string;
  activeTab : string
}.

Section FetchPhishingSites.
Context `{Runtime}.
Variable st : State.
Variable now : Z.

(** [cutoffDate.setDate(cutoffDate.getDate() - parseInt(timeRange))]: a
    NaN argument makes the date invalid. *)
Definition cutoffDate : Date :=
  match parseInt (timeRange st) with
  | Some days => Some (setDate_plus now (- days))
  | None => None
  end.

Definition inTimeRange (site : Site) : bool :=
  Date_ge (new_Date (detectedDate site)) cutoffDate.

Definition matchesSearch (site : Site) : bool :=
  let query := toLowerCase (searchQuery st) in
  includes (toLowerCase (url site)) query ||
  includes (toLowerCase (targetPage site)) query.

Definition aboveThreshold (site : Site) : bool :=
  thresholdScore st <=? similarityScore site.

Definition onTarget (site : Site) : bool :=
  String.eqb (targetPage site) (targetFilter st).

Definition isDetected (site : Site) : bool :=
  String.eqb (status site) "active" || String.eqb (status site) "monitoring".

Definition isMitigated (site : Site) : bool :=
  String.eqb (status site) "taken-down".

(** The chain of conditional filters over a copy of [sites]; the result
    is what [setPhishingSites] receives. *)
Definition fetchPhishingSites (sites : list Site) : list Site :=
  let filtered := sites in
  let filtered :=
    if negb (String.eqb (timeRange st) "all")
    then List.filter inTimeRange filtered else filtered in
  let filtered :=
    if negb (String.eqb (searchQuery st) "")
    then List.filter matchesSearch filtered else filtered in
  let filtered := List.filter aboveThreshold filtered in
  let filtered :=
    if negb (String.eqb (targetFilter st) "all")
    then List.filter onTarget filtered else filtered in
  let filtered :=
    if negb (String.eqb (activeTab st) "all") then
      if String.eqb (activeTab st) "detected" then List.filter isDetected filtered
      else if String.eqb (activeTab st) "mitigated" then List.filter isMitigated filtered
      else filtered
    else filtered in
  filtered.
End FetchPhishingSites.

End PhishingView.

(** ** Paging of the Result Filter *)

Module ResultFilter.

(** Modelled from the spec: the paging step of the Result Filter,
    [filter(records, criteria, sort, page, pageSize) ->
    (pageOfRecords, totalMatches)], which the API server behind
    [/api/phishing/sites] and [/api/threats] performs and which is not part
    of the sources. [matches] is the filtered, sorted result; pages are
    1-indexed and a page beyond the last one is empty. *)
Definition filter_page {A : Type} (matches : list A) (page pageSize : nat)
  : list A * nat :=
  (Array_slice matches ((page - 1) * pageSize) (page * pageSize), length matches).

(** [Math.ceil(a / b)] for integers [a] and [b > 0]. *)
Definition ceil_div (a b : Z) : Z := - ((- a) / b).

End ResultFilter.

(** ** Threats tab (ThreatsView) *)

Module ThreatsView.
Import ResultFilter.

Record Filters := {
  category : string;
  severity : string;
  min_severity_score : string;
  days : string;
  cve : string;
  search : string
}.

Record State (Threat : Type) := {
  threats : list Threat;
  loading : bool;
  error : option string;
  page : Z;
  totalPages : Z;
  filters : Filters
}.
Arguments threats {Threat}.
Arguments loading {Threat}.
Arguments error {Threat}.
Arguments page {Threat}.
Arguments totalPages {Threat}.
Arguments filters {Threat}.

(** The body of a successful [/api/threats] response. *)
Record Body (Threat : Type) := { results : list Threat; total : Z }.
Arguments results {Threat}.
Arguments total {Threat}.

Inductive Fetched (A : Type) :=
| Fulfilled (ok : bool) (status : Z) (body : A)
| Rejected (message : string).
Arguments Fulfilled {A}.
Arguments Rejected {A}.

Definition initialFilters : Filters :=
  {| category := ""; severity := ""; min_severity_score := "";
     days := "30"; cve := ""; search := "" |}.

Definition initialState {Threat} : State Threat :=
  {| threats := []; loading := true; error := None; page := 1;
     totalPages := 1; filters := initialFilters |}.

(** The query parameters of [fetchThreats]: [page], [page_size] and every
    filter whose value is truthy. *)
Definition fetchThreats_params {Threat} (st : State Threat)
  : Z * Z * list (string * string) :=
  (page st, 10,
   List.filter (fun kv => negb (String.eqb (snd kv) ""))
     [ ("category", category (filters st));
       ("severity", severity (filters st));
       ("min_severity_score", min_severity_score (filters st));
       ("days", days (filters st));
       ("cve", cve (filters st));
       ("search", search (filters st)) ]).

(** The state after the response of [fetchThreats] has been handled. *)
Definition fetchThreats {Threat} (st : State Threat) (r : Fetched (Body Threat))
  : State Threat :=
  match r with
  | Fulfilled true _ data =>
      {| threats := results data; loading := false; error := error st;
         page := page st; totalPages := ceil_div (total data) 10;
         filters := filters st |}
  | _ =>
      {| threats := threats st; loading := false;
         error := Some "Failed to load threats. Please check if the API server is running.";
         page := page st; totalPages := totalPages st; filters := filters st |}
  end.

Definition setPage {Threat} (f : Z -> Z) (st : State Threat) : State Threat :=
  {| threats := threats st; loading := loading st; error := error st;
     page := f (page st); totalPages := totalPages st; filters := filters st |}.

(** The pagination bar is rendered only when [totalPages > 1]; a disabled
    button does not fire. *)
Definition clickPrevious {Threat} (st : State Threat) : State Threat :=
  if (1 <? totalPages st) && negb (page st =? 1)
  then setPage (fun prev => Z.max (prev - 1) 1) st else st.

Definition clickNext {Threat} (st : State Threat) : State Threat :=
  if (1 <? totalPages st) && negb (page st =? totalPages st)
  then setPage (fun prev => Z.min (prev + 1) (totalPages st)) st else st.

End ThreatsView.

(** ** Phishing screen (PhishingDetection) *)

Module PhishingDetection.
Import ResultFilter.

Record PhishingSite := {
  id : string;
  url : string;
  domain : string;
  status : string;
  first_detected : string;
  last_checked : string;
  similarity_score : Z;
  target_page : string
}.

(** The scan progress snapshot; [scan_status] is its [status] property. *)
Record ScanProgress := {
  scan_id : string;
  scan_status : string;
  progress : Z;
  sites_found : Z;
  started_at : string
}.

(** Timer handles returned by [setInterval]: non-zero, hence truthy. *)
Definition TimerId := positive.

Record Filters := {
  activeTab : string;
  timeRange : string;
  searchQuery : string;
  thresholdScore : Z;
  targetFilter : string;
  sortBy : string;
  sortOrder : string;
  currentPage : Z
}.

(** The state of the component; the filter settings are grouped in
    [filters]. *)
Record State := {
  filters : Filters;
  sites : list PhishingSite;
  loading : bool;
  error : option string;
  totalPages : Z;
  scanInProgress : bool;
  scanProgress : option ScanProgress;
  scanInterval : option TimerId
}.

Definition pageSize : Z := 10.

Definition set_sites (v : list PhishingSite) (st : State) : State :=
  {| filters := filters st; sites := v; loading := loading st; error := error st;
     totalPages := totalPages st; scanInProgress := scanInProgress st;
     scanProgress := scanProgress st; scanInterval := scanInterval st |}.

Definition set_loading (v : bool) (st : State) : State :=
  {| filters := filters st; sites := sites st; loading := v; error := error st;
     totalPages := totalPages st; scanInProgress := scanInProgress st;
     scanProgress := scanProgress st; scanInterval := scanInterval st |}.

Definition set_error (v : option string) (st : State) : State :=
  {| filters := filters st; sites := sites st; loading := loading st; error := v;
     totalPages := totalPages st; scanInProgress := scanInProgress st;
     scanProgress := scanProgress st; scanInterval := scanInterval st |}.

Definition set_totalPages (v : Z) (st : State) : State :=
  {| filters := filters st; sites := sites st; loading := loading st; error := error st;
     totalPages := v; scanInProgress := scanInProgress st;
     scanProgress := scanProgress st; scanInterval := scanInterval st |}.

Definition set_scanInProgress (v : bool) (st : State) : State :=
  {| filters := filters st; sites := sites st; loading := loading st; error := error st;
     totalPages := totalPages st; scanInProgress := v;
     scanProgress := scanProgress st; scanInterval := scanInterval st |}.

Definition set_scanProgress (v : option ScanProgress) (st : State) : State :=
  {| filters := filters st; sites := sites st; loading := loading st; error := error st;
     totalPages := totalPages st; scanInProgress := scanInProgress st;
     scanProgress := v; scanInterval := scanInterval st |}.

Definition set_scanInterval (v : option TimerId) (st : State) : State :=
  {| filters := filters st; sites := sites st; loading := loading st; error := error st;
     totalPages := totalPages st; scanInProgress := scanInProgress st;
     scanProgress := scanProgress st; scanInterval := v |}.

(** The first render. The declarations of [activeTab], [scanInProgress],
    [scanProgress] and [scanInterval] are cut from the source text, so
    their initial values are parameters; the others are as declared. *)
Definition initialState (activeTab0 : string) (scanInProgress0 : bool)
    (scanProgress0 : option ScanProgress) (scanInterval0 : option TimerId) : State :=
  {| filters :=
       {| activeTab := activeTab0; timeRange := "30"; searchQuery := "";
          thresholdScore := 60; targetFilter := "all";
          sortBy := "first_detected"; sortOrder := "desc"; currentPage := 1 |};
     sites := []; loading := true; error := None; totalPages := 1;
     scanInProgress := scanInProgress0; scanProgress := scanProgress0;
     scanInterval := scanInterval0 |}.

(** *** [fetchSites] *)

(** The query of [GET /api/phishing/sites]. *)
Record SitesQuery := {
  q_page : Z;
  q_page_size : Z;
  q_sort_by : string;
  q_sort_order : string;
  q_search : option string;
  q_min_similarity : option Z;
  q_target_page : option string;
  q_days : option string;
  q_status : option string
}.

Definition fetchSites_query (st : State) : SitesQuery :=
  let f := filters st in
  {| q_page := currentPage f;
     q_page_size := pageSize;
     q_sort_by := sortBy f;
     q_sort_order := sortOrder f;
     q_search := if String.eqb (searchQuery f) "" then None else Some (searchQuery f);
     q_min_similarity := if 0 <? thresholdScore f then Some (thresholdScore f) else None;
     q_target_page :=
       if String.eqb (targetFilter f) "all" then None else Some (targetFilter f);
     q_days := if String.eqb (timeRange f) "all" then None else Some (timeRange f);
     q_status :=
       if String.eqb (activeTab f) "all" then None
       else if String.eqb (activeTab f) "detected" then Some "active"
       else if String.eqb (activeTab f) "mitigated" then Some "taken-down"
       else None |}.

(** An HTTP response, or the rejection of the [fetch] promise. *)
Record Response (A : Type) := {
  ok : bool;
  statusText : string;
  X_Total_Count : option string;
  body : A
}.
Arguments ok {A}.
Arguments statusText {A}.
Arguments X_Total_Count {A}.
Arguments body {A}.

Inductive Fetched (A : Type) :=
| Fulfilled (r : Response A)
| Rejected (message : string).
Arguments Fulfilled {A}.
Arguments Rejected {A}.

(** [parseInt(response.headers.get('X-Total-Count') || '0')] *)
Definition totalCount (header : option string) : option Z :=
  parseInt (if truthy header then default "0" header else "0").

(** [Math.ceil(totalCount / pageSize) || 1]: NaN and 0 are falsy. *)
Definition pagesFor (count : option Z) (size : Z) : Z :=
  match count with
  | Some c => if ceil_div c size =? 0 then 1 else ceil_div c size
  | None => 1
  end.

(** The state after the response of [fetchSites] has been handled. *)
Definition fetchSites (st : State) (r : Fetched (list PhishingSite)) : State :=
  match r with
  | Fulfilled resp =>
      if ok resp then
        set_loading false
          (set_totalPages (pagesFor (totalCount (X_Total_Count resp)) pageSize)
             (set_sites (body resp) st))
      else
        set_loading false
          (set_error (Some ("Error fetching phishing sites: " ++ statusText resp)) st)
  | Rejected message => set_loading false (set_error (Some message) st)
  end.

(** *** Scan polling

    A function component is called anew for every render; the functions
    it defines close over the state values of that render. The model
    keeps, for every live interval, the render whose [checkScanProgress]
    its callback calls, and for the unmount clean-up the first render
    (the effect has an empty dependency list). *)

Inductive Request :=
| GetSites (q : SitesQuery)
| GetStats
| PostScan
| GetScan (scanId : string).

Record Closure := {
  cl_scanId : string;
  cl_render : State
}.

Record World := {
  comp : State;
  mounted : bool;
  firstRender : State;
  timers : gmap TimerId Closure;
  nextTimer : TimerId;
  requests : list Request
}.

(** A state setter: applied to the current state, ignored after unmount. *)
Definition setState (f : State -> State) (w : World) : World :=
  {| comp := if mounted w then f (comp w) else comp w;
     mounted := mounted w; firstRender := firstRender w;
     timers := timers w; nextTimer := nextTimer w; requests := requests w |}.

Definition send (r : Request) (w : World) : World :=
  {| comp := comp w; mounted := mounted w; firstRender := firstRender w;
     timers := timers w; nextTimer := nextTimer w;
     requests := requests w ++ [r] |}.

Definition clearInterval (i : TimerId) (w : World) : World :=
  {| comp := comp w; mounted := mounted w; firstRender := firstRender w;
     timers := delete i (timers w); nextTimer := nextTimer w;
     requests := requests w |}.

Definition setInterval (c : Closure) (w : World) : TimerId * World :=
  (nextTimer w,
   {| comp := comp w; mounted := mounted w; firstRender := firstRender w;
      timers := <[nextTimer w := c]> (timers w);
      nextTimer := Pos.succ (nextTimer w); requests := requests w |}).

(** The calls [fetchSites()] and [fetchStats()] of a render, up to the
    request they send. *)
Definition call_fetchSites (render : State) (w : World) : World :=
  send (GetSites (fetchSites_query render)) (setState (set_loading true) w).

Definition call_fetchStats (w : World) : World := send GetStats w.

(** [if (scanInterval) { clearInterval(scanInterval); setScanInterval(null); }]
    with [scanInterval] read from the closing render. *)
Definition stopPolling (render : State) (w : World) : World :=
  match scanInterval render with
  | Some i => setState (set_scanInterval None) (clearInterval i w)
  | None => w
  end.

Definition isTerminal (p : ScanProgress) : bool :=
  String.eqb (scan_status p) "completed" || String.eqb (scan_status p) "error".

(** [checkScanProgress(scanId)] of the render [render], with the outcome of
    its request. *)
Definition checkScanProgress (render : State) (scanId : string)
    (r : Fetched ScanProgress) (w : World) : World :=
  let w := send (GetScan scanId) w in
  match r with
  | Fulfilled resp =>
      if ok resp then
        let progressData := body resp in
        let w := setState (set_scanProgress (Some progressData)) w in
        if isTerminal progressData then
          let w := stopPolling render w in
          let w := setState (set_scanInProgress false) w in
          let w := call_fetchSites render w in
          call_fetchStats w
        else w
      else setState (set_scanInProgress false) (stopPolling render w)
  | Rejected _ => setState (set_scanInProgress false) (stopPolling render w)
  end.

(** [startScan] of the render [render], with the outcome of the POST. *)
Definition startScan (render : State) (r : Fetched ScanProgress) (w : World) : World :=
  let w := setState (set_scanInProgress true) w in
  let w := send PostScan w in
  match r with
  | Fulfilled resp =>
      if ok resp then
        let scanData := body resp in
        let w := setState (set_scanProgress (Some scanData)) w in
        let '(interval, w) :=
          setInterval {| cl_scanId := scan_id scanData; cl_render := render |} w in
        setState (set_scanInterval (Some interval)) w
      else
        setState (set_scanInProgress false)
          (setState (set_error (Some ("Error starting scan: " ++ statusText resp))) w)
  | Rejected message =>
      setState (set_scanInProgress false) (setState (set_error (Some message)) w)
  end.

(** Mounting: the first render and its effect, [fetchSites(); fetchStats()]. *)
Definition mount (first : State) (next : TimerId) : World :=
  call_fetchStats
    (call_fetchSites first
       {| comp := first; mounted := true; firstRender := first;
          timers := ∅; nextTimer := next; requests := [] |}).

(** The clean-up of the mount effect, which closes over the first render. *)
Definition unmount (w : World) : World :=
  let w :=
    match scanInterval (firstRender w) with
    | Some i => clearInterval i w
    | None => w
    end in
  {| comp := comp w; mounted := false; firstRender := firstRender w;
     timers := timers w; nextTimer := nextTimer w; requests := requests w |}.

Inductive Event :=
| ClickStartScan (r : Fetched ScanProgress)
| IntervalFires (i : TimerId) (r : Fetched ScanProgress)
| Unmount.

(** One event. The scan button is disabled while a scan is in progress;
    its handler belongs to the current render. A cleared interval does not
    fire. *)
Definition step (w : World) (e : Event) : World :=
  match e with
  | ClickStartScan r =>
      if mounted w && negb (scanInProgress (comp w)) then startScan (comp w) r w else w
  | IntervalFires i r =>
      match timers w !! i with
      | Some c => checkScanProgress (cl_render c) (cl_scanId c) r w
      | None => w
      end
  | Unmount => if mounted w then unmount w else w
  end.

Definition run (w : World) (es : list Event) : World := fold_left step es w.

(** The polls sent and the refreshes ([fetchSites] with [fetchStats])
    triggered, counted in the request log. *)
Definition isGetScan (r : Request) : bool :=
  match r with GetScan _ => true | _ => false end.

Definition isGetStats (r : Request) : bool :=
  match r with GetStats => true | _ => false end.

Definition polls (w : World) : nat := length (List.filter isGetScan (requests w)).
Definition statsFetches (w : World) : nat := length (List.filter isGetStats (requests w)).

(** Handles are handed out in increasing order, so a render can only know
    handles older than any interval created from it: every live interval
    is younger than the handle its callback's render holds, and younger
    than the handle the first render holds. *)
Definition handles_in_order (w : World) : Prop :=
  (∀ i c, timers w !! i = Some c ->
     (i < nextTimer w)%positive ∧
     (∀ j, scanInterval (cl_render c) = Some j -> (j < i)%positive) ∧
     (∀ j, scanInterval (firstRender w) = Some j -> (j < i)%positive)) ∧
  (∀ j, scanInterval (comp w) = Some j -> (j < nextTimer w)%positive) ∧
  (∀ j, scanInterval (firstRender w) = Some j -> (j < nextTimer w)%positive).

(** [i] is the youngest live interval. *)
Definition youngest (w : World) (i : TimerId) : Prop :=
  is_Some (timers w !! i) ∧ ∀ k, is_Some (timers w !! k) -> (k <= i)%positive.

End PhishingDetection.

(** ** Arrays and record objects in the store

    The screens hold their records in arrays of references to record
    objects. [filter] and the spread [[...a]] allocate a new array whose
    entries alias the same objects; [sort] reorders the array it is called
    on, in place. *)

Module Store.

Definition loc := positive.

(** An array entry: [null] or a reference to a record object. *)
Inductive entry := Null | Ref (l : loc).

Section WithObj.
Context {Obj : Type}.

Record heap := {
  objects : gmap loc Obj;
  arrays : gmap loc (list entry)
}.

(** The object an entry stands for; [None] for [null]. *)
Definition deref (h : heap) (e : entry) : option Obj :=
  match e with
  | Null => None
  | Ref l => objects h !! l
  end.

(** The content of an array, entries resolved. *)
Definition content (h : heap) (a : loc) : list (option Obj) :=
  map (deref h) (default [] (arrays h !! a)).

(** [h'] has the record objects of [h], untouched, and every array of [h]
    with its content unchanged. *)
Definition extends (h h' : heap) : Prop :=
  objects h' = objects h ∧ arrays h ⊆ arrays h'.

(** Computations on the store. *)
Definition M (A : Type) : Type := heap -> A * heap.

#[export] Instance M_ret : MRet M := fun A x h => (x, h).

#[export] Instance M_bind : MBind M :=
  fun A B k m h => let '(x, h') := m h in k x h'.

Definition array_new (xs : list entry) : M loc :=
  fun h =>
    let a := fresh (dom (arrays h)) in
    (a, {| objects := objects h; arrays := <[a := xs]> (arrays h) |}).

Definition array_length (a : loc) : M nat :=
  fun h => (length (default [] (arrays h !! a)), h).

(** [a.filter(cb)]: the callback reads the entry's object. *)
Definition array_filter (cb : option Obj -> bool) (a : loc) : M loc :=
  fun h =>
    array_new (List.filter (fun e => cb (deref h e)) (default [] (arrays h !! a))) h.

(** [[...a]] *)
Definition array_spread (a : loc) : M loc :=
  fun h => array_new (default [] (arrays h !! a)) h.

(** [a.sort(cmp)]: in place; the result is [a] itself. The comparators of
    the screens read properties of their arguments, so they are only
    reached with objects. *)
Definition array_sort (cmp : Obj -> Obj -> Z) (a : loc) : M loc :=
  fun h =>
    let cmp_entries e1 e2 :=
      match deref h e1, deref h e2 with
      | Some x, Some y => cmp x y
      | _, _ => 0
      end in
    (a, {| objects := objects h;
           arrays := <[a := Array_sort cmp_entries (default [] (arrays h !! a))]>
                       (arrays h) |}).
End WithObj.
Arguments heap : clear implicits.

End Store.

(** The three filters as computations on the store. *)

Module OnStore.
Import Store.

Section Filters.
Context `{Runtime}.

(** A callback that reads properties of its argument, on an entry. *)
Definition lift {Obj} (p : Obj -> bool) (o : option Obj) : bool :=
  match o with Some x => p x | None => false end.

(** [if (c) filtered = filtered.filter(p)] *)
Definition filter_if {Obj} (c : bool) (p : Obj -> bool) (a : loc) : M (Obj := Obj) loc :=
  if c then array_filter (lift p) a else mret a.

(** [handleSearch] of the news screen: [news] is the array held in the
    [news] state; the result is what [setFilteredNews] receives, if it
    is called. *)
Definition handleSearch (st : NewsPage.State) (now : Z) (news : loc)
  : M (option loc) :=
  n ← array_length news;
  if Nat.eqb n 0 then mret None
  else
    filtered ← array_filter (NewsPage.keeps st now) news;
    copy ← array_spread filtered;
    sortedResults ← array_sort NewsPage.compareDates copy;
    mret (Some sortedResults).

(** [filteredNews] of the phishing-route page. *)
Definition filteredNews (st : PhishingRoutePage.State) (news : loc) : M loc :=
  array_filter (lift (PhishingRoutePage.keeps st)) news.

(** [fetchPhishingSites] of the phishing dashboard. *)
Definition fetchPhishingSites (st : PhishingView.State) (now : Z)
    (mockPhishingSites : loc) : M loc :=
  filtered ← array_spread mockPhishingSites;
  filtered ← filter_if (negb (String.eqb (PhishingView.timeRange st) "all"))
                (PhishingView.inTimeRange st now) filtered;
  filtered ← filter_if (negb (String.eqb (PhishingView.searchQuery st) ""))
                (PhishingView.matchesSearch st) filtered;
  filtered ← array_filter (lift (PhishingView.aboveThreshold st)) filtered;
  filtered ← filter_if (negb (String.eqb (PhishingView.targetFilter st) "all"))
                (PhishingView.onTarget st) filtered;
  filtered ←
    (if negb (String.eqb (PhishingView.activeTab st) "all") then
       if String.eqb (PhishingView.activeTab st) "detected"
       then array_filter (lift PhishingView.isDetected) filtered
       else if String.eqb (PhishingView.activeTab st) "mitigated"
       then array_filter (lift PhishingView.isMitigated) filtered
       else mret filtered
     else mret filtered);
  mret filtered.
End Filters.

End OnStore.

(** ** What the statements speak about *)

Module Clauses.

Section WithRuntime.
Context `{Runtime}.

(** The instant a timestamp property denotes: [None] when the property
    is missing, empty or not parseable. *)
Definition instant (published_date : option string) : option Z :=
  match published_date with
  | Some raw => if String.eqb raw "" then None else Date_parse raw
  | None => None
  end.



(** [x] may stand before [y] in a newest-first list with the undated
    records last. *)
Definition newest_first (x y : NewsPage.Article) : Prop :=
  match instant (NewsPage.published_date x), instant (NewsPage.published_date y) with
  | Some tx, Some ty => ty <= tx
  | Some _, None => True
  | None, Some _ => False
  | None, None => True
  end.
End WithRuntime.

End Clauses.

(** ** Concrete records and settings used in the runs below *)

Module Fixtures.

(** A news record with the given [published_date] and nothing else. *)
Definition dated (d : string) : NewsPage.Article :=
  {| NewsPage.title := None; NewsPage.category := None; NewsPage.severity := None;
     NewsPage.cve := None; NewsPage.published_date := Some d |}.

Definition undated : NewsPage.Article :=
  {| NewsPage.title := None; NewsPage.category := None; NewsPage.severity := None;
     NewsPage.cve := None; NewsPage.published_date := None |}.

(** The news screen with every categorical filter on "All". *)
Definition newsState (news : list (option NewsPage.Article)) (timeFilter : string)
    (startDate endDate : string) : NewsPage.State :=
  {| NewsPage.news := news;
     NewsPage.selectedCategory := "All";
     NewsPage.selectedSeverity := "All";
     NewsPage.selectedCVE := "All";
     NewsPage.timeFilter := timeFilter;
     NewsPage.startDate := startDate;
     NewsPage.endDate := endDate;
     NewsPage.useDateRange := String.eqb timeFilter "Custom";
     NewsPage.filteredNews := news |}.

(** 2025-02-25T12:00:00Z *)
Definition noon_25_feb_2025 : Z := 1740484800000.

Definition routeArticle (category : string) (published_date : option string)
  : PhishingRoutePage.Article :=
  {| PhishingRoutePage.title := "t"; PhishingRoutePage.summary := "";
     PhishingRoutePage.url := ""; PhishingRoutePage.source := "";
     PhishingRoutePage.category := category; PhishingRoutePage.severity := "High";
     PhishingRoutePage.published_date := published_date;
     PhishingRoutePage.cve := None |}.

Definition routeState (news : list PhishingRoutePage.Article) (selectedCategory : string)
  : PhishingRoutePage.State :=
  {| PhishingRoutePage.news := news;
     PhishingRoutePage.selectedCategory := selectedCategory;
     PhishingRoutePage.selectedSeverity := "All";
     PhishingRoutePage.selectedCVE := "All";
     PhishingRoutePage.startDate := "";
     PhishingRoutePage.endDate := "" |}.

(** The initial filter settings of the phishing dashboard. *)
Definition dashboardState (timeRange : string) : PhishingView.State :=
  {| PhishingView.timeRange := timeRange; PhishingView.searchQuery := "";
     PhishingView.thresholdScore := 60; PhishingView.targetFilter := "all";
     PhishingView.activeTab := "detected" |}.

Definition siteDetected (detectedDate : string) : PhishingView.Site :=
  {| PhishingView.id := "ps-x"; PhishingView.url := "https://tamm.example";
     PhishingView.detectedDate := detectedDate; PhishingView.similarityScore := 90;
     PhishingView.status := "active"; PhishingView.targetPage := "main" |}.

End Fixtures.

(** ** Concrete scans *)

Module ScanFixtures.
Import PhishingDetection.

Definition progressWith (status : string) (percent : Z) : ScanProgress :=
  {| scan_id := "scan-1"; scan_status := status; progress := percent;
     sites_found := 0; started_at := "2025-02-25T12:00:00Z" |}.

Definition answered (p : ScanProgress) : Fetched ScanProgress :=
  Fulfilled {| ok := true; statusText := "OK"; X_Total_Count := None; body := p |}.

(** The screen just mounted, no scan yet, the scan state at its idle
    values, and 1 the next timer handle. *)
Definition justMounted : World := mount (initialState "detected" false None None) 1%positive.

(** A scan is started and answers running, running, completed. *)
Definition scanToCompletion : list Event :=
  [ ClickStartScan (answered (progressWith "running" 0));
    IntervalFires 1%positive (answered (progressWith "running" 30));
    IntervalFires 1%positive (answered (progressWith "running" 70));
    IntervalFires 1%positive (answered (progressWith "completed" 100)) ].

End ScanFixtures.

(** ** Filter options and event handling of the two news screens *)

Module Options.

(** [[...new Set(values)]]: the distinct values, each at the place of its
    first occurrence. [seen] holds the values already in the set. *)
Fixpoint Set_spread (seen values : list string) : list string :=
  match values with
  | [] => []
  | v :: rest =>
      if existsb (String.eqb v) seen then Set_spread seen rest
      else v :: Set_spread (v :: seen) rest
  end.

Definition distinct (values : list string) : list string := Set_spread [] values.

(** [news.filter(article => article.p).map(article => article.p)] on the
    news screen, whose [news] state is untyped: the callback reads a
    property of every entry, so a [null] entry makes it throw a TypeError
    ([None]). *)
Definition truthy_values (p : NewsPage.Article -> option string)
    (news : list (option NewsPage.Article)) : option (list string) :=
  articles ← mapM id news;
  Some (omap p (List.filter (λ article, truthy (p article)) articles)).

(** The option lists computed in the body of the news screen. *)
Definition categories (news : list (option NewsPage.Article)) : option (list string) :=
  values ← truthy_values NewsPage.category news;
  Some ("All" :: distinct values).

Definition severities : list string := ["All"; "Critical"; "High"; "Medium"; "Low"].

Definition cveOptions (news : list (option NewsPage.Article)) : option (list string) :=
  values ← truthy_values NewsPage.cve news;
  Some ("All" :: distinct values).



End Options.

Module NewsScreen.
Import NewsPage.

(** The whole state of the news screen. *)
Record Screen := {
  state : NewsPage.State;
  loading : bool;
  error : option string
}.

Definition initial : Screen :=
  {| state :=
       {| news := []; selectedCategory := "All"; selectedSeverity := "All";
          selectedCVE := "All"; timeFilter := "Latest"; startDate := "";
          endDate := ""; useDateRange := false; filteredNews := [] |};
     loading := true; error := None |}.

Definition set_news (v : list (option Article)) (st : State) : State :=
  {| news := v; selectedCategory := selectedCategory st;
     selectedSeverity := selectedSeverity st; selectedCVE := selectedCVE st;
     timeFilter := timeFilter st; startDate := startDate st;
     endDate := endDate st; useDateRange := useDateRange st;
     filteredNews := filteredNews st |}.

Definition set_selectedCategory (v : string) (st : State) : State :=
  {| news := news st; selectedCategory := v;
     selectedSeverity := selectedSeverity st; selectedCVE := selectedCVE st;
     timeFilter := timeFilter st; startDate := startDate st;
     endDate := endDate st; useDateRange := useDateRange st;
     filteredNews := filteredNews st |}.

Definition set_selectedSeverity (v : string) (st : State) : State :=
  {| news := news st; selectedCategory := selectedCategory st;
     selectedSeverity := v; selectedCVE := selectedCVE st;
     timeFilter := timeFilter st; startDate := startDate st;
     endDate := endDate st; useDateRange := useDateRange st;
     filteredNews := filteredNews st |}.

Definition set_selectedCVE (v : string) (st : State) : State :=
  {| news := news st; selectedCategory := selectedCategory st;
     selectedSeverity := selectedSeverity st; selectedCVE := v;
     timeFilter := timeFilter st; startDate := startDate st;
     endDate := endDate st; useDateRange := useDateRange st;
     filteredNews := filteredNews st |}.

Definition set_startDate (v : string) (st : State) : State :=
  {| news := news st; selectedCategory := selectedCategory st;
     selectedSeverity := selectedSeverity st; selectedCVE := selectedCVE st;
     timeFilter := timeFilter st; startDate := v;
     endDate := endDate st; useDateRange := useDateRange st;
     filteredNews := filteredNews st |}.

Definition set_endDate (v : string) (st : State) : State :=
  {| news := news st; selectedCategory := selectedCategory st;
     selectedSeverity := selectedSeverity st; selectedCVE := selectedCVE st;
     timeFilter := timeFilter st; startDate := startDate st;
     endDate := v; useDateRange := useDateRange st;
     filteredNews := filteredNews st |}.

(** The [onChange] of the time filter:
    [setTimeFilter(v); setUseDateRange(v === "Custom")]. *)
Definition select_timeFilter (v : string) (st : State) : State :=
  {| news := news st; selectedCategory := selectedCategory st;
     selectedSeverity := selectedSeverity st; selectedCVE := selectedCVE st;
     timeFilter := v; startDate := startDate st;
     endDate := endDate st; useDateRange := String.eqb v "Custom";
     filteredNews := filteredNews st |}.

Definition with_state (f : State -> State) (s : Screen) : Screen :=
  {| state := f (state s); loading := loading s; error := error s |}.

(** What the user and the network can do; [now] is the clock reading of a
    [handleSearch] the event may set off. *)
Inductive Event :=
| NewsArrive (data : list (option Article)) (now : Z)
| NewsFail
| SelectCategory (v : string)
| SelectSeverity (v : string)
| SelectCVE (v : string)
| SelectTimeFilter (v : string) (now : Z)
| PickStartDate (v : string)
| PickEndDate (v : string)
| ClickSearch (now : Z).

Inductive DateLabel :=
| NoLabel
| DateUnavailable
| Formatted (t : Z).

Section Handlers.
Context `{Runtime}.

(** The effect on [[news, timeFilter, useDateRange]]:
    [if (news && news.length > 0) handleSearch()]. *)
Definition effect (now : Z) (st : State) : State :=
  match news st with
  | [] => st
  | _ :: _ => handleSearch st now
  end.

(** The body of the component computes the option lists at every render;
    when that throws, the screen is gone. *)
Definition renders (s : Screen) : bool :=
  match Options.categories (news (state s)), Options.cveOptions (news (state s)) with
  | Some _, Some _ => true
  | _, _ => false
  end.

(** The state after an event, its render and the effect the render sets
    off; [None] when the render throws. *)
Definition step (s : Screen) (e : Event) : option Screen :=
  match e with
  | NewsArrive data now =>
      let s' :=
        {| state := set_filteredNews (set_news data (state s)) data;
           loading := false; error := error s |} in
      if renders s' then Some (with_state (effect now) s') else None
  | NewsFail =>
      Some {| state := state s; loading := false;
              error := Some "Failed to load news." |}
  | SelectCategory v => Some (with_state (set_selectedCategory v) s)
  | SelectSeverity v => Some (with_state (set_selectedSeverity v) s)
  | SelectCVE v => Some (with_state (set_selectedCVE v) s)
  | SelectTimeFilter v now =>
      let changed :=
        negb (String.eqb v (timeFilter (state s))) ||
        negb (Bool.eqb (String.eqb v "Custom") (useDateRange (state s))) in
      let s' := with_state (select_timeFilter v) s in
      Some (if changed then with_state (effect now) s' else s')
  | PickStartDate v => Some (with_state (set_startDate v) s)
  | PickEndDate v => Some (with_state (set_endDate v) s)
  | ClickSearch now => Some (with_state (λ st, handleSearch st now) s)
  end.

Fixpoint run (s : Screen) (es : list Event) : option Screen :=
  match es with
  | [] => Some s
  | e :: es' =>
      match step s e with
      | Some s' => run s' es'
      | None => None
      end
  end.
(** The displayed list holds records of the news, no [null], newest first
    with the undated ones last; the news has no [null] entry; the date
    range is in use exactly under the "Custom" time filter. *)
Definition well_displayed (st : State) : Prop :=
  Forall (λ o, is_Some o ∧ In o (news st)) (filteredNews st) ∧
  StronglySorted Clauses.newest_first (omap id (filteredNews st)) ∧
  (None ∉ news st) ∧
  useDateRange st = String.eqb (timeFilter st) "Custom".

(** The date label of a displayed record: none when [published_date] is
    falsy, "Date unavailable" when it does not parse, the formatted date
    otherwise. *)
Definition dateLabel (article : Article) : DateLabel :=
  if truthy (published_date article) then
    match new_Date (default "" (published_date article)) with
    | Some t => Formatted t
    | None => DateUnavailable
    end
  else NoLabel.

(** No displayed record is labelled "Date unavailable". *)
Definition labelled (st : State) : Prop :=
  ∀ a, In (Some a) (filteredNews st) -> dateLabel a ≠ DateUnavailable.
End Handlers.

End NewsScreen.

(** ** Concrete records for the further properties *)

Module MoreFixtures.

Definition article (category cve : option string) (published_date : option string)
  : NewsPage.Article :=
  {| NewsPage.title := None; NewsPage.category := category;
     NewsPage.severity := Some "High"; NewsPage.cve := cve;
     NewsPage.published_date := published_date |}.

(** Three records: ransomware of 24 February, phishing of 10 February and
    ransomware without a date. *)
Definition threeArticles : list (option NewsPage.Article) :=
  [ Some (article (Some "Phishing") None (Some "2025-02-10"));
    Some (article (Some "Ransomware") (Some "CVE-2025-0001") None);
    Some (article (Some "Ransomware") None (Some "2025-02-24T20:00:00Z")) ].



(** The news screen with the three records loaded and nothing selected. *)
Definition threeLoaded : NewsPage.State :=
  {| NewsPage.news := threeArticles;
     NewsPage.selectedCategory := "All";
     NewsPage.selectedSeverity := "All";
     NewsPage.selectedCVE := "All";
     NewsPage.timeFilter := "Latest";
     NewsPage.startDate := "";
     NewsPage.endDate := "";
     NewsPage.useDateRange := false;
     NewsPage.filteredNews := threeArticles |}.
End MoreFixtures.

(** ** The controls of the dashboard's phishing tab (PhishingView) *)

Module PhishingControls.
Import PhishingView.

(** The state on the first render. *)
Definition initialState : State :=
  {| timeRange := "30"; searchQuery := ""; thresholdScore := 60;
     targetFilter := "all"; activeTab := "detected" |}.

Definition setTimeRange (v : string) (st : State) : State :=
  {| timeRange := v; searchQuery := searchQuery st;
     thresholdScore := thresholdScore st; targetFilter := targetFilter st;
     activeTab := activeTab st |}.

Definition setSearchQuery (v : string) (st : State) : State :=
  {| timeRange := timeRange st; searchQuery := v;
     thresholdScore := thresholdScore st; targetFilter := targetFilter st;
     activeTab := activeTab st |}.

Definition setThresholdScore (v : Z) (st : State) : State :=
  {| timeRange := timeRange st; searchQuery := searchQuery st;
     thresholdScore := v; targetFilter := targetFilter st;
     activeTab := activeTab st |}.

Definition setTargetFilter (v : string) (st : State) : State :=
  {| timeRange := timeRange st; searchQuery := searchQuery st;
     thresholdScore := thresholdScore st; targetFilter := v;
     activeTab := activeTab st |}.

Definition setActiveTab (v : string) (st : State) : State :=
  {| timeRange := timeRange st; searchQuery := searchQuery st;
     thresholdScore := thresholdScore st; targetFilter := targetFilter st;
     activeTab := v |}.

(** The "Reset Filters" button, offered when no site is listed. *)
Definition resetFilters (st : State) : State :=
  setTargetFilter "all"
    (setThresholdScore 60 (setSearchQuery "" (setTimeRange "30" st))).

End PhishingControls.

(** ** The simulated scan of the dashboard's phishing tab (PhishingView) *)

Module MockScan.

(** The numbers of the progress bar are doubles; the properties below hold
    of every addition and comparison, so these are left open. *)
Class Numbers := {
  number : Type;
  zero : number;
  hundred : number;
  (** [prev + random * 15] *)
  advance : number -> number -> number;
  (** [newProgress >= 100] *)
  reached_100 : number -> bool
}.

Definition TimerId := positive.

(** The two state variables of the scan, the live intervals, and the
    number of pending [setTimeout] callbacks. *)
Record World `{Numbers} := {
  scanInProgress : bool;
  scanProgress : number;
  intervals : gset TimerId;
  nextTimer : TimerId;
  timeouts : nat
}.

Section Scan.
Context `{Numbers}.

(** The first render: [useState(false)], [useState(0)]. *)
Definition initial : World :=
  {| scanInProgress := false; scanProgress := zero; intervals := ∅;
     nextTimer := 1%positive; timeouts := 0 |}.

(** [startScan]: the interval handle is held by the local [const
    interval], which the callback closes over. *)
Definition startScan (w : World) : World :=
  {| scanInProgress := true; scanProgress := zero;
     intervals := {[ nextTimer w ]} ∪ intervals w;
     nextTimer := Pos.succ (nextTimer w); timeouts := timeouts w |}.

(** One firing of the interval [interval]: the updater passed to
    [setScanProgress], run once, [random] being the value of
    [Math.random()]. *)
Definition tick (interval : TimerId) (random : number) (w : World) : World :=
  let newProgress := advance (scanProgress w) random in
  if reached_100 newProgress then
    {| scanInProgress := scanInProgress w; scanProgress := hundred;
       intervals := intervals w ∖ {[ interval ]};
       nextTimer := nextTimer w; timeouts := S (timeouts w) |}
  else
    {| scanInProgress := scanInProgress w; scanProgress := newProgress;
       intervals := intervals w; nextTimer := nextTimer w;
       timeouts := timeouts w |}.

(** The callback of [setTimeout(..., 500)]. *)
Definition timeout (w : World) : World :=
  {| scanInProgress := false; scanProgress := scanProgress w;
     intervals := intervals w; nextTimer := nextTimer w;
     timeouts := pred (timeouts w) |}.

Inductive Event :=
| ClickStartScan
| IntervalFires (interval : TimerId) (random : number)
| TimeoutFires.

(** One event of the mounted component. The button is disabled while
    [scanInProgress]; a cleared interval does not fire, and a timeout
    fires only if one is pending. *)
Definition step (w : World) (e : Event) : World :=
  match e with
  | ClickStartScan => if scanInProgress w then w else startScan w
  | IntervalFires interval random =>
      if decide (interval ∈ intervals w) then tick interval random w else w
  | TimeoutFires =>
      match timeouts w with
      | O => w
      | S _ => timeout w
      end
  end.

Definition run (w : World) (es : list Event) : World := fold_left step es w.

(** The phases of the simulated scan: idle, with the bar at 0 before the
    first scan and at 100 after one; scanning, with exactly one interval;
    finishing, between the firing that reached 100 and the timeout. *)
Definition phase (w : World) : Prop :=
  (scanInProgress w = false ∧ intervals w = ∅ ∧ timeouts w = O ∧
   (scanProgress w = zero ∨ scanProgress w = hundred)) ∨
  (scanInProgress w = true ∧ (∃ i, intervals w = {[ i ]}) ∧ timeouts w = O) ∨
  (scanInProgress w = true ∧ intervals w = ∅ ∧ timeouts w = 1%nat ∧
   scanProgress w = hundred).
End Scan.

End MockScan.

(** ** The events of the threats tab (ThreatsView) *)

Module ThreatsSession.
Import ThreatsView.

(** The [name] attribute of the six filter controls. *)
Inductive FilterName :=
| name_category | name_severity | name_min_severity_score
| name_days | name_cve | name_search.

#[global] Instance FilterName_eq_dec : EqDecision FilterName.
Proof. solve_decision. Defined.

(** The one message that [fetchThreats] stores on failure. *)
Definition failure : string :=
  "Failed to load threats. Please check if the API server is running.".

Definition key (n : FilterName) : string :=
  match n with
  | name_category => "category"
  | name_severity => "severity"
  | name_min_severity_score => "min_severity_score"
  | name_days => "days"
  | name_cve => "cve"
  | name_search => "search"
  end.

(** [filters[name]] *)
Definition get (n : FilterName) (f : Filters) : string :=
  match n with
  | name_category => category f
  | name_severity => severity f
  | name_min_severity_score => min_severity_score f
  | name_days => days f
  | name_cve => cve f
  | name_search => search f
  end.

(** [{...prev, [name]: value}] *)
Definition update (n : FilterName) (value : string) (prev : Filters) : Filters :=
  {| category := match n with name_category => value | _ => category prev end;
     severity := match n with name_severity => value | _ => severity prev end;
     min_severity_score :=
       match n with name_min_severity_score => value | _ => min_severity_score prev end;
     days := match n with name_days => value | _ => days prev end;
     cve := match n with name_cve => value | _ => cve prev end;
     search := match n with name_search => value | _ => search prev end |}.

(** Outcomes of a request that [fetchThreats] treats as a failure: a
    rejected promise, or a response whose [ok] is false. *)
Definition failed {A : Type} (r : ThreatsView.Fetched A) : bool :=
  match r with
  | ThreatsView.Fulfilled true _ _ => false
  | _ => true
  end.

Section WithThreat.
Context {Threat : Type}.

Definition setFilters (f : Filters -> Filters) (st : State Threat) : State Threat :=
  {| threats := threats st; loading := loading st; error := error st;
     page := page st; totalPages := totalPages st; filters := f (filters st) |}.

Definition setLoading (v : bool) (st : State Threat) : State Threat :=
  {| threats := threats st; loading := v; error := error st;
     page := page st; totalPages := totalPages st; filters := filters st |}.

Definition handleFilterChange (name : FilterName) (value : string)
    (st : State Threat) : State Threat :=
  setPage (λ _, 1) (setFilters (update name value) st).

Definition clearFilters (st : State Threat) : State Threat :=
  setPage (λ _, 1) (setFilters (λ _, initialFilters) st).

(** What the results area renders. *)
Inductive Display :=
| LoadingSpinner
| ErrorMessage (message : string)
| NoThreats (pagination : bool)
| ThreatCards (cards : list Threat) (pagination : bool).

Definition display (st : State Threat) : Display :=
  if loading st then LoadingSpinner
  else if truthy (error st) then ErrorMessage (default "" (error st))
  else
    match threats st with
    | [] => NoThreats (1 <? totalPages st)
    | _ :: _ => ThreatCards (threats st) (1 <? totalPages st)
    end.

(** The pagination bar is part of the results, rendered when there is
    neither spinner nor error. *)
Definition resultsShown (st : State Threat) : bool :=
  negb (loading st) && negb (truthy (error st)).

(** The component and the requests it has sent, each as the parameters
    [page], [page_size] and the filters appended. *)
Record Session := {
  view : State Threat;
  sent : list (Z * Z * list (string * string))
}.

(** The effect on [[page, filters]]: [fetchThreats()] of the new render,
    up to its request. *)
Definition refetch (st : State Threat) (log : list (Z * Z * list (string * string)))
  : Session :=
  {| view := setLoading true st; sent := log ++ [fetchThreats_params st] |}.

(** Mounting runs the effect once. *)
Definition mount : Session := refetch initialState [].

Inductive Event :=
| ChangeFilter (name : FilterName) (value : string)
| ClickClearFilters
| ClickPrevious
| ClickNext
| Answer (r : Fetched (Body Threat)).

(** One event. [setFilters] always stores a new object, so the effect
    runs after every filter event; [setPage] with the page unchanged
    triggers nothing. *)
Definition step (s : Session) (e : Event) : Session :=
  match e with
  | ChangeFilter name value => refetch (handleFilterChange name value (view s)) (sent s)
  | ClickClearFilters => refetch (clearFilters (view s)) (sent s)
  | ClickPrevious =>
      if resultsShown (view s) then
        let st := clickPrevious (view s) in
        if page st =? page (view s) then s else refetch st (sent s)
      else s
  | ClickNext =>
      if resultsShown (view s) then
        let st := clickNext (view s) in
        if page st =? page (view s) then s else refetch st (sent s)
      else s
  | Answer r => {| view := fetchThreats (view s) r; sent := sent s |}
  end.

Definition run (s : Session) (es : list Event) : Session := fold_left step es s.
End WithThreat.
Arguments Session : clear implicits.
Arguments Event : clear implicits.
Arguments Display : clear implicits.

End ThreatsSession.

(** ** The listing of the phishing screen (PhishingDetection) *)

Module PhishingListing.
Import PhishingDetection.

#[global] Instance Filters_eq_dec : EqDecision Filters.
Proof. solve_decision. Defined.

Definition set_filters (v : Filters) (st : State) : State :=
  {| filters := v; sites := sites st; loading := loading st; error := error st;
     totalPages := totalPages st; scanInProgress := scanInProgress st;
     scanProgress := scanProgress st; scanInterval := scanInterval st |}.

(** The setters of the filter state. *)
Definition setActiveTab (v : string) (f : Filters) : Filters :=
  {| activeTab := v; timeRange := timeRange f; searchQuery := searchQuery f;
     thresholdScore := thresholdScore f; targetFilter := targetFilter f;
     sortBy := sortBy f; sortOrder := sortOrder f; currentPage := currentPage f |}.

Definition setTimeRange (v : string) (f : Filters) : Filters :=
  {| activeTab := activeTab f; timeRange := v; searchQuery := searchQuery f;
     thresholdScore := thresholdScore f; targetFilter := targetFilter f;
     sortBy := sortBy f; sortOrder := sortOrder f; currentPage := currentPage f |}.

Definition setSearchQuery (v : string) (f : Filters) : Filters :=
  {| activeTab := activeTab f; timeRange := timeRange f; searchQuery := v;
     thresholdScore := thresholdScore f; targetFilter := targetFilter f;
     sortBy := sortBy f; sortOrder := sortOrder f; currentPage := currentPage f |}.

Definition setThresholdScore (v : Z) (f : Filters) : Filters :=
  {| activeTab := activeTab f; timeRange := timeRange f; searchQuery := searchQuery f;
     thresholdScore := v; targetFilter := targetFilter f;
     sortBy := sortBy f; sortOrder := sortOrder f; currentPage := currentPage f |}.

Definition setTargetFilter (v : string) (f : Filters) : Filters :=
  {| activeTab := activeTab f; timeRange := timeRange f; searchQuery := searchQuery f;
     thresholdScore := thresholdScore f; targetFilter := v;
     sortBy := sortBy f; sortOrder := sortOrder f; currentPage := currentPage f |}.

Definition setCurrentPage (v : Z) (f : Filters) : Filters :=
  {| activeTab := activeTab f; timeRange := timeRange f; searchQuery := searchQuery f;
     thresholdScore := thresholdScore f; targetFilter := targetFilter f;
     sortBy := sortBy f; sortOrder := sortOrder f; currentPage := v |}.

(** The "Reset Filters" button. *)
Definition resetFilters (f : Filters) : Filters :=
  setCurrentPage 1
    (setTargetFilter "all"
       (setThresholdScore 60 (setSearchQuery "" (setTimeRange "30" f)))).

(** What the results area renders; [pagination] tells whether the bar is
    part of the list. *)
Inductive Display :=
| Spinner
| ErrorBox (message : string)
| NoSites
| SiteList (cards : list PhishingSite) (pagination : bool).

Definition display (st : State) : Display :=
  if loading st then Spinner
  else if truthy (error st) then ErrorBox (default "" (error st))
  else
    match sites st with
    | [] => NoSites
    | _ :: _ => SiteList (sites st) (1 <? totalPages st)
    end.

Definition paginationShown (st : State) : bool :=
  match display st with
  | SiteList _ pagination => pagination
  | _ => false
  end.

Definition cardsShown (st : State) : bool :=
  match display st with
  | SiteList _ _ => true
  | _ => false
  end.

(** The three requests started from a button, each of which ends in
    [fetchSites()] of the render the button belonged to. *)
Inductive Action :=
| reportSite (siteId : string)
| updateSiteStatus (siteId status : string)
| checkSingleUrl (url targetPage : string).

(** The message of the [Error] thrown on a response that is not ok. *)
Definition notOk (a : Action) (statusText : string) : string :=
  match a with
  | reportSite _ => "Error reporting site: " ++ statusText
  | updateSiteStatus _ _ => "Error updating site: " ++ statusText
  | checkSingleUrl _ _ => "Error checking URL: " ++ statusText
  end.

(** The component with its timers and request log, and the button
    requests that await their answer, each with the render it was
    started from. *)
Record Screen := {
  world : World;
  awaiting : list (Action * State)
}.

Definition on_world (f : World -> World) (s : Screen) : Screen :=
  {| world := f (world s); awaiting := awaiting s |}.

(** A change of the filter state by a control of the current render, and
    the effect that refetches when one of its eight values has changed. *)
Definition change (f : Filters -> Filters) (w : World) : World :=
  if mounted w then
    let st := set_filters (f (filters (comp w))) (comp w) in
    let w' := setState (λ _, st) w in
    if decide (filters st = filters (comp w)) then w' else call_fetchSites st w'
  else w.

(** Mounting: the mount effect, then the refetch effect, which also runs
    after the first render. *)
Definition mount (first : State) (next : TimerId) : Screen :=
  {| world := call_fetchSites first (PhishingDetection.mount first next);
     awaiting := [] |}.

(** The end of a button request. *)
Definition finish (a : Action) (render : State) (r : Fetched unit) (w : World) : World :=
  match r with
  | Fulfilled resp =>
      if ok resp then
        let w := call_fetchSites render w in
        match a with
        | updateSiteStatus _ _ => call_fetchStats w
        | _ => w
        end
      else setState (set_error (Some (notOk a (statusText resp)))) w
  | Rejected message => setState (set_error (Some message)) w
  end.

Inductive Event :=
| Scanning (e : PhishingDetection.Event)
| ClickTab (v : string)
| SelectTimeRange (v : string)
| MoveThreshold (v : Z)
| SelectTarget (v : string)
| TypeSearch (v : string)
| ClickResetFilters
| ClickPrevious
| ClickPage (page : Z)
| ClickNext
| SitesAnswer (r : Fetched (list PhishingSite))
| Click (a : Action)
| ActionAnswer (k : nat) (r : Fetched unit).

(** The page a pagination event asks for, if its button is rendered and
    enabled. *)
Definition pageAsked (st : State) (e : Event) : option Z :=
  let page := currentPage (filters st) in
  if paginationShown st then
    match e with
    | ClickPrevious => if page <=? 1 then None else Some (Z.max (page - 1) 1)
    | ClickPage k => if (1 <=? k) && (k <=? totalPages st) then Some k else None
    | ClickNext =>
        if totalPages st <=? page then None
        else Some (Z.min (page + 1) (totalPages st))
    | _ => None
    end
  else None.

(** Whether the button of an action can be clicked: the cards carry the
    report and status buttons; the URL form is always there and submits
    a non-empty URL. *)
Definition clickable (st : State) (a : Action) : bool :=
  match a with
  | checkSingleUrl url _ => negb (String.eqb url "")
  | _ => cardsShown st
  end.

Definition step (s : Screen) (e : Event) : Screen :=
  let w := world s in
  match e with
  | Scanning e' => on_world (λ w, PhishingDetection.step w e') s
  | ClickTab v => on_world (change (setActiveTab v)) s
  | SelectTimeRange v => on_world (change (setTimeRange v)) s
  | MoveThreshold v => on_world (change (setThresholdScore v)) s
  | SelectTarget v => on_world (change (setTargetFilter v)) s
  | TypeSearch v => on_world (change (setSearchQuery v)) s
  | ClickResetFilters => on_world (change resetFilters) s
  | ClickPrevious | ClickPage _ | ClickNext =>
      match pageAsked (comp w) e with
      | Some page => on_world (change (setCurrentPage page)) s
      | None => s
      end
  | SitesAnswer r => on_world (setState (λ st, fetchSites st r)) s
  | Click a =>
      if mounted w && clickable (comp w) a
      then {| world := w; awaiting := awaiting s ++ [(a, comp w)] |}
      else s
  | ActionAnswer k r =>
      match awaiting s !! k with
      | Some (a, render) =>
          {| world := finish a render r w; awaiting := delete k (awaiting s) |}
      | None => s
      end
  end.

Definition run (s : Screen) (es : list Event) : Screen := fold_left step es s.

(** Events that neither start nor end a button request. *)
Definition isControl (e : Event) : bool :=
  match e with
  | Click _ | ActionAnswer _ _ => false
  | _ => true
  end.

(** The requests that end a successful button request: the sites query of
    the render [render], and the statistics after a status update. *)
Definition refreshOf (a : Action) (render : State) : list Request :=
  GetSites (fetchSites_query render) ::
  match a with
  | updateSiteStatus _ _ => [GetStats]
  | _ => []
  end.

(** A render whose page is 1 or more and whose sort order is the one of
    the first render. *)
Definition sound (st : State) : Prop :=
  1 <= currentPage (filters st) ∧
  sortBy (filters st) = "first_detected" ∧ sortOrder (filters st) = "desc".

(** A sites query for a page from 1 on, 10 sites a page, newest first;
    any other request. *)
Definition well_asked (r : Request) : Prop :=
  match r with
  | GetSites q =>
      1 <= q_page q ∧ q_page_size q = 10 ∧
      q_sort_by q = "first_detected" ∧ q_sort_order q = "desc"
  | _ => True
  end.

(** Every render that can still send a query is sound, and so was every
    query sent. *)
Definition sound_world (w : World) : Prop :=
  sound (comp w) ∧
  (∀ i c, timers w !! i = Some c -> sound (cl_render c)) ∧
  Forall well_asked (requests w).

Definition all_sound (s : Screen) : Prop :=
  sound_world (world s) ∧ Forall (λ ar, sound ar.2) (awaiting s).

End PhishingListing.

(** ** A session of the phishing screen used in the runs below *)

Module ListingFixtures.
Import PhishingDetection PhishingListing.

Definition site (siteId : string) : PhishingSite :=
  {| id := siteId; url := "https://tamm-login.example"; domain := "tamm-login.example";
     status := "active"; first_detected := "2025-02-20T09:10:00Z";
     last_checked := "2025-02-24T15:20:00Z"; similarity_score := 88;
     target_page := "login" |}.

Definition pageOf (count : string) (cards : list PhishingSite)
  : Fetched (list PhishingSite) :=
  Fulfilled {| ok := true; statusText := "OK"; X_Total_Count := Some count;
               body := cards |}.

(** The screen after mounting and the answers to its two sites queries:
    page 1 of 25 sites. *)
Definition firstPageShown : Screen :=
  PhishingListing.run
    (PhishingListing.mount (initialState "detected" false None None) 1%positive)
    [ SitesAnswer (pageOf "25" [site "ps-1"; site "ps-2"]);
      SitesAnswer (pageOf "25" [site "ps-1"; site "ps-2"]) ].

End ListingFixtures.

(** ** Numbers as strings *)

Module JSNumber.

(** [n.toString()] for an integer [n]: its decimal digits, after a minus
    sign when it is negative. *)
Definition toString (n : Z) : string := NilZero.string_of_int (Z.to_int n).

End JSNumber.

(** ** Indicators tab (IndicatorsView) *)

Module IndicatorsView.
Import ThreatsView.

Record State (Indicator : Type) := {
  indicators : list Indicator;
  loading : bool;
  error : option string;
  selectedType : string;
  timeRange : Z
}.
Arguments indicators {Indicator}.
Arguments loading {Indicator}.
Arguments error {Indicator}.
Arguments selectedType {Indicator}.
Arguments timeRange {Indicator}.

(** The query of [GET /api/indicators]. *)
Record Query := {
  q_days : string;
  q_type : option string
}.

Definition failure : string :=
  "Failed to load indicators of compromise. Please check if the API server is running.".

Section WithIndicator.
Context {Indicator : Type}.

Definition initialState : State Indicator :=
  {| indicators := []; loading := true; error := None; selectedType := "";
     timeRange := 30 |}.

Definition setLoading (v : bool) (st : State Indicator) : State Indicator :=
  {| indicators := indicators st; loading := v; error := error st;
     selectedType := selectedType st; timeRange := timeRange st |}.

Definition setSelectedType (v : string) (st : State Indicator) : State Indicator :=
  {| indicators := indicators st; loading := loading st; error := error st;
     selectedType := v; timeRange := timeRange st |}.

Definition setTimeRange (v : Z) (st : State Indicator) : State Indicator :=
  {| indicators := indicators st; loading := loading st; error := error st;
     selectedType := selectedType st; timeRange := v |}.

(** The parameters of [fetchIndicators]: [days], and [type] when a type
    is selected. *)
Definition fetchIndicators_params (st : State Indicator) : Query :=
  {| q_days := JSNumber.toString (timeRange st);
     q_type := if String.eqb (selectedType st) "" then None
               else Some (selectedType st) |}.

(** The state after the response of [fetchIndicators] has been handled. *)
Definition fetchIndicators (st : State Indicator) (r : Fetched (list Indicator))
  : State Indicator :=
  match r with
  | Fulfilled true _ data =>
      {| indicators := data; loading := false; error := error st;
         selectedType := selectedType st; timeRange := timeRange st |}
  | _ =>
      {| indicators := indicators st; loading := false; error := Some failure;
         selectedType := selectedType st; timeRange := timeRange st |}
  end.

(** What the component returns: the spinner and the error message are
    returned early, without the filter controls. *)
Inductive Display :=
| LoadingSpinner
| ErrorMessage (message : string)
| Controls (table : list Indicator).

Definition display (st : State Indicator) : Display :=
  if loading st then LoadingSpinner
  else if truthy (error st) then ErrorMessage (default "" (error st))
  else Controls (indicators st).

Definition controlsShown (st : State Indicator) : bool :=
  match display st with
  | Controls _ => true
  | _ => false
  end.

(** The component, the queries it has sent, and how many of them have
    been answered. *)
Record Session := {
  view : State Indicator;
  sent : list Query;
  answered : nat
}.

(** The effect on [[selectedType, timeRange]], up to its request. *)
Definition refetch (st : State Indicator) (s : Session) : Session :=
  {| view := setLoading true st; sent := sent s ++ [fetchIndicators_params st];
     answered := answered s |}.

Definition mount : Session :=
  refetch initialState {| view := initialState; sent := []; answered := 0 |}.

Inductive Event :=
| SelectType (value : string)
| SelectTimeRange (value : Z)
| Answer (r : Fetched (list Indicator)).

(** One event. The selects exist only while the controls are rendered,
    and a setter that stores the value already held triggers nothing; an
    answer needs a query that awaits one. *)
Definition step (s : Session) (e : Event) : Session :=
  match e with
  | SelectType value =>
      let v := if String.eqb value "All Types" then "" else value in
      if controlsShown (view s) && negb (String.eqb v (selectedType (view s)))
      then refetch (setSelectedType v (view s)) s else s
  | SelectTimeRange value =>
      if controlsShown (view s) && negb (value =? timeRange (view s))
      then refetch (setTimeRange value (view s)) s else s
  | Answer r =>
      if (answered s <? length (sent s))%nat
      then {| view := fetchIndicators (view s) r; sent := sent s;
              answered := S (answered s) |}
      else s
  end.

Definition run (s : Session) (es : list Event) : Session := fold_left step es s.

(** Either the last query sent awaits its answer, the spinner is shown
    and the query is the one of the current settings; or every query has
    been answered and nothing is loading. *)
Definition one_in_flight (s : Session) : Prop :=
  (loading (view s) = true ∧ length (sent s) = S (answered s) ∧
   last (sent s) = Some (fetchIndicators_params (view s))) ∨
  (loading (view s) = false ∧ length (sent s) = answered s).
End WithIndicator.
Arguments Session : clear implicits.
Arguments Event : clear implicits.
Arguments Display : clear implicits.

End IndicatorsView.

(** * Properties *)

Import Clauses Fixtures.

(** ** The run-time model at work *)

Example iso_parse_date_only :
  iso_parse 0 "2025-02-20" = Some 1740009600000.
Proof. reflexivity. Qed.

Example iso_parse_date_time :
  iso_parse 0 "2025-02-15T08:30:00Z" = Some 1739608200000.
Proof. reflexivity. Qed.

Example iso_parse_local_time :
  iso_parse (-18000000) "2025-02-20T12:00:00" = iso_parse 0 "2025-02-20T12:00:00-05:00".
Proof. reflexivity. Qed.

Example iso_parse_no_such_day : iso_parse 0 "2025-02-29" = None.
Proof. reflexivity. Qed.

Example iso_parse_garbage : iso_parse 0 "yesterday" = None.
Proof. reflexivity. Qed.

Example parseInt_30 : parseInt "30" = Some 30.
Proof. reflexivity. Qed.

Example parseInt_all : parseInt "all" = None.
Proof. reflexivity. Qed.

(** 31 March minus one month is 31 February, that is 3 March. *)
Example setMonth_overflows :
  setMonth_plus (H := iso_runtime 0) 1743422400000 (-1) = 1741003200000.
Proof. reflexivity. Qed.

(** ** The calendar *)

Section Calendar.

Lemma year_of_era_bounds (doe : Z) :
  0 <= doe < 146097 ->
  0 <= (doe - doe / 1460 + doe / 36524 - doe / 146096) / 365 < 400.
Proof. intros Hdoe. Z.div_mod_to_equations. lia. Qed.

Lemma day_of_year_bounds (doe : Z) :
  0 <= doe < 146097 ->
  let yoe := (doe - doe / 1460 + doe / 36524 - doe / 146096) / 365 in
  0 <= doe - (365 * yoe + yoe / 4 - yoe / 100) <= 365.
Proof. intros Hdoe. cbv zeta. Z.div_mod_to_equations. lia. Qed.

Lemma month_index_bounds (doy : Z) : 0 <= doy <= 365 -> 0 <= (5 * doy + 2) / 153 <= 11.
Proof. intros Hdoy. Z.div_mod_to_equations. lia. Qed.

(** [civil_from_days] yields a month between 1 and 12, and
    [days_from_civil] takes the date back to the day number. *)
Lemma civil_round_trip (D : Z) :
  let '(y, m, d) := civil_from_days D in
  1 <= m <= 12 ∧ days_from_civil y m d = D.
Proof.
  unfold civil_from_days, days_from_civil.
  set (z := D + 719468).
  set (era := z / 146097).
  set (doe := z - era * 146097).
  assert (Hdoe : 0 <= doe < 146097).
  { unfold doe, era. pose proof (Z.div_mod z 146097 ltac:(lia)).
    pose proof (Z.mod_pos_bound z 146097 ltac:(lia)). lia. }
  pose proof (year_of_era_bounds doe Hdoe) as Hyoe.
  pose proof (day_of_year_bounds doe Hdoe) as Hdoy. cbv zeta in Hdoy.
  set (yoe := (doe - doe / 1460 + doe / 36524 - doe / 146096) / 365) in *.
  set (doy := doe - (365 * yoe + yoe / 4 - yoe / 100)) in *.
  pose proof (month_index_bounds doy Hdoy) as Hmp.
  set (mp := (5 * doy + 2) / 153) in *.
  assert (Hera : ∀ y, y = yoe + era * 400 -> y / 400 = era ∧ y - era * 400 = yoe).
  { intros y ->. split; [|lia].
    symmetry. apply (Z.div_unique _ _ era yoe); lia. }
  destruct (Z.ltb_spec mp 10) as [Hlt|Hge].
  - split; [lia|].
    destruct (Z.leb_spec (mp + 3) 2) as [?|_]; [lia|].
    destruct (Z.ltb_spec 2 (mp + 3)) as [_|?]; [|lia].
    destruct (Hera (yoe + era * 400) eq_refl) as [-> ->].
    replace (mp + 3 - 3) with mp by lia. fold doy. unfold doy, doe, z. lia.
  - split; [lia|].
    destruct (Z.leb_spec (mp - 9) 2) as [_|?]; [|lia].
    destruct (Z.ltb_spec 2 (mp - 9)) as [?|_]; [lia|].
    replace (yoe + era * 400 + 1 - 1) with (yoe + era * 400) by lia.
    destruct (Hera (yoe + era * 400) eq_refl) as [-> ->].
    replace (mp - 9 + 9) with mp by lia. unfold doy, doe, z. lia.
Qed.

Lemma days_from_civil_day (y m d : Z) :
  days_from_civil y m 1 + d - 1 = days_from_civil y m d.
Proof. unfold days_from_civil. lia. Qed.

Context `{Runtime}.

(** [setDate(getDate() + k)] moves a date by [k] days of 24 hours. *)
Lemma setDate_plus_days (t k : Z) : setDate_plus t k = t + k * msPerDay.
Proof.
  unfold setDate_plus, MakeDay, MakeDate, UTC.
  pose proof (civil_round_trip (Day (LocalTime t))) as Hrt.
  destruct (civil_from_days (Day (LocalTime t))) as [[y m] d].
  destruct Hrt as [Hm Hd].
  replace ((m - 1) / 12) with 0 by (symmetry; apply Z.div_small; lia).
  replace ((m - 1) mod 12 + 1) with m by (rewrite Z.mod_small; lia).
  rewrite Z.add_0_r.
  replace (days_from_civil y m 1 + (d + k) - 1)
    with (days_from_civil y m 1 + d - 1 + k) by lia.
  rewrite days_from_civil_day, Hd.
  unfold Day, TimeWithinDay, LocalTime, msPerDay.
  pose proof (Z.div_mod (t + LocalTZA) 86400000 ltac:(lia)). lia.
Qed.


End Calendar.

(** ** Sorting *)

Section SortFacts.
Context {A : Type} (cmp : A -> A -> Z).

Lemma sort_insert_Permutation x l : Permutation (sort_insert cmp x l) (x :: l).
Proof.
  induction l as [|y l IH]; simpl; [done|].
  destruct (cmp x y <=? 0); [done|].
  rewrite IH. apply perm_swap.
Qed.

Lemma Array_sort_Permutation l : Permutation (Array_sort cmp l) l.
Proof.
  induction l as [|x l IH]; simpl; [done|].
  rewrite sort_insert_Permutation. by constructor.
Qed.

Lemma Array_sort_In x l : In x (Array_sort cmp l) ↔ In x l.
Proof.
  split; apply Permutation_in; [|symmetry]; apply Array_sort_Permutation.
Qed.

(** Inserting into a list ordered by [R] keeps it ordered, when [cmp]
    decides [R] in both directions. *)
Lemma sort_insert_sorted (R : A -> A -> Prop) x l :
  Transitive R ->
  (∀ y, cmp x y <= 0 -> R x y) ->
  (∀ y, 0 < cmp x y -> R y x) ->
  StronglySorted R l -> StronglySorted R (sort_insert cmp x l).
Proof.
  intros HT Hle Hgt. induction 1 as [|y l Hs IH Hy]; simpl.
  - repeat constructor.
  - destruct (Z.leb_spec (cmp x y) 0) as [Hc|Hc].
    + constructor; [by constructor|].
      constructor; [by apply Hle|].
      eapply Forall_impl; [exact Hy|]. intros z Hz.
      by transitivity y; [apply Hle|].
    + constructor; [exact IH|].
      rewrite (sort_insert_Permutation x l).
      constructor; [by apply Hgt | exact Hy].
Qed.
End SortFacts.

(** ** The date sort of the news screen *)

Section DateSort.
Context `{Runtime}.
Import NewsPage.

(** The comparator in terms of the instants of its arguments. *)
Lemma compareDates_instants a b :
  match instant (published_date a), instant (published_date b) with
  | Some ta, Some tb => compareDates a b = tb - ta
  | Some _, None => compareDates a b = -1
  | None, Some _ => compareDates a b = 1
  | None, None => compareDates a b = 1 ∨ compareDates a b = -1
  end.
Proof.
  unfold compareDates, instant, new_Date.
  destruct (published_date a) as [[|ca ra]|]; simpl.
  - destruct (published_date b) as [[|cb rb]|]; simpl; auto.
    destruct (Date_parse (String cb rb)); auto.
  - destruct (Date_parse (String ca ra)) as [ta|] eqn:Ea;
      destruct (published_date b) as [[|cb rb]|]; simpl; auto;
      destruct (Date_parse (String cb rb)); auto.
  - destruct (published_date b) as [[|cb rb]|]; simpl; auto.
    destruct (Date_parse (String cb rb)); auto.
Qed.

#[local] Instance newest_first_trans : Transitive newest_first.
Proof.
  intros x y z. unfold newest_first.
  destruct (instant (published_date x)), (instant (published_date y)),
    (instant (published_date z)); try done; lia.
Qed.

Lemma compareDates_le a b : compareDates a b <= 0 -> newest_first a b.
Proof.
  pose proof (compareDates_instants a b) as Hc. unfold newest_first.
  destruct (instant (published_date a)), (instant (published_date b)); lia.
Qed.

Lemma compareDates_gt a b : 0 < compareDates a b -> newest_first b a.
Proof.
  pose proof (compareDates_instants a b) as Hc. unfold newest_first.
  destruct (instant (published_date a)), (instant (published_date b)); lia.
Qed.

Lemma Array_sort_newest_first l :
  StronglySorted newest_first (Array_sort compareDates l).
Proof.
  induction l as [|x l IH]; simpl; [constructor|].
  apply sort_insert_sorted; try done.
  - apply newest_first_trans.
  - apply compareDates_le.
  - intros y. apply compareDates_gt.
Qed.
End DateSort.

(** C3. The comparator of the date sort puts a record with a parseable
    timestamp before a record whose timestamp is missing or invalid, and
    orders two records with parseable timestamps newest first; the sorted
    array is ordered accordingly and holds the records of the input; the
    list Feb-20, Feb-10, missing comes out as Feb-20, Feb-10, missing,
    from whatever order it goes in. *)
Theorem date_sort_newest_first_undated_last :
  (∀ (R : Runtime) (a b : NewsPage.Article),
     match instant (NewsPage.published_date a), instant (NewsPage.published_date b) with
     | Some ta, Some tb =>
         (NewsPage.compareDates a b < 0 ↔ tb < ta) ∧
         (NewsPage.compareDates a b = 0 ↔ tb = ta)
     | Some _, None => NewsPage.compareDates a b < 0 ∧ 0 < NewsPage.compareDates b a
     | None, Some _ => 0 < NewsPage.compareDates a b ∧ NewsPage.compareDates b a < 0
     | None, None => True
     end) ∧
  (∀ (R : Runtime) (l : list NewsPage.Article),
     StronglySorted newest_first (Array_sort NewsPage.compareDates l) ∧
     Permutation (Array_sort NewsPage.compareDates l) l) ∧
  Forall
    (λ l, Array_sort (NewsPage.compareDates (H := iso_runtime 0)) l
          = [dated "2025-02-20"; dated "2025-02-10"; undated])
    [ [dated "2025-02-20"; dated "2025-02-10"; undated];
      [dated "2025-02-10"; dated "2025-02-20"; undated];
      [undated; dated "2025-02-10"; dated "2025-02-20"];
      [undated; dated "2025-02-20"; dated "2025-02-10"];
      [dated "2025-02-10"; undated; dated "2025-02-20"];
      [dated "2025-02-20"; undated; dated "2025-02-10"] ].
Proof.
  split; [|split].
  - intros R a b.
    pose proof (compareDates_instants a b) as Hab.
    pose proof (compareDates_instants b a) as Hba.
    destruct (instant (NewsPage.published_date a)),
      (instant (NewsPage.published_date b)); try done; lia.
  - intros R l. split.
    + apply Array_sort_newest_first.
    + apply Array_sort_Permutation.
  - repeat constructor.
Qed.

(** ** The filters *)

Lemma String_eqb_true (s1 s2 : string) : String.eqb s1 s2 = true ↔ s1 = s2.
Proof. apply String.eqb_eq. Qed.

Lemma String_eqb_false (s1 s2 : string) : String.eqb s1 s2 = false ↔ s1 ≠ s2.
Proof. apply String.eqb_neq. Qed.

Lemma truthy_true (v : option string) :
  truthy v = true ↔ ∃ s, v = Some s ∧ s ≠ "".
Proof.
  destruct v as [[|c s]|]; simpl; split; try done.
  - intros (s & [= <-] & Hs). done.
  - intros _. by eexists.
  - by intros (s & ? & _).
Qed.

Lemma Date_ge_Some (a b : Date) :
  Date_ge a b = true ↔ ∃ x y, a = Some x ∧ b = Some y ∧ y <= x.
Proof.
  destruct a as [x|], b as [y|]; simpl; split; try done.
  - intros Hxy. exists x, y. repeat split. lia.
  - intros (? & ? & [= <-] & [= <-] & Hxy). lia.
  - by intros (? & ? & _ & ? & _).
  - by intros (? & ? & ? & _).
  - by intros (? & ? & ? & _).
Qed.


Section NewsFilter.
Context `{Runtime}.
Import NewsPage.

Lemma fieldMatch_true sel field :
  fieldMatch sel field = true ↔
  sel = "All" ∨ ∃ v, field = Some v ∧ v ≠ "" ∧ toLowerCase v = toLowerCase sel.
Proof.
  unfold fieldMatch.
  rewrite orb_true_iff, andb_true_iff, String_eqb_true, truthy_true.
  split; intros [HAll|Hm]; auto; right.
  - destruct Hm as [(v & -> & Hv) Heq]. exists v.
    by rewrite String_eqb_true in Heq.
  - destruct Hm as (v & -> & Hv & Heq). split; [by exists v|].
    by rewrite String_eqb_true.
Qed.


Lemma dateMatch_true st now a :
  dateMatch st now a = true ↔
  match published_date a with
  | Some raw =>
      raw = "" ∨ ∃ t, Date_parse raw = Some t ∧ inWindow st now (Some t) = true
  | None => True
  end.
Proof.
  unfold dateMatch, new_Date.
  destruct (published_date a) as [[|c raw]|]; simpl; [by split; auto | | by split].
  destruct (Date_parse (String c raw)) as [t|]; simpl; split.
  - intros Hw. right. by exists t.
  - by intros [|(? & [= <-] & Hw)].
  - done.
  - by intros [|(? & ? & _)].
Qed.

Lemma In_filtered st now a :
  In a (filtered st now) ↔ In (Some a) (news st) ∧ keeps st now (Some a) = true.
Proof.
  unfold filtered. rewrite <- list_elem_of_In, list_elem_of_omap. split.
  - intros (y & Hy & Hid). simpl in Hid. subst y.
    by rewrite list_elem_of_In, filter_In in Hy.
  - intros Hin. exists (Some a). split; [|done].
    by rewrite list_elem_of_In, filter_In.
Qed.

Lemma In_sortedResults st now a :
  In a (sortedResults st now) ↔ In (Some a) (news st) ∧ keeps st now (Some a) = true.
Proof. unfold sortedResults. by rewrite Array_sort_In, In_filtered. Qed.
End NewsFilter.

Section RouteFilter.
Context `{Runtime}.
Import PhishingRoutePage.

Lemma route_keeps_true st a :
  keeps st a = true ↔
  isWithinCategory st a = true ∧ isWithinSeverity st a = true ∧
  isWithinCVE st a = true ∧
  ∃ t, instant (published_date a) = Some t ∧ isWithinDateRange st (Some t) = true.
Proof.
  unfold keeps, instant, new_Date.
  destruct (published_date a) as [[|c raw]|]; simpl;
    [by split; [|intros (_ & _ & _ & ? & ? & _)] |
     | by split; [|intros (_ & _ & _ & ? & ? & _)]].
  destruct (Date_parse (String c raw)) as [t|]; simpl.
  - rewrite !andb_true_iff. split.
    + intros [[[? ?] ?] ?]. repeat split; try done. by exists t.
    + by intros (? & ? & ? & ? & [= <-] & ?).
  - by split; [|intros (_ & _ & _ & ? & ? & _)].
Qed.

End RouteFilter.

Lemma In_filter_when {A} (c : bool) (p : A -> bool) (l : list A) (x : A) :
  In x (if c then List.filter p l else l) ↔ In x l ∧ (c = false ∨ p x = true).
Proof.
  destruct c; [rewrite filter_In|]; split; try tauto.
  intros [? [|]]; done.
Qed.

Section DashboardFilter.
Context `{Runtime}.
Import PhishingView.

Lemma In_fetchPhishingSites st now sites s :
  In s (fetchPhishingSites st now sites) ↔
  In s sites ∧
  (timeRange st = "all" ∨ inTimeRange st now s = true) ∧
  (searchQuery st = "" ∨ matchesSearch st s = true) ∧
  aboveThreshold st s = true ∧
  (targetFilter st = "all" ∨ onTarget st s = true) ∧
  (activeTab st ≠ "detected" ∨ isDetected s = true) ∧
  (activeTab st ≠ "mitigated" ∨ isMitigated s = true).
Proof.
  unfold fetchPhishingSites.
  assert (Hstatus : ∀ l,
    In s (if negb (String.eqb (activeTab st) "all") then
            if String.eqb (activeTab st) "detected" then List.filter isDetected l
            else if String.eqb (activeTab st) "mitigated"
                 then List.filter isMitigated l else l
          else l) ↔
    In s l ∧ (activeTab st ≠ "detected" ∨ isDetected s = true) ∧
             (activeTab st ≠ "mitigated" ∨ isMitigated s = true)).
  { intros l.
    destruct (String.eqb_spec (activeTab st) "all") as [E|E]; simpl.
    - rewrite E. split; [|tauto]. intros ?. repeat split; auto.
    - destruct (String.eqb_spec (activeTab st) "detected") as [E1|E1].
      + rewrite filter_In, E1. split; [|tauto].
        intros [? ?]. repeat split; auto.
      + destruct (String.eqb_spec (activeTab st) "mitigated") as [E2|E2].
        * rewrite filter_In. split; [|tauto]. intros [? ?]. repeat split; auto.
        * split; [|tauto]. intros ?. repeat split; auto. }
  cbv zeta.
  rewrite Hstatus, In_filter_when, filter_In, !In_filter_when,
    !negb_false_iff, !String_eqb_true.
  tauto.
Qed.
End DashboardFilter.

(** The dashboard's filter on its five mock sites, at noon of 25 February
    2025 with the initial settings (30 days, threshold 60, every target,
    tab "detected"): the site that was taken down is left out; with a
    7-day range the two sites detected before 18 February noon go as
    well. *)
Example fetchPhishingSites_on_mock_data :
  map PhishingView.id
    (PhishingView.fetchPhishingSites (H := iso_runtime 0) (dashboardState "30")
       noon_25_feb_2025 PhishingView.mockPhishingSites)
  = ["ps-001"; "ps-002"; "ps-003"; "ps-005"] ∧
  map PhishingView.id
    (PhishingView.fetchPhishingSites (H := iso_runtime 0) (dashboardState "7")
       noon_25_feb_2025 PhishingView.mockPhishingSites)
  = ["ps-002"; "ps-003"; "ps-005"].
Proof. split; reflexivity. Qed.



(** ** Records without a usable timestamp *)

(** C2 (as amended). On the phishing-route page a record whose timestamp
    is missing, empty or unparseable is never returned, whatever the date
    range; on the phishing dashboard a record whose timestamp is
    unparseable is not returned under any time range other than "all";
    on the news screen a record whose timestamp is present and unparseable
    is never returned, while a record whose timestamp is missing or empty
    passes the date clause under every time filter and is returned as soon
    as it passes the categorical clauses. *)
Theorem records_without_usable_timestamp (R : Runtime) :
  (∀ (st : PhishingRoutePage.State) (a : PhishingRoutePage.Article),
     instant (PhishingRoutePage.published_date a) = None ->
     ¬ In a (PhishingRoutePage.filteredNews st)) ∧
  (∀ (st : PhishingView.State) (now : Z) (sites : list PhishingView.Site)
     (s : PhishingView.Site),
     PhishingView.timeRange st ≠ "all" ->
     Date_parse (PhishingView.detectedDate s) = None ->
     ¬ In s (PhishingView.fetchPhishingSites st now sites)) ∧
  (∀ (st : NewsPage.State) (now : Z) (a : NewsPage.Article) (raw : string),
     NewsPage.published_date a = Some raw -> raw ≠ "" -> Date_parse raw = None ->
     ¬ In a (NewsPage.sortedResults st now)) ∧
  (∀ (st : NewsPage.State) (now : Z) (a : NewsPage.Article),
     truthy (NewsPage.published_date a) = false ->
     NewsPage.dateMatch st now a = true ∧
     (In a (NewsPage.sortedResults st now) ↔
      In (Some a) (NewsPage.news st) ∧
      NewsPage.categoryMatch st a = true ∧
      NewsPage.severityMatch st a = true ∧
      NewsPage.cveMatch st a = true)).
Proof.
  split; [|split; [|split]].
  - intros st a Hnone Hin.
    apply filter_In in Hin as [_ Hk].
    apply route_keeps_true in Hk as (_ & _ & _ & t & Ht & _). congruence.
  - intros st now sites s Hall Hbad Hin.
    apply In_fetchPhishingSites in Hin as (_ & [?|Ht] & _); [done|].
    unfold PhishingView.inTimeRange, new_Date in Ht. by rewrite Hbad in Ht.
  - intros st now a raw Hraw Hne Hbad Hin.
    apply In_sortedResults in Hin as [_ Hk]. simpl in Hk.
    rewrite !andb_true_iff in Hk. destruct Hk as [_ Hd].
    apply dateMatch_true in Hd. rewrite Hraw in Hd.
    destruct Hd as [|(t & Ht & _)]; congruence.
  - intros st now a Hfalsy.
    assert (Hd : NewsPage.dateMatch st now a = true).
    { unfold NewsPage.dateMatch. by rewrite Hfalsy. }
    split; [exact Hd|]. rewrite In_sortedResults. simpl.
    rewrite Hd, !andb_true_iff. tauto.
Qed.

(** C2 at concrete records: an undated record on the route page, a site
    with a garbled date on the dashboard, a news record with a garbled
    date, and a news record without a date. *)
Lemma records_without_usable_timestamp_at_instances :
  ¬ In (routeArticle "Malware" None)
      (PhishingRoutePage.filteredNews (H := iso_runtime 0)
         (routeState [routeArticle "Malware" None] "All")) ∧
  ¬ In (siteDetected "last tuesday")
      (PhishingView.fetchPhishingSites (H := iso_runtime 0) (dashboardState "30")
         noon_25_feb_2025 [siteDetected "last tuesday"]) ∧
  ¬ In (dated "soon")
      (NewsPage.sortedResults (H := iso_runtime 0)
         (newsState [Some (dated "soon")] "Last Week" "" "") noon_25_feb_2025) ∧
  NewsPage.dateMatch (H := iso_runtime 0)
    (newsState [Some undated] "Last Week" "" "") noon_25_feb_2025 undated = true.
Proof.
  destruct (records_without_usable_timestamp (iso_runtime 0)) as (H1 & H2 & H3 & H4).
  split; [|split; [|split]].
  - apply H1. reflexivity.
  - apply H2; [discriminate | reflexivity].
  - apply (H3 _ _ _ "soon"); [reflexivity | discriminate | reflexivity].
  - apply H4. reflexivity.
Defined.

(** C2 as first stated does not hold on the news screen: under
    "Last Week" a record without a timestamp is returned. *)
Lemma news_screen_returns_undated_record :
  NewsPage.published_date undated = None ∧
  In undated
    (NewsPage.sortedResults (H := iso_runtime 0)
       (newsState [Some (dated "2025-02-24"); Some undated] "Last Week" "" "")
       noon_25_feb_2025).
Proof. split; [reflexivity|]. vm_compute. auto. Qed.

(** ** Categorical clauses *)

(** C6 (as amended). On the news screen a record passes a category,
    severity or identifier clause other than "All" exactly when its field
    is present, not empty and equal to the criterion after lowercasing
    both. On the phishing-route page the three clauses, and on the phishing
    dashboard the target-page and status clauses, compare by exact string
    equality, so letter case matters there. *)
Theorem categorical_clauses (R : Runtime) :
  (∀ (st : NewsPage.State) (a : NewsPage.Article),
     (NewsPage.selectedCategory st ≠ "All" ->
      NewsPage.categoryMatch st a = true ↔
      ∃ v, NewsPage.category a = Some v ∧ v ≠ "" ∧
           toLowerCase v = toLowerCase (NewsPage.selectedCategory st)) ∧
     (NewsPage.selectedSeverity st ≠ "All" ->
      NewsPage.severityMatch st a = true ↔
      ∃ v, NewsPage.severity a = Some v ∧ v ≠ "" ∧
           toLowerCase v = toLowerCase (NewsPage.selectedSeverity st)) ∧
     (NewsPage.selectedCVE st ≠ "All" ->
      NewsPage.cveMatch st a = true ↔
      ∃ v, NewsPage.cve a = Some v ∧ v ≠ "" ∧
           toLowerCase v = toLowerCase (NewsPage.selectedCVE st))) ∧
  (∀ (st : PhishingRoutePage.State) (a : PhishingRoutePage.Article),
     (PhishingRoutePage.selectedCategory st ≠ "All" ->
      PhishingRoutePage.isWithinCategory st a = true ↔
      PhishingRoutePage.category a = PhishingRoutePage.selectedCategory st) ∧
     (PhishingRoutePage.selectedSeverity st ≠ "All" ->
      PhishingRoutePage.isWithinSeverity st a = true ↔
      PhishingRoutePage.severity a = PhishingRoutePage.selectedSeverity st) ∧
     (PhishingRoutePage.selectedCVE st ≠ "All" ->
      PhishingRoutePage.isWithinCVE st a = true ↔
      PhishingRoutePage.cve a = Some (PhishingRoutePage.selectedCVE st))) ∧
  (∀ (st : PhishingView.State) (s : PhishingView.Site),
     (PhishingView.onTarget st s = true ↔
      PhishingView.targetPage s = PhishingView.targetFilter st) ∧
     (PhishingView.isDetected s = true ↔
      PhishingView.status s = "active" ∨ PhishingView.status s = "monitoring") ∧
     (PhishingView.isMitigated s = true ↔ PhishingView.status s = "taken-down")).
Proof.
  split; [|split].
  - intros st a.
    unfold NewsPage.categoryMatch, NewsPage.severityMatch, NewsPage.cveMatch.
    split; [|split]; intros Hsel; rewrite fieldMatch_true; tauto.
  - intros st a.
    unfold PhishingRoutePage.isWithinCategory, PhishingRoutePage.isWithinSeverity,
      PhishingRoutePage.isWithinCVE.
    split; [|split]; intros Hsel;
      apply String_eqb_false in Hsel; rewrite Hsel; simpl.
    + apply String_eqb_true.
    + apply String_eqb_true.
    + destruct (PhishingRoutePage.cve a) as [v|]; [|done].
      rewrite String_eqb_true. split; [by intros -> | by intros [= ->]].
  - intros st s.
    unfold PhishingView.onTarget, PhishingView.isDetected, PhishingView.isMitigated.
    by rewrite orb_true_iff, !String_eqb_true.
Qed.

(** C6 at concrete records: "malware" against the criterion "Malware" on
    the news screen and on the phishing-route page. *)
Lemma categorical_clauses_at_instances :
  NewsPage.categoryMatch (H := iso_runtime 0)
    {| NewsPage.news := []; NewsPage.selectedCategory := "Malware";
       NewsPage.selectedSeverity := "All"; NewsPage.selectedCVE := "All";
       NewsPage.timeFilter := "Latest"; NewsPage.startDate := "";
       NewsPage.endDate := ""; NewsPage.useDateRange := false;
       NewsPage.filteredNews := [] |}
    {| NewsPage.title := None; NewsPage.category := Some "malware";
       NewsPage.severity := None; NewsPage.cve := None;
       NewsPage.published_date := None |} = true ∧
  PhishingRoutePage.isWithinCategory (routeState [] "Malware")
    (routeArticle "Malware" (Some "2025-02-20")) = true.
Proof.
  destruct (categorical_clauses (iso_runtime 0)) as (H1 & H2 & _).
  split.
  - apply H1; [discriminate|]. exists "malware". by repeat split.
  - apply H2; [discriminate | reflexivity].
Defined.

(** C6 as first stated does not hold on the phishing-route page:
    the category "malware" equals the criterion "Malware" after
    lowercasing, yet the record does not pass the clause and the filter
    drops it. *)
Lemma route_page_category_is_case_sensitive :
  toLowerCase (Runtime := iso_runtime 0)
    (PhishingRoutePage.category (routeArticle "malware" (Some "2025-02-20")))
  = toLowerCase (Runtime := iso_runtime 0)
      (PhishingRoutePage.selectedCategory
         (routeState [routeArticle "malware" (Some "2025-02-20")] "Malware")) ∧
  PhishingRoutePage.isWithinCategory
    (routeState [routeArticle "malware" (Some "2025-02-20")] "Malware")
    (routeArticle "malware" (Some "2025-02-20")) = false ∧
  PhishingRoutePage.filteredNews (H := iso_runtime 0)
    (routeState [routeArticle "malware" (Some "2025-02-20")] "Malware") = [] ∧
  PhishingRoutePage.filteredNews (H := iso_runtime 0)
    (routeState [routeArticle "malware" (Some "2025-02-20")] "All")
  = [routeArticle "malware" (Some "2025-02-20")].
Proof. repeat split. Qed.

(** ** Paging *)

Section Paging.
Context {A : Type}.
Import ResultFilter.

Lemma firstn_plus (a b : nat) (l : list A) :
  firstn (a + b) l = (firstn a l ++ firstn b (skipn a l))%list.
Proof.
  revert l. induction a as [|a IH]; intros [|x l]; simpl; try done.
  - by destruct b.
  - by rewrite IH.
Qed.

Lemma page_is_slice (matches : list A) (p n : nat) :
  fst (filter_page matches (S p) n) = firstn n (skipn (p * n) matches).
Proof.
  unfold filter_page, Array_slice. cbn [fst].
  replace (S p - 1)%nat with p by lia.
  by replace (S p * n - p * n)%nat with n by lia.
Qed.

(** The first [k] pages, one after the other, are the first [k * n]
    records. *)
Lemma first_pages (matches : list A) (n k : nat) :
  concat (map (λ p, fst (filter_page matches p n)) (seq 1 k)) = firstn (k * n) matches.
Proof.
  induction k as [|k IH]; [done|].
  rewrite seq_S, map_app, concat_app, IH. cbn [map concat Nat.add].
  rewrite app_nil_r, page_is_slice.
  replace (S k * n)%nat with (k * n + n)%nat by lia.
  by rewrite firstn_plus.
Qed.

Lemma all_pages (matches : list A) (n k : nat) :
  (length matches <= k * n)%nat ->
  concat (map (λ p, fst (filter_page matches p n)) (seq 1 k)) = matches.
Proof. intros Hk. rewrite first_pages. by apply firstn_all2. Qed.
End Paging.

Lemma ceil_div_ge (a b : Z) : 0 < b -> a <= b * ResultFilter.ceil_div a b.
Proof.
  intros Hb. unfold ResultFilter.ceil_div.
  pose proof (Z.mul_div_le (- a) b Hb). lia.
Qed.

Lemma ceil_div_covers (len n : nat) :
  (1 <= n)%nat ->
  (len <= Z.to_nat (ResultFilter.ceil_div (Z.of_nat len) (Z.of_nat n)) * n)%nat.
Proof.
  intros Hn.
  pose proof (ceil_div_ge (Z.of_nat len) (Z.of_nat n)) as Hge.
  assert (0 <= ResultFilter.ceil_div (Z.of_nat len) (Z.of_nat n)) by nia.
  nia.
Qed.

(** C4. With [n >= 1] records per page, the pages 1 to the last page
    that the client computes from the total ([fetchSites]: from the
    [X-Total-Count] header; [fetchThreats]: from [total]), put one after
    the other, are exactly the filtered, sorted result: nothing dropped,
    nothing twice, nothing out of order. With the 10 records per page of
    the two components, the last page is the [totalPages] that
    [fetchSites] and [fetchThreats] store. *)
Theorem pages_concatenate_to_filtered_result {A : Type}
    (matches : list A) (n : nat) (header : option string) :
  (1 <= n)%nat ->
  PhishingDetection.totalCount header = Some (Z.of_nat (length matches)) ->
  concat
    (map (λ p, fst (ResultFilter.filter_page matches p n))
       (seq 1 (Z.to_nat (PhishingDetection.pagesFor
                           (PhishingDetection.totalCount header) (Z.of_nat n)))))
  = matches ∧
  concat
    (map (λ p, fst (ResultFilter.filter_page matches p n))
       (seq 1 (Z.to_nat (ResultFilter.ceil_div
                           (Z.of_nat (snd (ResultFilter.filter_page matches 1 n)))
                           (Z.of_nat n)))))
  = matches ∧
  (∀ (st : PhishingDetection.State) (page : list PhishingDetection.PhishingSite),
     concat
       (map (λ p, fst (ResultFilter.filter_page matches p 10))
          (seq 1 (Z.to_nat
                    (PhishingDetection.totalPages
                       (PhishingDetection.fetchSites st
                          (PhishingDetection.Fulfilled
                             {| PhishingDetection.ok := true;
                                PhishingDetection.statusText := "OK";
                                PhishingDetection.X_Total_Count := header;
                                PhishingDetection.body := page |}))))))
     = matches) ∧
  (∀ (T : Type) (st : ThreatsView.State T) (page : list T),
     concat
       (map (λ p, fst (ResultFilter.filter_page matches p 10))
          (seq 1 (Z.to_nat
                    (ThreatsView.totalPages
                       (ThreatsView.fetchThreats st
                          (ThreatsView.Fulfilled true 200
                             {| ThreatsView.results := page;
                                ThreatsView.total :=
                                  Z.of_nat (snd (ResultFilter.filter_page matches 1 10))
                             |}))))))
     = matches).
Proof.
  intros Hn Hcount.
  assert (Hsites : ∀ k : nat, (1 <= k)%nat ->
            (length matches
             <= Z.to_nat (PhishingDetection.pagesFor
                            (PhishingDetection.totalCount header) (Z.of_nat k)) * k)%nat).
  { intros k Hk. pose proof (ceil_div_covers (length matches) k Hk) as Hc.
    rewrite Hcount. unfold PhishingDetection.pagesFor.
    destruct (Z.eqb_spec (ResultFilter.ceil_div (Z.of_nat (length matches)) (Z.of_nat k)) 0)
      as [E|E]; [|done].
    rewrite E in Hc. simpl in Hc. lia. }
  split; [|split; [|split]].
  - by apply all_pages, Hsites.
  - by apply all_pages, ceil_div_covers.
  - intros st page. apply all_pages. apply (Hsites 10%nat). lia.
  - intros T st page. apply all_pages.
    apply (ceil_div_covers (length matches) 10). lia.
Qed.

(** C4 at 23 records, 10 per page, header "23": three pages. *)
Lemma pages_concatenate_at_23_records :
  PhishingDetection.pagesFor (PhishingDetection.totalCount (Some "23")) 10 = 3 ∧
  concat
    (map (λ p, fst (ResultFilter.filter_page (seq 100 23) p 10))
       (seq 1 (Z.to_nat (PhishingDetection.pagesFor
                           (PhishingDetection.totalCount (Some "23")) (Z.of_nat 10)))))
  = seq 100 23.
Proof.
  split; [reflexivity|].
  apply (pages_concatenate_to_filtered_result (seq 100 23) 10 (Some "23")).
  - lia.
  - reflexivity.
Defined.




(** ** The end of the custom date range on the news screen *)

Section EndOfDay.
Context `{Runtime}.
Import NewsPage.

Lemma Day_le (x d : Z) : Day x <= d ↔ x < (d + 1) * msPerDay.
Proof.
  unfold Day, msPerDay. split; intros Hx.
  - pose proof (Z.mul_succ_div_gt x 86400000 eq_refl). nia.
  - apply Z.lt_succ_r. apply Z.div_lt_upper_bound; lia.
Qed.

Lemma Day_shift (d r : Z) : 0 <= r < msPerDay -> Day (d * msPerDay + r) = d.
Proof.
  unfold Day, msPerDay. intros Hr.
  symmetry. apply (Z.div_unique _ _ d r); lia.
Qed.

(** [endDateObj] when the date picker's value parses, as a date-only
    string does, to the UTC midnight that starts day [d]. *)
Lemma endDateObj_of_day st d :
  endDate st ≠ "" -> Date_parse (endDate st) = Some (d * msPerDay) ->
  endDateObj st
  = Some (Some (Day (d * msPerDay + LocalTZA) * msPerDay + 86399999 - LocalTZA)).
Proof.
  intros Hne Hparse. unfold endDateObj, new_Date, setHours.
  apply String_eqb_false in Hne. rewrite Hne, Hparse.
  reflexivity.
Qed.

(** At or east of Greenwich the bound is the last millisecond of the
    chosen day in local time: a record passes exactly when its local day
    is not after the chosen day. *)
Lemma end_bound_east st d t e :
  0 <= LocalTZA < msPerDay ->
  endDate st ≠ "" -> Date_parse (endDate st) = Some (d * msPerDay) ->
  endDateObj st = Some e ->
  Date_le (Some t) e = true ↔ Day (LocalTime t) <= d.
Proof.
  intros Htz Hne Hparse He.
  rewrite (endDateObj_of_day st d Hne Hparse) in He. injection He as <-.
  rewrite Day_shift by done. simpl. rewrite Day_le. unfold LocalTime, msPerDay.
  rewrite Z.leb_le. lia.
Qed.

(** West of Greenwich the UTC midnight of the chosen day falls on the
    evening before, so the bound is the end of the day before: a record
    passes exactly when its local day is before the chosen day. *)
Lemma end_bound_west st d t e :
  - msPerDay <= LocalTZA < 0 ->
  endDate st ≠ "" -> Date_parse (endDate st) = Some (d * msPerDay) ->
  endDateObj st = Some e ->
  Date_le (Some t) e = true ↔ Day (LocalTime t) <= d - 1.
Proof.
  intros Htz Hne Hparse He.
  rewrite (endDateObj_of_day st d Hne Hparse) in He. injection He as <-.
  replace (d * msPerDay + LocalTZA) with ((d - 1) * msPerDay + (msPerDay + LocalTZA))
    by lia.
  rewrite Day_shift by lia. simpl. rewrite Day_le. unfold LocalTime, msPerDay.
  rewrite Z.leb_le. lia.
Qed.
End EndOfDay.

(** C10, on the code as it is. In a browser at UTC-05:00 with the range
    ending on 2025-02-20, the end bound is 2025-02-19T23:59:59.999 local
    time (04:59:59.999Z on the 20th); a record of noon, local time, on the
    chosen end day is dropped, and one of 23:00 on the day before is kept.
    At UTC and at UTC+04:00 the record of noon on the end day is kept. *)
Theorem custom_range_end_day_west_of_greenwich :
  NewsPage.endDateObj (H := iso_runtime (-18000000))
    (newsState [] "Custom" "" "2025-02-20")
  = Some (iso_parse 0 "2025-02-20T04:59:59.999Z") ∧
  NewsPage.sortedResults (H := iso_runtime (-18000000))
    (newsState [Some (dated "2025-02-20T12:00:00-05:00")] "Custom" "" "2025-02-20")
    noon_25_feb_2025 = [] ∧
  NewsPage.sortedResults (H := iso_runtime (-18000000))
    (newsState [Some (dated "2025-02-19T23:00:00-05:00")] "Custom" "" "2025-02-20")
    noon_25_feb_2025 = [dated "2025-02-19T23:00:00-05:00"] ∧
  NewsPage.sortedResults (H := iso_runtime 0)
    (newsState [Some (dated "2025-02-20T12:00:00Z")] "Custom" "" "2025-02-20")
    noon_25_feb_2025 = [dated "2025-02-20T12:00:00Z"] ∧
  NewsPage.sortedResults (H := iso_runtime 14400000)
    (newsState [Some (dated "2025-02-20T12:00:00+04:00")] "Custom" "" "2025-02-20")
    noon_25_feb_2025 = [dated "2025-02-20T12:00:00+04:00"].
Proof. repeat split. Qed.

(** ** The store under the filters *)

Section StoreFacts.
Context {Obj : Type}.
Import Store.
Implicit Types h : heap Obj.

#[global] Instance extends_refl : Reflexive (@extends Obj).
Proof. by intros h. Qed.

#[global] Instance extends_trans : Transitive (@extends Obj).
Proof.
  intros h1 h2 h3 [Ho1 Ha1] [Ho2 Ha2]. split.
  - congruence.
  - by transitivity (arrays h2).
Qed.

Lemma array_new_spec xs h :
  arrays h !! (array_new xs h).1 = None ∧
  arrays (array_new xs h).2 !! (array_new xs h).1 = Some xs ∧
  extends h (array_new xs h).2.
Proof.
  unfold array_new. simpl.
  assert (Hfresh : arrays h !! fresh (dom (arrays h)) = None).
  { apply not_elem_of_dom. apply is_fresh. }
  repeat split.
  - done.
  - apply lookup_insert_eq.
  - simpl. by apply insert_subseteq.
Qed.

Lemma array_filter_extends cb a h : extends h (array_filter cb a h).2.
Proof. apply array_new_spec. Qed.

Lemma array_spread_extends a h : extends h (array_spread a h).2.
Proof. apply array_new_spec. Qed.

(** Sorting an array that [h0] does not have leaves [h0] as it is. *)
Lemma array_sort_extends cmp a h0 h :
  arrays h0 !! a = None -> extends h0 h -> extends h0 (array_sort cmp a h).2.
Proof.
  intros Hnone [Ho Ha]. split; simpl; [done|].
  by apply insert_subseteq_r.
Qed.

Lemma extends_deref h h' e : extends h h' -> deref h' e = deref h e.
Proof. intros [Ho _]. unfold deref. by rewrite Ho. Qed.

Lemma extends_fresh h h' a :
  extends h h' -> arrays h' !! a = None -> arrays h !! a = None.
Proof. intros [_ Ha] Hnone. by eapply lookup_weaken_None. Qed.
End StoreFacts.

Section FiltersOnStore.
Context `{Runtime}.
Import Store.

Lemma filter_if_extends {Obj} (c : bool) (p : Obj -> bool) a (h : heap Obj) :
  extends h (OnStore.filter_if c p a h).2.
Proof.
  unfold OnStore.filter_if. destruct c; [apply array_filter_extends | done].
Qed.

Lemma bind_run {Obj A B} (m : M (Obj := Obj) A) (k : A -> M B) (h : heap Obj) :
  (m ≫= k) h = k (m h).1 (m h).2.
Proof. unfold mbind, M_bind. by destruct (m h). Qed.

Lemma handleSearch_run st now news (h : heap NewsPage.Article) :
  OnStore.handleSearch st now news h =
  if Nat.eqb (length (default [] (arrays h !! news))) 0 then (None, h)
  else
    let r1 := array_filter (NewsPage.keeps st now) news h in
    let r2 := array_spread r1.1 r1.2 in
    let r3 := array_sort NewsPage.compareDates r2.1 r2.2 in
    (Some r3.1, r3.2).
Proof.
  unfold OnStore.handleSearch. rewrite bind_run. unfold array_length at 1 2.
  cbn [fst snd]. destruct (Nat.eqb _ 0); [done|].
  by rewrite !bind_run.
Qed.

Lemma handleSearch_extends st now news (h : heap NewsPage.Article) :
  extends h (OnStore.handleSearch st now news h).2.
Proof.
  rewrite handleSearch_run. destruct (Nat.eqb _ 0); [done|]. cbv zeta. cbn [snd].
  set (r1 := array_filter (NewsPage.keeps st now) news h).
  set (r2 := array_spread r1.1 r1.2).
  assert (X1 : extends h r1.2) by apply array_filter_extends.
  destruct (array_new_spec (default [] (arrays r1.2 !! r1.1)) r1.2) as (F2 & _ & X2).
  fold (array_spread r1.1 r1.2) in F2, X2. fold r2 in F2, X2.
  apply array_sort_extends.
  - by apply (extends_fresh h r1.2).
  - by transitivity r1.2.
Qed.

Lemma filteredNews_extends st news (h : heap PhishingRoutePage.Article) :
  extends h (OnStore.filteredNews st news h).2.
Proof. apply array_filter_extends. Qed.

Lemma fetchPhishingSites_extends st now sites (h : heap PhishingView.Site) :
  extends h (OnStore.fetchPhishingSites st now sites h).2.
Proof.
  unfold OnStore.fetchPhishingSites. rewrite !bind_run.
  set (r1 := array_spread sites h).
  set (r2 := OnStore.filter_if _ _ r1.1 r1.2).
  set (r3 := OnStore.filter_if _ _ r2.1 r2.2).
  set (r4 := array_filter _ r3.1 r3.2).
  set (r5 := OnStore.filter_if _ _ r4.1 r4.2).
  transitivity r1.2; [apply array_spread_extends|].
  transitivity r2.2; [apply filter_if_extends|].
  transitivity r3.2; [apply filter_if_extends|].
  transitivity r4.2; [apply array_filter_extends|].
  transitivity r5.2; [apply filter_if_extends|].
  cbn [mret M_ret snd].
  destruct (negb (String.eqb (PhishingView.activeTab st) "all")); [|reflexivity].
  destruct (String.eqb _ "detected"); [apply array_filter_extends|].
  destruct (String.eqb _ "mitigated"); [apply array_filter_extends|reflexivity].
Qed.
End FiltersOnStore.

(** C9. Running a filter, with its sort, on the store changes no record
    object and no array that was there before; the source array, holding
    the references [xs], holds the same references in the same order
    afterwards. What the filter builds lives in arrays allocated by the
    run. *)
Theorem filters_leave_source_unchanged (R : Runtime) (xs : list Store.entry) :
  (∀ (st : NewsPage.State) (now : Z) (h : Store.heap NewsPage.Article),
     let src := Store.array_new xs h in
     let out := OnStore.handleSearch st now src.1 src.2 in
     Store.objects out.2 = Store.objects h ∧
     Store.arrays src.2 ⊆ Store.arrays out.2 ∧
     Store.arrays out.2 !! src.1 = Some xs) ∧
  (∀ (st : PhishingRoutePage.State) (h : Store.heap PhishingRoutePage.Article),
     let src := Store.array_new xs h in
     let out := OnStore.filteredNews st src.1 src.2 in
     Store.objects out.2 = Store.objects h ∧
     Store.arrays src.2 ⊆ Store.arrays out.2 ∧
     Store.arrays out.2 !! src.1 = Some xs) ∧
  (∀ (st : PhishingView.State) (now : Z) (h : Store.heap PhishingView.Site),
     let src := Store.array_new xs h in
     let out := OnStore.fetchPhishingSites st now src.1 src.2 in
     Store.objects out.2 = Store.objects h ∧
     Store.arrays src.2 ⊆ Store.arrays out.2 ∧
     Store.arrays out.2 !! src.1 = Some xs).
Proof.
  split; [|split]; intros; subst src out.
  - destruct (array_new_spec xs h) as (_ & Hxs & [Ho _]).
    destruct (handleSearch_extends st now (Store.array_new xs h).1
                (Store.array_new xs h).2) as [Ho' Ha'].
    split; [congruence|]. split; [done|]. by eapply lookup_weaken.
  - destruct (array_new_spec xs h) as (_ & Hxs & [Ho _]).
    destruct (filteredNews_extends st (Store.array_new xs h).1
                (Store.array_new xs h).2) as [Ho' Ha'].
    split; [congruence|]. split; [done|]. by eapply lookup_weaken.
  - destruct (array_new_spec xs h) as (_ & Hxs & [Ho _]).
    destruct (fetchPhishingSites_extends st now (Store.array_new xs h).1
                (Store.array_new xs h).2) as [Ho' Ha'].
    split; [congruence|]. split; [done|]. by eapply lookup_weaken.
Qed.

(** *** The run on the store computes what the screen shows *)

Section SortMaps.
Context {A B : Type}.

Lemma sort_insert_ext (c1 c2 : A -> A -> Z) x l :
  (∀ x y, c1 x y = c2 x y) -> sort_insert c1 x l = sort_insert c2 x l.
Proof.
  intros Hc. induction l as [|y l IH]; simpl; [done|].
  by rewrite Hc, IH.
Qed.

Lemma Array_sort_ext (c1 c2 : A -> A -> Z) l :
  (∀ x y, c1 x y = c2 x y) -> Array_sort c1 l = Array_sort c2 l.
Proof.
  intros Hc. induction l as [|x l IH]; simpl; [done|].
  rewrite IH. by apply sort_insert_ext.
Qed.

Lemma sort_insert_map (f : B -> A) (c : A -> A -> Z) x l :
  map f (sort_insert (λ x y, c (f x) (f y)) x l) = sort_insert c (f x) (map f l).
Proof.
  induction l as [|y l IH]; simpl; [done|].
  destruct (c (f x) (f y) <=? 0); simpl; [done|]. by rewrite IH.
Qed.

Lemma Array_sort_map (f : B -> A) (c : A -> A -> Z) l :
  map f (Array_sort (λ x y, c (f x) (f y)) l) = Array_sort c (map f l).
Proof.
  induction l as [|x l IH]; simpl; [done|].
  by rewrite sort_insert_map, IH.
Qed.

Lemma filter_map_commute (f : B -> A) (p : A -> bool) l :
  map f (List.filter (λ x, p (f x)) l) = List.filter p (map f l).
Proof.
  induction l as [|x l IH]; simpl; [done|].
  destruct (p (f x)); simpl; by rewrite IH.
Qed.
End SortMaps.

Lemma all_Some_map {A : Type} (l : list (option A)) :
  Forall is_Some l -> l = map Some (omap id l).
Proof.
  induction 1 as [|o l [x ->] _ IH]; [done|].
  change (Some x :: l = Some x :: map Some (omap id l)). by f_equal.
Qed.

Section OnStoreAgrees.
Context `{Runtime}.
Import Store.

(** [handleSearch] on the store and [handleSearch] on the state agree: when
    the [news] state is the content of the array [news], the array handed to
    [setFilteredNews] has the content [sortedResults], and no array is
    handed over exactly when the state version returns at once. *)
Lemma handleSearch_on_store_agrees st now news (h : heap NewsPage.Article) :
  NewsPage.news st = content h news ->
  match OnStore.handleSearch st now news h with
  | (Some result, h') =>
      map Some (NewsPage.sortedResults st now) = content h' result ∧
      NewsPage.handleSearch st now
      = NewsPage.set_filteredNews st (content h' result)
  | (None, h') => NewsPage.handleSearch st now = st ∧ h' = h
  end.
Proof.
  intros Hnews. rewrite handleSearch_run.
  unfold NewsPage.handleSearch, NewsPage.sortedResults, NewsPage.filtered.
  assert (Hc : content h news = map (deref h) (default [] (arrays h !! news)))
    by done.
  rewrite Hnews, Hc. clear Hc.
  destruct (default [] (arrays h !! news)) as [|e0 entries'] eqn:Hentries.
  { cbn [length Nat.eqb map]. done. }
  cbn [length Nat.eqb]. cbv zeta.
  assert (Hcons : ∀ (l : list (option NewsPage.Article)) (x y : NewsPage.State),
            l = map (deref h) (e0 :: entries') ->
            match l with [] => x | _ :: _ => y end = y) by by intros ? ? ? ->.
  rewrite (Hcons _ _ _ eq_refl). clear Hcons.
  remember (e0 :: entries') as entries eqn:Hcons.
  set (r1 := array_filter (NewsPage.keeps st now) news h).
  set (r2 := array_spread r1.1 r1.2).
  assert (H1 : arrays r1.2 !! r1.1
               = Some (List.filter (λ e, NewsPage.keeps st now (deref h e)) entries)).
  { rewrite <- Hentries. apply array_new_spec. }
  assert (X1 : extends h r1.2) by apply array_filter_extends.
  destruct (array_new_spec (default [] (arrays r1.2 !! r1.1)) r1.2) as (_ & H2 & X2).
  fold (array_spread r1.1 r1.2) in H2, X2. fold r2 in H2, X2.
  rewrite H1 in H2.
  change (arrays r2.2 !! r2.1
          = Some (List.filter (λ e, NewsPage.keeps st now (deref h e)) entries)) in H2.
  assert (Hd : ∀ e, deref r2.2 e = deref h e).
  { intros e'. rewrite (extends_deref r1.2 r2.2) by done. by apply extends_deref. }
  assert (Hcontent :
    map Some (Array_sort NewsPage.compareDates
                (omap id (List.filter (NewsPage.keeps st now) (map (deref h) entries))))
    = content (array_sort NewsPage.compareDates r2.1 r2.2).2
        (array_sort NewsPage.compareDates r2.1 r2.2).1).
  { set (fl := List.filter (λ e, NewsPage.keeps st now (deref h e)) entries) in *.
    set (cmp_opt := λ o1 o2 : option NewsPage.Article,
           match o1, o2 with
           | Some x, Some y => NewsPage.compareDates x y
           | _, _ => 0
           end).
    set (r3 := array_sort NewsPage.compareDates r2.1 r2.2).
    assert (H3 : arrays r3.2 !! r3.1
                 = Some (Array_sort (λ x y, cmp_opt (deref r2.2 x) (deref r2.2 y)) fl)).
    { unfold r3, array_sort. cbn [fst snd arrays]. rewrite lookup_insert_eq, H2.
      reflexivity. }
    assert (Hd3 : ∀ e, deref r3.2 e = deref h e) by (intros; apply Hd).
    unfold content. rewrite H3. change (default [] (Some ?l)) with l.
    transitivity
      (map (deref h) (Array_sort (λ x y, cmp_opt (deref h x) (deref h y)) fl));
      [|rewrite (Array_sort_ext _ (λ x y, cmp_opt (deref r2.2 x) (deref r2.2 y)))
          by (intros; by rewrite !Hd);
        apply map_ext; intros; symmetry; apply Hd3].
    rewrite (Array_sort_map (deref h) cmp_opt).
    unfold fl. rewrite filter_map_commute.
    set (shown := List.filter (NewsPage.keeps st now) (map (deref h) entries)).
    rewrite (all_Some_map shown) at 2.
    - exact (Array_sort_map Some cmp_opt _).
    - apply List.Forall_forall. intros o Ho.
      apply filter_In in Ho as [_ Ho]. by destruct o. }
  split; [exact Hcontent|].
  by rewrite <- Hcontent.
Qed.
End OnStoreAgrees.

(** ** Scan polling *)

Section Polling.
Import PhishingDetection.

(** A setter that leaves [scanInterval] alone keeps the order of handles. *)
Lemma setState_in_order f w :
  (∀ st, scanInterval (f st) = scanInterval st) ->
  handles_in_order w -> handles_in_order (setState f w).
Proof.
  intros Hf (Ht & Hc & Hf1). split; [exact Ht|]. split; [|exact Hf1].
  intros j. simpl. destruct (mounted w); [rewrite Hf|]; apply Hc.
Qed.

Lemma send_in_order r w : handles_in_order w -> handles_in_order (send r w).
Proof. done. Qed.

Lemma stopPolling_in_order render w :
  handles_in_order w -> handles_in_order (stopPolling render w).
Proof.
  intros (Ht & Hc & Hf1). unfold stopPolling.
  destruct (scanInterval render) as [i|]; [|done]. split; [|split; [|exact Hf1]].
  - intros k c. simpl. intros Hk.
    apply lookup_delete_Some in Hk as [_ Hk]. by apply Ht.
  - intros j. simpl. destruct (mounted w); [done|]. apply Hc.
Qed.

Lemma checkScanProgress_in_order render scanId r w :
  handles_in_order w -> handles_in_order (checkScanProgress render scanId r w).
Proof.
  intros Hw. unfold checkScanProgress, call_fetchStats, call_fetchSites.
  destruct r as [resp|msg]; [destruct (ok resp); [destruct (isTerminal _)|]|];
    repeat first
      [ apply send_in_order
      | apply setState_in_order; [done|]
      | apply stopPolling_in_order ];
    done.
Qed.

Lemma startScan_in_order r w :
  handles_in_order w -> handles_in_order (startScan (comp w) r w).
Proof.
  intros Hw. pose proof Hw as (Ht & Hc & Hf1). unfold startScan.
  destruct r as [resp|msg]; [destruct (ok resp)|];
    try (repeat first [apply send_in_order | apply setState_in_order; [done|]];
         exact Hw).
  split; [|split].
  - intros i c. simpl. intros Hi.
    apply lookup_insert_Some in Hi as [[<- <-]|[Hne Hi]].
    + split; [lia|]. split; [exact Hc | exact Hf1].
    + destruct (Ht i c Hi) as (Hlt & Hr & Hfr). split; [lia|]. by split.
  - intros j. simpl. destruct (mounted w); simpl.
    + intros [= <-]. lia.
    + intros Hj. apply Hc in Hj. lia.
  - intros j Hj. simpl. apply Hf1 in Hj. lia.
Qed.

Lemma in_order_fewer_timers w w' :
  timers w' ⊆ timers w -> nextTimer w' = nextTimer w ->
  firstRender w' = firstRender w -> comp w' = comp w ->
  handles_in_order w -> handles_in_order w'.
Proof.
  intros Hsub Hn Hf Hcomp (Ht & Hc & Hf1). unfold handles_in_order.
  rewrite Hn, Hf, Hcomp. split; [|by split].
  intros i c Hi. apply Ht. by eapply lookup_weaken.
Qed.

Lemma unmount_in_order w : handles_in_order w -> handles_in_order (unmount w).
Proof.
  apply in_order_fewer_timers; unfold unmount;
    destruct (scanInterval (firstRender w)); simpl; try done.
  apply delete_subseteq.
Qed.

Lemma step_in_order w e : handles_in_order w -> handles_in_order (step w e).
Proof.
  intros Hw. destruct e as [r|i r|]; simpl.
  - destruct (_ && _); [by apply startScan_in_order | done].
  - destruct (timers w !! i); [by apply checkScanProgress_in_order | done].
  - destruct (mounted w); [by apply unmount_in_order | done].
Qed.

Lemma run_in_order w es : handles_in_order w -> handles_in_order (run w es).
Proof.
  revert w. induction es as [|e es IH]; intros w Hw; [done|].
  apply IH. by apply step_in_order.
Qed.

Lemma mount_in_order first next :
  (∀ j, scanInterval first = Some j -> (j < next)%positive) ->
  handles_in_order (mount first next).
Proof.
  intros Hfirst. unfold mount, call_fetchStats, call_fetchSites.
  apply send_in_order, send_in_order, setState_in_order; [done|].
  by repeat split.
Qed.

(** What an event can do to the live intervals. *)

Lemma stopPolling_timers render w :
  timers (stopPolling render w)
  = match scanInterval render with
    | Some j => delete j (timers w)
    | None => timers w
    end.
Proof. unfold stopPolling. by destruct (scanInterval render). Qed.

Lemma checkScanProgress_timers render scanId r w :
  timers (checkScanProgress render scanId r w) = timers w ∨
  ∃ j, scanInterval render = Some j ∧
       timers (checkScanProgress render scanId r w) = delete j (timers w).
Proof.
  unfold checkScanProgress, call_fetchStats, call_fetchSites.
  destruct r as [resp|msg]; [destruct (ok resp); [destruct (isTerminal _)|]|];
    cbn [timers send setState]; rewrite ?stopPolling_timers;
    cbn [timers send setState];
    destruct (scanInterval render) as [j|]; eauto.
Qed.

Lemma startScan_timers render r w :
  timers (startScan render r w) = timers w ∨
  ∃ c, timers (startScan render r w) = <[nextTimer w := c]> (timers w).
Proof.
  unfold startScan.
  destruct r as [resp|msg]; [destruct (ok resp)|]; cbn; eauto.
Qed.

Lemma youngest_after_delete w w' i j :
  youngest w i -> (j < i)%positive -> timers w' = delete j (timers w) ->
  youngest w' i.
Proof.
  intros [Hi Hmax] Hj Ht. unfold youngest. rewrite Ht. split.
  - rewrite lookup_delete_ne by lia. done.
  - intros k Hk. apply Hmax. rewrite lookup_delete_is_Some in Hk. tauto.
Qed.

Lemma youngest_same_timers w w' i :
  youngest w i -> timers w' = timers w -> youngest w' i.
Proof. intros Hy Ht. unfold youngest. by rewrite Ht. Qed.

(** No event stops the youngest live interval: a firing interval clears
    at most the handle its render holds, the unmount clean-up at most the
    handle the first render holds, and both are older. A successful
    [startScan] makes its new interval the youngest. *)
Lemma youngest_survives w e i :
  handles_in_order w -> youngest w i ->
  youngest (step w e) i ∨ youngest (step w e) (nextTimer w).
Proof.
  intros (Ht & Hc & Hf1) Hy. destruct e as [r|k r|]; simpl.
  - destruct (_ && _); [|by left].
    destruct (startScan_timers (comp w) r w) as [Hsame|[c Hnew]].
    + left. by apply (youngest_same_timers w).
    + right. split; rewrite Hnew.
      * rewrite lookup_insert_eq. by eexists.
      * intros k Hk. rewrite lookup_insert_is_Some in Hk.
        destruct Hk as [->|[_ [c' Hk]]]; [lia|].
        destruct (Ht k c' Hk) as (? & _). lia.
  - left. destruct (timers w !! k) as [c|] eqn:Hk; [|done].
    destruct (checkScanProgress_timers (cl_render c) (cl_scanId c) r w)
      as [Hsame|(j & Hj & Hdel)].
    + by apply (youngest_same_timers w).
    + apply (youngest_after_delete w _ i j); [done| |done].
      destruct (Ht k c Hk) as (_ & Hr & _). specialize (Hr j Hj).
      destruct Hy as [_ Hmax].
      assert (k <= i)%positive by (apply Hmax; by exists c). lia.
  - left. destruct (mounted w); [|done]. unfold unmount.
    destruct (scanInterval (firstRender w)) as [j|] eqn:Hj.
    + apply (youngest_after_delete w _ i j); [done| |done].
      destruct Hy as [[c Hi] _]. destruct (Ht i c Hi) as (_ & _ & Hfr).
      by apply Hfr.
    + by apply (youngest_same_timers w).
Qed.

(** Once an interval is live, some interval stays live through every run
    of events: polling does not stop. *)
Lemma polling_never_stops w es :
  handles_in_order w -> (∃ i, youngest w i) -> ∃ i, youngest (run w es) i.
Proof.
  revert w. induction es as [|e es IH]; intros w Hw [i Hy]; [by exists i|].
  simpl. apply IH; [by apply step_in_order|].
  destruct (youngest_survives w e i Hw Hy); eauto.
Qed.

(** On a mounted screen without a scan in progress, a click on the scan
    button whose POST succeeds leaves a live interval that closes over the
    render of the click, with the handle that render held. *)
Lemma startScan_closes_over_click w resp :
  handles_in_order w -> mounted w = true -> scanInProgress (comp w) = false ->
  ok resp = true ->
  youngest (step w (ClickStartScan (Fulfilled resp))) (nextTimer w) ∧
  timers (step w (ClickStartScan (Fulfilled resp))) !! nextTimer w
  = Some {| cl_scanId := scan_id (body resp); cl_render := comp w |}.
Proof.
  intros (Ht & _) Hm Hs Hok. unfold step. rewrite Hm, Hs. cbn [andb negb].
  assert (Hnew : timers (startScan (comp w) (Fulfilled resp) w)
                 = <[nextTimer w := {| cl_scanId := scan_id (body resp);
                                       cl_render := comp w |}]> (timers w)).
  { unfold startScan. by rewrite Hok. }
  unfold youngest. rewrite Hnew, lookup_insert_eq. split; [split|done].
  - by eexists.
  - intros k Hk. rewrite lookup_insert_is_Some in Hk.
    destruct Hk as [->|[_ [c' Hk]]]; [lia|].
    destruct (Ht k c' Hk) as (? & _). lia.
Qed.
End Polling.

Section Unmounting.
Import PhishingDetection.

(** The unmount clean-up clears the handle that the first render holds,
    which no live interval has: the live intervals are all left running. *)
Lemma unmount_clears_no_live_interval w :
  handles_in_order w -> timers (unmount w) = timers w.
Proof.
  intros (Ht & _). unfold unmount.
  destruct (scanInterval (firstRender w)) as [j|] eqn:Hj; [|done]. simpl.
  apply delete_id.
  destruct (timers w !! j) as [c|] eqn:Hc; [|done].
  destruct (Ht j c Hc) as (_ & _ & Hfr). specialize (Hfr j eq_refl). lia.
Qed.

(** After the unmount every live interval keeps firing, and every firing
    sends a scan-progress request. *)
Lemma interval_polls_after_unmount w i c r :
  timers w !! i = Some c ->
  polls (step w (IntervalFires i r)) = S (polls w).
Proof.
  intros Hi. simpl. rewrite Hi.
  unfold polls, checkScanProgress, call_fetchStats, call_fetchSites.
  assert (Hone : ∀ l rq, isGetScan rq = false ->
            List.filter isGetScan (l ++ [rq])%list = List.filter isGetScan l).
  { intros l rq Hrq. rewrite List.filter_app. simpl. rewrite Hrq. apply app_nil_r. }
  assert (Hscan : ∀ l s,
            length (List.filter isGetScan (l ++ [GetScan s])%list)
            = S (length (List.filter isGetScan l))).
  { intros l s. rewrite List.filter_app, length_app. simpl. lia. }
  destruct r as [resp|msg]; [destruct (ok resp); [destruct (isTerminal _)|]|];
    unfold stopPolling; destruct (scanInterval (cl_render c));
    cbn [requests send setState clearInterval];
    rewrite ?Hone by done; apply Hscan.
Qed.
End Unmounting.

Section StartedScan.
Import PhishingDetection.

(** Whatever the initial values of the four state variables whose
    declarations are missing (the scan idle, so that the button is
    enabled, and the initial handle, if any, an older one): once the
    first scan has started, every run of events leaves an interval live. *)
Lemma started_scan_polls_forever activeTab0 scanProgress0 scanInterval0 next resp es :
  (∀ j, scanInterval0 = Some j -> (j < next)%positive) ->
  ok resp = true ->
  ∃ i, youngest
         (run (mount (initialState activeTab0 false scanProgress0 scanInterval0) next)
            (ClickStartScan (Fulfilled resp) :: es)) i.
Proof.
  intros Hold Hok.
  set (w := mount (initialState activeTab0 false scanProgress0 scanInterval0) next).
  assert (Hw : handles_in_order w) by by apply mount_in_order.
  change (∃ i, youngest (run (step w (ClickStartScan (Fulfilled resp))) es) i).
  apply polling_never_stops; [by apply step_in_order|].
  exists (nextTimer w). by apply startScan_closes_over_click.
Qed.
End StartedScan.

(** C7, on the code as it is. The screen is mounted and a scan is started;
    the polls answer running, running, completed. The interval's callback
    closes over the render of the click, in which [scanInterval] is still
    [null], so [checkScanProgress] clears nothing: after the poll that
    saw "completed" the interval is still live and the state still holds
    its handle; that poll triggered one refresh (the other sites-and-stats
    fetch is the one of mounting). The next firing polls again and, the
    answer being "completed" again, refreshes again. *)
Theorem poll_outlives_completed_scan :
  PhishingDetection.timers
    (PhishingDetection.run ScanFixtures.justMounted ScanFixtures.scanToCompletion)
    !! 1%positive
  = Some {| PhishingDetection.cl_scanId := "scan-1";
            PhishingDetection.cl_render :=
              PhishingDetection.comp ScanFixtures.justMounted |} ∧
  PhishingDetection.scanInterval
    (PhishingDetection.comp ScanFixtures.justMounted) = None ∧
  PhishingDetection.scanInterval
    (PhishingDetection.comp
       (PhishingDetection.run ScanFixtures.justMounted ScanFixtures.scanToCompletion))
  = Some 1%positive ∧
  PhishingDetection.polls
    (PhishingDetection.run ScanFixtures.justMounted ScanFixtures.scanToCompletion)
  = 3%nat ∧
  PhishingDetection.statsFetches
    (PhishingDetection.run ScanFixtures.justMounted ScanFixtures.scanToCompletion)
  = 2%nat ∧
  PhishingDetection.polls
    (PhishingDetection.step
       (PhishingDetection.run ScanFixtures.justMounted ScanFixtures.scanToCompletion)
       (PhishingDetection.IntervalFires 1%positive
          (ScanFixtures.answered (ScanFixtures.progressWith "completed" 100))))
  = 4%nat ∧
  PhishingDetection.statsFetches
    (PhishingDetection.step
       (PhishingDetection.run ScanFixtures.justMounted ScanFixtures.scanToCompletion)
       (PhishingDetection.IntervalFires 1%positive
          (ScanFixtures.answered (ScanFixtures.progressWith "completed" 100))))
  = 3%nat.
Proof. repeat split; vm_compute; reflexivity. Qed.

(** C8, on the code as it is. A scan is started, polls once, and the
    screen is unmounted. The clean-up closes over the first render, in
    which [scanInterval] is [null], so it clears nothing: the interval is
    still live after the unmount and its next firing sends another
    scan-progress request. *)
Theorem unmount_leaves_poll_running :
  PhishingDetection.mounted
    (PhishingDetection.run ScanFixtures.justMounted
       [ PhishingDetection.ClickStartScan
           (ScanFixtures.answered (ScanFixtures.progressWith "running" 0));
         PhishingDetection.IntervalFires 1%positive
           (ScanFixtures.answered (ScanFixtures.progressWith "running" 30));
         PhishingDetection.Unmount ]) = false ∧
  PhishingDetection.scanInterval
    (PhishingDetection.firstRender ScanFixtures.justMounted) = None ∧
  is_Some
    (PhishingDetection.timers
       (PhishingDetection.run ScanFixtures.justMounted
          [ PhishingDetection.ClickStartScan
              (ScanFixtures.answered (ScanFixtures.progressWith "running" 0));
            PhishingDetection.IntervalFires 1%positive
              (ScanFixtures.answered (ScanFixtures.progressWith "running" 30));
            PhishingDetection.Unmount ]) !! 1%positive) ∧
  PhishingDetection.polls
    (PhishingDetection.run ScanFixtures.justMounted
       [ PhishingDetection.ClickStartScan
           (ScanFixtures.answered (ScanFixtures.progressWith "running" 0));
         PhishingDetection.IntervalFires 1%positive
           (ScanFixtures.answered (ScanFixtures.progressWith "running" 30));
         PhishingDetection.Unmount ]) = 1%nat ∧
  PhishingDetection.polls
    (PhishingDetection.run ScanFixtures.justMounted
       [ PhishingDetection.ClickStartScan
           (ScanFixtures.answered (ScanFixtures.progressWith "running" 0));
         PhishingDetection.IntervalFires 1%positive
           (ScanFixtures.answered (ScanFixtures.progressWith "running" 30));
         PhishingDetection.Unmount;
         PhishingDetection.IntervalFires 1%positive
           (ScanFixtures.answered (ScanFixtures.progressWith "running" 60)) ])
  = 2%nat.
Proof.
  repeat split; try (vm_compute; reflexivity).
  vm_compute. by eexists.
Qed.

(** * Further properties of the screens *)

(** ** The option lists of the news screens *)

Section SetSpread.
Import Options.

Lemma existsb_eqb_In (v : string) (seen : list string) :
  existsb (String.eqb v) seen = true ↔ v ∈ seen.
Proof.
  rewrite existsb_exists. split.
  - intros (x & Hx & Hv). apply String.eqb_eq in Hv as ->. by apply list_elem_of_In.
  - intros Hv. exists v. split; [by apply list_elem_of_In | by apply String.eqb_refl].
Qed.

Lemma Set_spread_elem (seen values : list string) (v : string) :
  v ∈ Set_spread seen values ↔ v ∈ values ∧ v ∉ seen.
Proof.
  revert seen. induction values as [|x rest IH]; intros seen; simpl.
  - split; [by intros ?%elem_of_nil | by intros [?%elem_of_nil _]].
  - destruct (existsb (String.eqb x) seen) eqn:E.
    + apply existsb_eqb_In in E. rewrite IH, elem_of_cons. split; [tauto|].
      intros [[->|?] ?]; [done | tauto].
    + assert (x ∉ seen) by (intros ?%existsb_eqb_In; congruence).
      rewrite !elem_of_cons, IH, elem_of_cons.
      destruct (decide (v = x)) as [->|]; tauto.
Qed.

Lemma Set_spread_NoDup (seen values : list string) : NoDup (Set_spread seen values).
Proof.
  revert seen. induction values as [|x rest IH]; intros seen; simpl; [constructor|].
  destruct (existsb (String.eqb x) seen); [apply IH|].
  constructor; [|apply IH].
  rewrite Set_spread_elem, elem_of_cons. tauto.
Qed.

Lemma Set_spread_sublist (seen values : list string) :
  sublist (Set_spread seen values) values.
Proof.
  revert seen. induction values as [|x rest IH]; intros seen; simpl; [constructor|].
  destruct (existsb (String.eqb x) seen).
  - by apply sublist_cons.
  - by apply sublist_skip.
Qed.

End SetSpread.

Section NewsOptions.
Import Options.

Lemma mapM_id_None {A : Type} (l : list (option A)) :
  mapM id l = None ↔ None ∈ l.
Proof.
  induction l as [|[x|] l IH]; simpl.
  - split; [done | by intros ?%elem_of_nil].
  - rewrite elem_of_cons. destruct (mapM id l) as [k|]; simpl.
    + split; [done|]. intros [?|Hl]; [done|]. by apply IH in Hl.
    + split; [|done]. intros _. right. by apply IH.
  - split; [|done]. intros _. by left.
Qed.

Lemma mapM_id_Some {A : Type} (l : list (option A)) (k : list A) :
  mapM id l = Some k -> l = map Some k.
Proof.
  revert k. induction l as [|[x|] l IH]; intros k; simpl.
  - by intros [= <-].
  - destruct (mapM id l) as [k'|]; simpl; [|done].
    intros [= <-]. simpl. f_equal. by apply IH.
  - done.
Qed.

(** The values offered for a property [p]: none when an entry is [null];
    otherwise the truthy values of [p], each once, in the order in which
    the records bring them. *)
Lemma truthy_values_spec (p : NewsPage.Article -> option string)
    (news : list (option NewsPage.Article)) :
  match truthy_values p news with
  | None => None ∈ news
  | Some values =>
      (None ∉ news) ∧
      (∀ v, v ∈ distinct values ↔
            v ≠ "" ∧ ∃ a, Some a ∈ news ∧ p a = Some v) ∧
      NoDup (distinct values) ∧
      sublist (distinct values) (omap (λ o, (o ≫= p)) news)
  end.
Proof.
  unfold truthy_values.
  destruct (mapM id news) as [articles|] eqn:E; simpl; [|by apply mapM_id_None].
  pose proof (mapM_id_Some _ _ E) as ->. clear E.
  split; [|split; [|split]].
  - intros (a & ? & _)%list_elem_of_fmap. done.
  - intros v. unfold distinct. rewrite Set_spread_elem, list_elem_of_omap.
    split.
    + intros [(a & Ha & Hp) _]. apply list_elem_of_In, filter_In in Ha as [Ha Ht].
      rewrite Hp in Ht. split; [by destruct v|].
      exists a. split; [|done]. apply list_elem_of_fmap. exists a.
      split; [done | by apply list_elem_of_In].
    + intros [Hv (a & (a' & [= <-] & Ha)%list_elem_of_fmap & Hp)].
      split; [|by intros ?%elem_of_nil]. exists a. split; [|done].
      apply list_elem_of_In, filter_In. split; [by apply list_elem_of_In|].
      rewrite Hp. by destruct v.
  - apply Set_spread_NoDup.
  - etransitivity; [apply Set_spread_sublist|].
    induction articles as [|a articles IH]; [constructor|].
    cbn. destruct (p a) as [v|] eqn:Hp; cbn.
    + destruct v as [|c v]; cbn; rewrite ?Hp; [by apply sublist_cons|].
      by apply sublist_skip.
    + exact IH.
Qed.
End NewsOptions.

(** X1. The category and CVE option lists of the news screen. Computing
    them throws exactly when the news array has a [null] entry. Otherwise
    each list is "All" followed by the non-empty values that the records
    carry, each value once, in the order in which the records bring them. *)
Theorem news_option_lists (news : list (option NewsPage.Article)) :
  match Options.categories news with
  | None => None ∈ news
  | Some options =>
      (None ∉ news) ∧
      ∃ values, options = "All" :: values ∧ NoDup values ∧
        (∀ v, v ∈ values ↔
              v ≠ "" ∧ ∃ a, Some a ∈ news ∧ NewsPage.category a = Some v) ∧
        sublist values (omap (λ o, (o ≫= NewsPage.category)) news)
  end ∧
  match Options.cveOptions news with
  | None => None ∈ news
  | Some options =>
      (None ∉ news) ∧
      ∃ values, options = "All" :: values ∧ NoDup values ∧
        (∀ v, v ∈ values ↔
              v ≠ "" ∧ ∃ a, Some a ∈ news ∧ NewsPage.cve a = Some v) ∧
        sublist values (omap (λ o, (o ≫= NewsPage.cve)) news)
  end.
Proof.
  split.
  - unfold Options.categories.
    pose proof (truthy_values_spec NewsPage.category news) as Hspec.
    destruct (Options.truthy_values NewsPage.category news) as [values|]; simpl;
      [|done].
    destruct Hspec as (? & ? & ? & ?). split; [done|]. by eexists.
  - unfold Options.cveOptions.
    pose proof (truthy_values_spec NewsPage.cve news) as Hspec.
    destruct (Options.truthy_values NewsPage.cve news) as [values|]; simpl;
      [|done].
    destruct Hspec as (? & ? & ? & ?). split; [done|]. by eexists.
Qed.




(** ** What the news screen displays *)

Section Displayed.
Context `{Runtime}.
Import NewsPage NewsScreen.

Lemma omap_id_map_Some {A : Type} (l : list A) : omap id (map Some l) = l.
Proof. induction l as [|x l IH]; [done|]. cbn. by rewrite IH. Qed.

Lemma renders_no_null s : renders s = true ↔ None ∉ news (state s).
Proof.
  unfold renders, Options.categories, Options.cveOptions.
  pose proof (truthy_values_spec category (news (state s))) as Hc.
  pose proof (truthy_values_spec cve (news (state s))) as Hv.
  destruct (Options.truthy_values category (news (state s))),
    (Options.truthy_values cve (news (state s))); simpl; split; try done; tauto.
Qed.

Lemma handleSearch_well_displayed st now :
  (None ∉ news st) -> useDateRange st = String.eqb (timeFilter st) "Custom" ->
  filteredNews st = [] ∨ news st ≠ [] ->
  well_displayed (if decide (news st = []) then st else handleSearch st now).
Proof.
  intros Hnull Hcustom Hempty.
  destruct (decide (news st = [])) as [E|E].
  - destruct Hempty as [Hf|]; [|done].
    unfold well_displayed. rewrite Hf.
    split; [constructor|]. split; [constructor|]. by split.
  - unfold handleSearch. destruct (news st) as [|o l] eqn:Hn; [done|].
    unfold well_displayed. cbn [set_filteredNews filteredNews news useDateRange timeFilter].
    rewrite omap_id_map_Some. split; [|split; [|split]].
    + apply List.Forall_forall. intros o' Ho'.
      apply in_map_iff in Ho' as (a & <- & Ha). split; [by eexists|].
      by apply In_sortedResults in Ha as [Ha _].
    + apply Array_sort_newest_first.
    + by rewrite Hn.
    + done.
Qed.

Lemma handleSearch_keeps_well_displayed st now :
  well_displayed st -> well_displayed (handleSearch st now).
Proof.
  intros Hw. pose proof Hw as (_ & _ & Hnull & Hcustom).
  destruct (decide (news st = [])) as [E|E].
  - unfold handleSearch. by rewrite E.
  - pose proof (handleSearch_well_displayed st now Hnull Hcustom (or_intror E)) as Hd.
    by destruct (decide (news st = [])).
Qed.

Lemma effect_keeps_well_displayed st now :
  well_displayed st -> well_displayed (effect now st).
Proof.
  intros Hw. unfold effect. destruct (news st) eqn:E; [done|].
  by apply handleSearch_keeps_well_displayed.
Qed.

Lemma step_keeps_well_displayed s e s' :
  well_displayed (state s) -> step s e = Some s' -> well_displayed (state s').
Proof.
  intros Hw. pose proof Hw as (Hf & Hs & Hnull & Hcustom).
  destruct e as [data now| |v|v|v|v now|v|v|now]; simpl.
  - destruct (renders _) eqn:Hr; [|done]. intros [= <-]. simpl.
    apply renders_no_null in Hr. simpl in Hr.
    destruct (handleSearch_well_displayed
                (set_filteredNews (set_news data (state s)) data) now Hr Hcustom)
      as (Hf' & Hs' & Hn' & Hc').
    { destruct data; [by left | by right]. }
    unfold effect. cbn [news set_filteredNews set_news] in *.
    destruct data as [|o data]; [|done].
    destruct (decide _); done.
  - by intros [= <-].
  - by intros [= <-].
  - by intros [= <-].
  - by intros [= <-].
  - intros [= <-].
    assert (Hsel : well_displayed (select_timeFilter v (state s))) by done.
    destruct (_ || _); simpl; [by apply effect_keeps_well_displayed | done].
  - by intros [= <-].
  - by intros [= <-].
  - intros [= <-]. simpl. by apply handleSearch_keeps_well_displayed.
Qed.

Lemma initial_well_displayed : well_displayed (state initial).
Proof.
  split; [constructor|]. split; [constructor|]. split; [|done].
  by intros ?%elem_of_nil.
Qed.

Lemma run_keeps_well_displayed s es s' :
  well_displayed (state s) -> run s es = Some s' -> well_displayed (state s').
Proof.
  revert s. induction es as [|e es IH]; intros s Hw; simpl.
  - by intros [= <-].
  - destruct (step s e) as [s1|] eqn:E; [|done].
    apply IH. by eapply step_keeps_well_displayed.
Qed.
End Displayed.

(** X3. Whatever arrives from the server and whatever the user selects,
    picks or clicks, in any order: as long as the screen has not thrown,
    the list it displays once the effect of the last event has run holds
    only records of the loaded news, has no [null] entry, and is ordered
    newest first with the undated records last. *)
Theorem news_screen_displays_sorted_selection (R : Runtime)
    (es : list NewsScreen.Event) (s : NewsScreen.Screen) :
  NewsScreen.run NewsScreen.initial es = Some s ->
  Forall (λ o, is_Some o ∧ In o (NewsPage.news (NewsScreen.state s)))
    (NewsPage.filteredNews (NewsScreen.state s)) ∧
  StronglySorted newest_first (omap id (NewsPage.filteredNews (NewsScreen.state s))).
Proof.
  intros Hrun.
  destruct (run_keeps_well_displayed _ _ _ initial_well_displayed Hrun) as (? & ? & _).
  done.
Qed.

(** X3 at a run: three records arrive, the user selects "Ransomware",
    searches, and widens the time filter to the last month. *)
Lemma news_screen_run_displays_sorted_selection :
  Forall
    (λ o, is_Some o ∧ In o MoreFixtures.threeArticles)
    [ Some (MoreFixtures.article (Some "Ransomware") None (Some "2025-02-24T20:00:00Z"));
      Some (MoreFixtures.article (Some "Ransomware") (Some "CVE-2025-0001") None) ] ∧
  StronglySorted (newest_first (H := iso_runtime 0))
    (omap id
       [ Some (MoreFixtures.article (Some "Ransomware") None (Some "2025-02-24T20:00:00Z"));
         Some (MoreFixtures.article (Some "Ransomware") (Some "CVE-2025-0001") None) ]).
Proof.
  apply (news_screen_displays_sorted_selection (iso_runtime 0)
           [ NewsScreen.NewsArrive MoreFixtures.threeArticles noon_25_feb_2025;
             NewsScreen.SelectCategory "Ransomware";
             NewsScreen.ClickSearch noon_25_feb_2025;
             NewsScreen.SelectTimeFilter "Last Month" noon_25_feb_2025 ]
           {| NewsScreen.state :=
                {| NewsPage.news := MoreFixtures.threeArticles;
                   NewsPage.selectedCategory := "Ransomware";
                   NewsPage.selectedSeverity := "All";
                   NewsPage.selectedCVE := "All";
                   NewsPage.timeFilter := "Last Month";
                   NewsPage.startDate := "";
                   NewsPage.endDate := "";
                   NewsPage.useDateRange := false;
                   NewsPage.filteredNews :=
                     [ Some (MoreFixtures.article (Some "Ransomware") None
                               (Some "2025-02-24T20:00:00Z"));
                       Some (MoreFixtures.article (Some "Ransomware")
                               (Some "CVE-2025-0001") None) ] |};
              NewsScreen.loading := false; NewsScreen.error := None |}).
  reflexivity.
Defined.

(** ** The time filters of the news screen *)

Section MonthBack.


Context `{Runtime}.

End MonthBack.

Section TimeFilters.
Context `{Runtime}.
Import NewsPage.



End TimeFilters.



(** ** The dashboard's phishing tab *)

Section Narrowing.
Context {A : Type}.

Lemma filter_sublist_impl (f g : A -> bool) (l l' : list A) :
  (∀ x, f x = true -> g x = true) ->
  sublist l l' -> sublist (List.filter f l) (List.filter g l').
Proof.
  intros Hfg Hl. induction Hl as [|x l l' Hl IH|x l l' Hl IH]; simpl.
  - constructor.
  - destruct (f x) eqn:Ef.
    + rewrite (Hfg x Ef). by apply sublist_skip.
    + destruct (g x); [by apply sublist_cons | done].
  - destruct (g x); [by apply sublist_cons | done].
Qed.

Lemma filter_sublist_self (f : A -> bool) (l l' : list A) :
  sublist l l' -> sublist (List.filter f l) l'.
Proof.
  intros Hl. induction Hl as [|x l l' Hl IH|x l l' Hl IH]; simpl.
  - constructor.
  - destruct (f x); [by apply sublist_skip | by apply sublist_cons].
  - by apply sublist_cons.
Qed.

(** A conditional filter step: the wider side filters only if the
    narrower side does, and then by a weaker test. *)
Lemma filter_when_sublist (c c' : bool) (f g : A -> bool) (l l' : list A) :
  (c' = true -> c = true ∧ ∀ x, f x = true -> g x = true) ->
  sublist l l' ->
  sublist (if c then List.filter f l else l) (if c' then List.filter g l' else l').
Proof.
  intros Hc Hl. destruct c'.
  - destruct (Hc eq_refl) as [-> Hfg]. by apply filter_sublist_impl.
  - destruct c; [by apply filter_sublist_self | done].
Qed.
End Narrowing.

Section DashboardTabs.
Context `{Runtime}.
Import PhishingView PhishingControls.

(** The status step of [fetchPhishingSites] keeps the order of sublists. *)
Lemma status_step_sublist (tab : string) (l l' : list Site) :
  sublist l l' ->
  sublist
    (if negb (String.eqb tab "all") then
       if String.eqb tab "detected" then List.filter isDetected l
       else if String.eqb tab "mitigated" then List.filter isMitigated l else l
     else l)
    (if negb (String.eqb tab "all") then
       if String.eqb tab "detected" then List.filter isDetected l'
       else if String.eqb tab "mitigated" then List.filter isMitigated l' else l'
     else l').
Proof.
  intros Hl. destruct (negb _); [|done].
  destruct (String.eqb tab "detected"); [by apply filter_sublist_impl|].
  destruct (String.eqb tab "mitigated"); [by apply filter_sublist_impl | done].
Qed.

(** Two settings that differ in the time range and the threshold only:
    the one with the later cut-off and the higher threshold lists a
    sublist of what the other lists. *)
Lemma narrower_setting_sublist (st st' : State) (now : Z) (sites : list Site) :
  searchQuery st = searchQuery st' ->
  targetFilter st = targetFilter st' ->
  activeTab st = activeTab st' ->
  thresholdScore st' <= thresholdScore st ->
  (timeRange st' ≠ "all" ->
   timeRange st ≠ "all" ∧
   ∀ s, inTimeRange st now s = true -> inTimeRange st' now s = true) ->
  sublist (fetchPhishingSites st now sites) (fetchPhishingSites st' now sites).
Proof.
  intros Hq Ht Ha Hth Htr. unfold fetchPhishingSites. cbv zeta.
  rewrite <- Ha. apply status_step_sublist.
  apply filter_when_sublist.
  { intros E. rewrite Ht. split; [done|]. intros s. unfold onTarget. by rewrite Ht. }
  apply filter_sublist_impl.
  { intros s. unfold aboveThreshold. rewrite !Z.leb_le. lia. }
  apply filter_when_sublist.
  { intros E. rewrite Hq. split; [done|]. intros s. unfold matchesSearch.
    by rewrite Hq. }
  apply filter_when_sublist; [|done].
  rewrite !negb_true_iff. intros E. apply String_eqb_false in E.
  destruct (Htr E) as [E' Hin]. split; [by apply String_eqb_false | done].
Qed.

Lemma inTimeRange_days (st : State) (now days : Z) (s : Site) :
  parseInt (timeRange st) = Some days ->
  inTimeRange st now s = true ↔
  ∃ t, Date_parse (detectedDate s) = Some t ∧ now - days * msPerDay <= t.
Proof.
  intros Hd. unfold inTimeRange, cutoffDate, new_Date. rewrite Hd.
  rewrite Date_ge_Some, setDate_plus_days. split.
  - intros (x & y & Hx & [= <-] & Hxy). exists x. split; [done|lia].
  - intros (t & Ht & Hb). exists t, (now + - days * msPerDay).
    split; [done|]. split; [done|lia].
Qed.
End DashboardTabs.

(** X5. The dashboard's phishing filter only narrows. What it lists keeps
    the order of the source; raising the similarity threshold, or
    shortening the time range from [d'] to [d] days, lists a part of what
    was listed before, in the same order; and no time range lists a site
    that "All time" leaves out. *)
Theorem dashboard_filter_narrows (R : Runtime) (st : PhishingView.State) (now : Z)
    (sites : list PhishingView.Site) :
  let listed st := PhishingView.fetchPhishingSites st now sites in
  sublist (listed st) sites ∧
  (∀ th, PhishingView.thresholdScore st <= th ->
     sublist (listed (PhishingControls.setThresholdScore th st)) (listed st)) ∧
  (∀ tr tr' d d', parseInt tr = Some d -> parseInt tr' = Some d' -> d <= d' ->
     sublist (listed (PhishingControls.setTimeRange tr st))
             (listed (PhishingControls.setTimeRange tr' st))) ∧
  (∀ tr, sublist (listed (PhishingControls.setTimeRange tr st))
                 (listed (PhishingControls.setTimeRange "all" st))).
Proof.
  cbv zeta. split; [|split; [|split]].
  - unfold PhishingView.fetchPhishingSites. cbv zeta.
    transitivity
      (if negb (String.eqb (PhishingView.activeTab st) "all") then
         if String.eqb (PhishingView.activeTab st) "detected"
         then List.filter PhishingView.isDetected sites
         else if String.eqb (PhishingView.activeTab st) "mitigated"
              then List.filter PhishingView.isMitigated sites else sites
       else sites).
    + apply status_step_sublist.
      destruct (negb (String.eqb (PhishingView.targetFilter st) "all")),
               (negb (String.eqb (PhishingView.searchQuery st) "")),
               (negb (String.eqb (PhishingView.timeRange st) "all"));
        repeat apply filter_sublist_self; done.
    + destruct (negb _); [|done].
      destruct (String.eqb _ "detected"); [by apply filter_sublist_self|].
      destruct (String.eqb _ "mitigated"); [by apply filter_sublist_self | done].
  - intros th Hth. apply narrower_setting_sublist; try done.
  - intros tr tr' d d' Hd Hd' Hle.
    apply narrower_setting_sublist; try done.
    simpl. intros _. split; [by intros ->|].
    intros s.
    rewrite (inTimeRange_days (PhishingControls.setTimeRange tr st) now d) by done.
    rewrite (inTimeRange_days (PhishingControls.setTimeRange tr' st) now d') by done.
    intros (t & Ht & Hb). exists t. split; [done|]. unfold msPerDay in *. nia.
  - intros tr. by apply narrower_setting_sublist.
Qed.

(** X5 on the mock sites at noon of 25 February 2025: with the threshold
    raised from 60 to 80 the list is a part of the list before. *)
Lemma threshold_80_narrows_mock_list :
  sublist
    (PhishingView.fetchPhishingSites (H := iso_runtime 0)
       (PhishingControls.setThresholdScore 80 PhishingControls.initialState)
       noon_25_feb_2025 PhishingView.mockPhishingSites)
    (PhishingView.fetchPhishingSites (H := iso_runtime 0)
       PhishingControls.initialState noon_25_feb_2025 PhishingView.mockPhishingSites).
Proof.
  apply (proj1 (proj2 (dashboard_filter_narrows (iso_runtime 0)
                         PhishingControls.initialState noon_25_feb_2025
                         PhishingView.mockPhishingSites)) 80).
  simpl. lia.
Defined.

(** X6. The tabs of the dashboard's phishing view. No site is listed both
    under "Detected Sites" and under "Mitigated"; a site is listed under
    one of the two exactly when "All Sites" lists it and its status is
    one of active, monitoring and taken-down; both tabs list their sites
    in the order of "All Sites". *)
Theorem dashboard_tabs_split_all_sites (R : Runtime) (st : PhishingView.State)
    (now : Z) (sites : list PhishingView.Site) :
  let tab v :=
    PhishingView.fetchPhishingSites (PhishingControls.setActiveTab v st) now sites in
  (∀ s, ¬ (In s (tab "detected") ∧ In s (tab "mitigated"))) ∧
  (∀ s, In s (tab "detected") ∨ In s (tab "mitigated") ↔
        In s (tab "all") ∧
        (PhishingView.status s = "active" ∨ PhishingView.status s = "monitoring" ∨
         PhishingView.status s = "taken-down")) ∧
  sublist (tab "detected") (tab "all") ∧
  sublist (tab "mitigated") (tab "all").
Proof.
  cbv beta zeta.
  assert (Hd : ∀ s, PhishingView.isDetected s = true ↔
                 PhishingView.status s = "active" ∨ PhishingView.status s = "monitoring").
  { intros s. unfold PhishingView.isDetected.
    by rewrite orb_true_iff, !String_eqb_true. }
  assert (Hm : ∀ s, PhishingView.isMitigated s = true ↔
                 PhishingView.status s = "taken-down").
  { intros s. unfold PhishingView.isMitigated. by rewrite String_eqb_true. }
  assert (Hdet :
    PhishingView.fetchPhishingSites (PhishingControls.setActiveTab "detected" st) now sites
    = List.filter PhishingView.isDetected
        (PhishingView.fetchPhishingSites (PhishingControls.setActiveTab "all" st)
           now sites)) by reflexivity.
  assert (Hmit :
    PhishingView.fetchPhishingSites (PhishingControls.setActiveTab "mitigated" st) now sites
    = List.filter PhishingView.isMitigated
        (PhishingView.fetchPhishingSites (PhishingControls.setActiveTab "all" st)
           now sites)) by reflexivity.
  rewrite Hdet, Hmit.
  set (all := PhishingView.fetchPhishingSites _ now sites).
  split; [|split; [|split]].
  - intros s [[_ H1]%filter_In [_ H2]%filter_In].
    apply Hd in H1. apply Hm in H2. rewrite H2 in H1. by destruct H1.
  - intros s. rewrite !filter_In, Hd, Hm. tauto.
  - by apply filter_sublist_self.
  - by apply filter_sublist_self.
Qed.

(** ** The simulated scan of the dashboard *)

Section SimulatedScan.
Context `{MockScan.Numbers}.
Import MockScan.

Lemma step_keeps_phase (w : World) (e : Event) : phase w -> phase (step w e).
Proof.
  intros [(Hp & Hi & Ht & Hs)|[(Hp & (i & Hi) & Ht)|(Hp & Hi & Ht & Hs)]];
    destruct e as [|j random|]; simpl; rewrite ?Hp, ?Ht.
  - right; left. simpl. split; [done|]. split; [|done].
    exists (nextTimer w). rewrite Hi. apply (right_id_L ∅ (∪)).
  - rewrite Hi. rewrite decide_False by apply not_elem_of_empty. left. done.
  - by left.
  - right; left. split; [done|]. split; [by exists i | done].
  - rewrite Hi. destruct (decide (j ∈ ({[ i ]} : gset TimerId))) as [Hj|Hj].
    + apply elem_of_singleton in Hj as ->. unfold tick.
      destruct (reached_100 _); simpl.
      * right; right. rewrite Hi, Ht. split; [done|].
        split; [simpl; apply difference_diag_L | done].
      * right; left. split; [done|]. split; [by exists i | done].
    + right; left. split; [done|]. split; [by exists i | done].
  - right; left. split; [done|]. split; [by exists i | done].
  - right; right. done.
  - rewrite Hi. rewrite decide_False by apply not_elem_of_empty. right; right. done.
  - left. unfold timeout. simpl. rewrite Ht. split; [done|]. split; [done|].
    split; [done | by right].
Qed.

Lemma run_keeps_phase (w : World) (es : list Event) : phase w -> phase (run w es).
Proof.
  revert w. induction es as [|e es IH]; intros w Hw; [done|].
  apply IH. by apply step_keeps_phase.
Qed.

Lemma initial_phase : phase initial.
Proof. left. split; [done|]. split; [done|]. split; [done | by left]. Qed.
End SimulatedScan.

(** X7. The simulated scan of the dashboard stops its own timer. After
    any clicks, interval firings and timeouts, whatever [Math.random]
    returns: there is never more than one live interval, and none unless
    a scan is in progress; the firing that reaches 100 clears the
    interval, sets the bar to 100 and leaves one timeout pending, after
    which the button is enabled again with the bar at 100. *)
Theorem simulated_scan_stops_its_timer (N : MockScan.Numbers)
    (es : list MockScan.Event) :
  let w := MockScan.run MockScan.initial es in
  (size (MockScan.intervals w) <= 1)%nat ∧
  (MockScan.intervals w ≠ ∅ ->
   MockScan.scanInProgress w = true ∧ MockScan.timeouts w = O) ∧
  (∀ i random,
     i ∈ MockScan.intervals w ->
     MockScan.reached_100 (MockScan.advance (MockScan.scanProgress w) random) = true ->
     let w' := MockScan.step w (MockScan.IntervalFires i random) in
     MockScan.intervals w' = ∅ ∧ MockScan.scanProgress w' = MockScan.hundred ∧
     MockScan.timeouts w' = 1%nat ∧
     MockScan.scanInProgress (MockScan.step w' MockScan.TimeoutFires) = false) ∧
  (MockScan.scanInProgress w = false ->
   MockScan.timeouts w = O ∧
   (MockScan.scanProgress w = MockScan.zero ∨
    MockScan.scanProgress w = MockScan.hundred)).
Proof.
  intros w.
  pose proof (run_keeps_phase MockScan.initial es initial_phase) as Hw. fold w in Hw.
  destruct Hw as [(Hp & Hi & Ht & Hs)|[(Hp & (i & Hi) & Ht)|(Hp & Hi & Ht & Hs)]].
  - split; [by rewrite Hi, size_empty; lia|]. split; [done|].
    split; [|done].
    intros j random Hj. rewrite Hi in Hj. by apply not_elem_of_empty in Hj.
  - split; [by rewrite Hi, size_singleton|]. split; [done|].
    split; [|by rewrite Hp].
    intros j random Hj Hr. simpl. rewrite decide_True by done.
    unfold MockScan.tick. rewrite Hr. simpl. rewrite Ht.
    rewrite Hi in Hj |- *. apply elem_of_singleton in Hj as ->.
    split; [apply difference_diag_L | done].
  - split; [by rewrite Hi, size_empty; lia|]. split; [done|].
    split; [|by rewrite Hp].
    intros j random Hj. rewrite Hi in Hj. by apply not_elem_of_empty in Hj.
Qed.

(** ** The threats tab *)

Section ThreatsTab.
Context {Threat : Type}.
Import ThreatsView ThreatsSession.

(** The parameters of a request name each filter at most once, with its
    value, and leave out the empty ones. *)
Lemma fetchThreats_params_spec (st : State Threat) (k v : string) :
  In (k, v) (snd (fetchThreats_params st)) ↔
  v ≠ "" ∧ ∃ n, key n = k ∧ get n (filters st) = v.
Proof.
  unfold fetchThreats_params. cbn [snd]. rewrite filter_In. cbn [snd In].
  rewrite negb_true_iff, String_eqb_false. split.
  - intros [Hin Hv]. split; [done|].
    destruct Hin as [E|[E|[E|[E|[E|[E|[]]]]]]]; injection E as <- <-;
      [by exists name_category | by exists name_severity
      | by exists name_min_severity_score | by exists name_days
      | by exists name_cve | by exists name_search].
  - intros [Hv (n & <- & <-)]. split; [|done].
    destruct n; simpl; auto 10.
Qed.

Lemma get_update (n m : FilterName) (value : string) (f : Filters) :
  get m (update n value f) = if decide (m = n) then value else get m f.
Proof. by destruct n, m. Qed.

(** What every session keeps: the page is 1 or more, and so is the page
    of every request sent, each for 10 records. *)
Definition pages_from_1 (s : Session Threat) : Prop :=
  1 <= page (view s) ∧
  Forall (λ r, 1 <= r.1.1 ∧ r.1.2 = 10) (sent s).

Lemma refetch_pages_from_1 (st : State Threat) log :
  1 <= page st -> Forall (λ r, 1 <= r.1.1 ∧ r.1.2 = 10) log ->
  pages_from_1 (refetch st log).
Proof.
  intros Hp Hlog. split; [done|]. simpl. apply Forall_app. split; [done|].
  by repeat constructor.
Qed.

Lemma step_pages_from_1 (s : Session Threat) (e : Event Threat) :
  pages_from_1 s -> pages_from_1 (step s e).
Proof.
  intros [Hp Hlog]. destruct e as [n v| | | |r]; simpl.
  - by apply refetch_pages_from_1.
  - by apply refetch_pages_from_1.
  - destruct (resultsShown _); [|done].
    destruct (_ =? _); [done|]. apply refetch_pages_from_1; [|done].
    unfold clickPrevious. destruct (_ && _); simpl; lia.
  - destruct (resultsShown _); [|done].
    destruct (_ =? _); [done|]. apply refetch_pages_from_1; [|done].
    unfold clickNext. destruct (1 <? totalPages (view s)) eqn:E; simpl; [|done].
    apply Z.ltb_lt in E. destruct (negb _); simpl; lia.
  - split; [|done]. simpl. by destruct r as [[] ? ?|?].
Qed.

Lemma run_pages_from_1 (s : Session Threat) (es : list (Event Threat)) :
  pages_from_1 s -> pages_from_1 (run s es).
Proof.
  revert s. induction es as [|e es IH]; intros s Hs; [done|].
  apply IH. by apply step_pages_from_1.
Qed.

Lemma mount_pages_from_1 : pages_from_1 (mount (Threat := Threat)).
Proof. apply refetch_pages_from_1; [done | constructor]. Qed.

(** No event clears the error. *)
Lemma step_keeps_error (s : Session Threat) (e : Event Threat) :
  error (view s) = Some failure -> error (view (step s e)) = Some failure.
Proof.
  intros He. destruct e as [n v| | | |r]; simpl; try done.
  - destruct (resultsShown _); [|done]. destruct (_ =? _); [done|].
    simpl. unfold clickPrevious. by destruct (_ && _).
  - destruct (resultsShown _); [|done]. destruct (_ =? _); [done|].
    simpl. unfold clickNext. by destruct (_ && _).
  - by destruct r as [[] ? ?|?].
Qed.

Lemma run_keeps_error (s : Session Threat) (es : list (Event Threat)) :
  error (view s) = Some failure -> error (view (run s es)) = Some failure.
Proof.
  revert s. induction es as [|e es IH]; intros s Hs; [done|].
  apply IH. by apply step_keeps_error.
Qed.
End ThreatsTab.

(** X8. The requests of the threats tab. In every session the page is 1
    or more, and every request sent asks for a page from 1 on, 10
    records a page. A filter change sends one request, for page 1, which
    names exactly the filters that are not empty, the changed one with
    its new value and the others as they were; "Clear Filters" sends the
    request for page 1 of the last 30 days. *)
Theorem threats_requests_start_at_page_1 (Threat : Type)
    (es : list (ThreatsSession.Event Threat)) :
  let s := ThreatsSession.run ThreatsSession.mount es in
  1 <= ThreatsView.page (ThreatsSession.view s) ∧
  Forall (λ r, 1 <= r.1.1 ∧ r.1.2 = 10) (ThreatsSession.sent s) ∧
  (∀ n value,
     let s' := ThreatsSession.step s (ThreatsSession.ChangeFilter n value) in
     ThreatsView.page (ThreatsSession.view s') = 1 ∧
     ∃ params,
       ThreatsSession.sent s' = (ThreatsSession.sent s ++ [(1, 10, params)])%list ∧
       ∀ k v, In (k, v) params ↔
              v ≠ "" ∧
              ∃ m, ThreatsSession.key m = k ∧
                   v = if decide (m = n) then value
                       else ThreatsSession.get m
                              (ThreatsView.filters (ThreatsSession.view s))) ∧
  (let s' := ThreatsSession.step s ThreatsSession.ClickClearFilters in
   ThreatsSession.sent s' = (ThreatsSession.sent s ++ [(1, 10, [("days", "30")])])%list ∧
   ThreatsView.filters (ThreatsSession.view s') = ThreatsView.initialFilters).
Proof.
  intros s.
  destruct (run_pages_from_1 ThreatsSession.mount es mount_pages_from_1) as [Hp Hlog].
  fold s in Hp, Hlog.
  split; [done|]. split; [done|]. split; [|done].
  intros n value s'. split; [done|].
  exists (snd (ThreatsView.fetchThreats_params
                 (ThreatsSession.handleFilterChange n value (ThreatsSession.view s)))).
  split; [done|].
  intros k v. rewrite fetchThreats_params_spec.
  split; intros [Hv (m & Hk & Hm)]; (split; [done|]); exists m; (split; [done|]).
  - rewrite <- Hm. simpl. apply get_update.
  - rewrite Hm. simpl. apply get_update.
Qed.

(** X9. The threats tab never recovers from a failed request. Once a
    request has failed, whatever follows (filter changes, and answers
    that succeed): the error stays set; the results area shows the
    spinner or the error message, never the threats; and the pagination
    buttons, which are not rendered, do nothing. *)
Theorem threats_error_is_never_cleared (Threat : Type)
    (s : ThreatsSession.Session Threat)
    (r : ThreatsView.Fetched (ThreatsView.Body Threat))
    (es : list (ThreatsSession.Event Threat)) :
  ThreatsSession.failed r = true ->
  let s' := ThreatsSession.run (ThreatsSession.step s (ThreatsSession.Answer r)) es in
  ThreatsView.error (ThreatsSession.view s') = Some ThreatsSession.failure ∧
  (ThreatsSession.display (ThreatsSession.view s') = ThreatsSession.LoadingSpinner ∨
   ThreatsSession.display (ThreatsSession.view s')
   = ThreatsSession.ErrorMessage ThreatsSession.failure) ∧
  ThreatsSession.step s' ThreatsSession.ClickPrevious = s' ∧
  ThreatsSession.step s' ThreatsSession.ClickNext = s'.
Proof.
  intros Hr s'.
  assert (He : ThreatsView.error (ThreatsSession.view s') = Some ThreatsSession.failure).
  { apply run_keeps_error. simpl. by destruct r as [[] ? ?|?]. }
  split; [done|].
  assert (Hshown : ThreatsSession.resultsShown (ThreatsSession.view s') = false).
  { unfold ThreatsSession.resultsShown. rewrite He. simpl. apply andb_false_r. }
  split.
  - unfold ThreatsSession.display. rewrite He.
    destruct (ThreatsView.loading _); [by left | by right].
  - simpl. by rewrite Hshown.
Qed.

(** X9 at a session: the first request is rejected; the user then picks a
    category, and the request that follows is answered with one threat. *)
Lemma threats_error_outlives_successful_answer :
  ThreatsSession.display
    (ThreatsSession.view
       (ThreatsSession.run (Threat := string) ThreatsSession.mount
          [ ThreatsSession.Answer (ThreatsView.Rejected "Failed to fetch");
            ThreatsSession.ChangeFilter ThreatsSession.name_category "Phishing";
            ThreatsSession.Answer
              (ThreatsView.Fulfilled true 200
                 {| ThreatsView.results := ["threat-1"]; ThreatsView.total := 1 |}) ]))
  = ThreatsSession.ErrorMessage ThreatsSession.failure.
Proof.
  pose proof (threats_error_is_never_cleared string ThreatsSession.mount
                (ThreatsView.Rejected "Failed to fetch")
                [ ThreatsSession.ChangeFilter ThreatsSession.name_category "Phishing";
                  ThreatsSession.Answer
                    (ThreatsView.Fulfilled true 200
                       {| ThreatsView.results := ["threat-1"]; ThreatsView.total := 1 |}) ]
                eq_refl) as (_ & [Hd|Hd] & _).
  - discriminate Hd.
  - exact Hd.
Defined.

(** ** The listing of the phishing screen *)

(** Properties of the component state that every state setter other than
    those of the filters keeps, through the events of the screen. *)
Section CompKeeps.
Import PhishingDetection PhishingListing.
Variable P : State -> Prop.
Hypothesis P_sites : ∀ v st, P st -> P (set_sites v st).
Hypothesis P_loading : ∀ v st, P st -> P (set_loading v st).
Hypothesis P_error : ∀ m st, P st -> P (set_error (Some m) st).
Hypothesis P_totalPages : ∀ v st, P st -> P (set_totalPages v st).
Hypothesis P_scanInProgress : ∀ v st, P st -> P (set_scanInProgress v st).
Hypothesis P_scanProgress : ∀ v st, P st -> P (set_scanProgress v st).
Hypothesis P_scanInterval : ∀ v st, P st -> P (set_scanInterval v st).

Lemma setState_keeps f w :
  (∀ st, P st -> P (f st)) -> P (comp w) -> P (comp (setState f w)).
Proof. intros Hf Hw. simpl. destruct (mounted w); auto. Qed.

Lemma call_fetchSites_keeps render w :
  P (comp w) -> P (comp (call_fetchSites render w)).
Proof. intros Hw. unfold call_fetchSites. simpl. destruct (mounted w); auto. Qed.

Lemma stopPolling_keeps render w : P (comp w) -> P (comp (stopPolling render w)).
Proof.
  intros Hw. unfold stopPolling. destruct (scanInterval render); [|done].
  apply setState_keeps; auto.
Qed.

Lemma checkScanProgress_keeps render scanId r w :
  P (comp w) -> P (comp (checkScanProgress render scanId r w)).
Proof.
  intros Hw. unfold checkScanProgress.
  assert (Hfail : P (comp (setState (set_scanInProgress false)
                             (stopPolling render (send (GetScan scanId) w))))).
  { apply setState_keeps; [auto|]. by apply stopPolling_keeps. }
  destruct r as [resp|message]; [|done].
  destruct (ok resp); [|done].
  assert (Hp : P (comp (setState (set_scanProgress (Some (body resp)))
                          (send (GetScan scanId) w)))).
  { apply setState_keeps; auto. }
  destruct (isTerminal (body resp)); [|done].
  unfold call_fetchStats. change (comp (send GetStats ?w)) with (comp w).
  apply call_fetchSites_keeps. apply setState_keeps; [auto|].
  by apply stopPolling_keeps.
Qed.

Lemma startScan_keeps render r w : P (comp w) -> P (comp (startScan render r w)).
Proof.
  intros Hw. unfold startScan.
  assert (H1 : P (comp (send PostScan (setState (set_scanInProgress true) w)))).
  { change (comp (send PostScan ?w)) with (comp w). apply setState_keeps; auto. }
  destruct r as [resp|message].
  - destruct (ok resp).
    + unfold setInterval. apply setState_keeps; [auto|].
      change (P (comp (setState (set_scanProgress (Some (body resp)))
                         (send PostScan (setState (set_scanInProgress true) w))))).
      apply setState_keeps; auto.
    + apply setState_keeps; [auto|]. apply setState_keeps; auto.
  - apply setState_keeps; [auto|]. apply setState_keeps; auto.
Qed.

Lemma scan_step_keeps w e : P (comp w) -> P (comp (PhishingDetection.step w e)).
Proof.
  intros Hw. destruct e as [r|i r|]; simpl.
  - destruct (_ && _); [by apply startScan_keeps | done].
  - destruct (timers w !! i); [by apply checkScanProgress_keeps | done].
  - destruct (mounted w); [|done]. unfold unmount.
    by destruct (scanInterval (firstRender w)).
Qed.

Lemma fetchSites_keeps st r : P st -> P (fetchSites st r).
Proof.
  intros Hst. unfold fetchSites. destruct r as [resp|message]; [|auto].
  destruct (ok resp); auto.
Qed.

Lemma finish_keeps a render r w : P (comp w) -> P (comp (finish a render r w)).
Proof.
  intros Hw. unfold finish. destruct r as [resp|message].
  - destruct (ok resp).
    + destruct a; by apply call_fetchSites_keeps.
    + apply setState_keeps; auto.
  - apply setState_keeps; auto.
Qed.

(** The events that are not controls of the filter state. *)
Lemma other_event_keeps s e :
  match e with
  | Scanning _ | SitesAnswer _ | Click _ | ActionAnswer _ _ => True
  | _ => False
  end ->
  P (comp (world s)) -> P (comp (world (PhishingListing.step s e))).
Proof.
  intros He Hs. destruct e; try done; simpl.
  - by apply scan_step_keeps.
  - destruct (mounted (world s)); [by apply fetchSites_keeps | done].
  - by destruct (_ && _).
  - destruct (awaiting s !! k) as [[a render]|]; [|done]. by apply finish_keeps.
Qed.
End CompKeeps.

Section SoundQueries.
Import PhishingDetection PhishingListing.

Lemma sound_query render : sound render -> well_asked (GetSites (fetchSites_query render)).
Proof. intros (Hp & Hs & Ho). done. Qed.

Lemma sw_setState f w :
  (∀ st, sound st -> sound (f st)) -> sound_world w -> sound_world (setState f w).
Proof.
  intros Hf (Hc & Ht & Hr). split; [|done]. simpl. destruct (mounted w); auto.
Qed.

Lemma sw_send r w : well_asked r -> sound_world w -> sound_world (send r w).
Proof.
  intros Hq (Hc & Ht & Hr). split; [done|]. split; [done|].
  simpl. apply Forall_app. by split; [|constructor].
Qed.

Lemma sw_clearInterval i w : sound_world w -> sound_world (clearInterval i w).
Proof.
  intros (Hc & Ht & Hr). split; [done|]. split; [|done].
  intros j c. simpl. rewrite lookup_delete_Some. intros [_ Hj]. by eapply Ht.
Qed.

Lemma sw_setInterval c w :
  sound (cl_render c) -> sound_world w -> sound_world (setInterval c w).2.
Proof.
  intros Hcl (Hc & Ht & Hr). split; [done|]. split; [|done].
  intros j c'. simpl. rewrite lookup_insert_Some.
  intros [[_ <-]|[_ Hj]]; [done | by eapply Ht].
Qed.

Lemma sw_call_fetchSites render w :
  sound render -> sound_world w -> sound_world (call_fetchSites render w).
Proof.
  intros Hrender Hw. apply sw_send; [by apply sound_query|].
  by apply sw_setState.
Qed.

Lemma sw_stopPolling render w : sound_world w -> sound_world (stopPolling render w).
Proof.
  intros Hw. unfold stopPolling. destruct (scanInterval render); [|done].
  apply sw_setState; [done|]. by apply sw_clearInterval.
Qed.

Lemma sw_checkScanProgress render scanId r w :
  sound render -> sound_world w -> sound_world (checkScanProgress render scanId r w).
Proof.
  intros Hrender Hw. unfold checkScanProgress.
  assert (H0 : sound_world (send (GetScan scanId) w)) by by apply sw_send.
  assert (Hfail : sound_world (setState (set_scanInProgress false)
                                 (stopPolling render (send (GetScan scanId) w)))).
  { apply sw_setState; [done|]. by apply sw_stopPolling. }
  destruct r as [resp|message]; [|done].
  destruct (ok resp); [|done].
  assert (Hp : sound_world (setState (set_scanProgress (Some (body resp)))
                              (send (GetScan scanId) w))).
  { by apply sw_setState. }
  destruct (isTerminal (body resp)); [|done].
  apply sw_send; [done|]. apply sw_call_fetchSites; [done|].
  apply sw_setState; [done|]. by apply sw_stopPolling.
Qed.

Lemma sw_startScan render r w :
  sound render -> sound_world w -> sound_world (startScan render r w).
Proof.
  intros Hrender Hw. unfold startScan.
  assert (H1 : sound_world (send PostScan (setState (set_scanInProgress true) w))).
  { apply sw_send; [done|]. by apply sw_setState. }
  destruct r as [resp|message].
  - destruct (ok resp).
    + set (c := {| cl_scanId := scan_id (body resp); cl_render := render |}).
      set (w1 := setState (set_scanProgress (Some (body resp))) _).
      pose proof (sw_setInterval c w1 Hrender) as Hi.
      destruct (setInterval c w1) as [interval w2]. simpl in Hi.
      apply sw_setState; [done|]. apply Hi. by apply sw_setState.
    + apply sw_setState; [done|]. by apply sw_setState.
  - apply sw_setState; [done|]. by apply sw_setState.
Qed.

Lemma sw_unmount w : sound_world w -> sound_world (unmount w).
Proof.
  intros Hw. unfold unmount.
  destruct (scanInterval (firstRender w)) as [i|]; [|done].
  by apply (sw_clearInterval i) in Hw.
Qed.

Lemma sw_scan_step w e : sound_world w -> sound_world (PhishingDetection.step w e).
Proof.
  intros Hw. pose proof Hw as (Hc & Ht & _). destruct e as [r|i r|]; simpl.
  - destruct (_ && _); [by apply sw_startScan | done].
  - destruct (timers w !! i) as [c|] eqn:E; [|done].
    apply sw_checkScanProgress; [by eapply Ht | done].
  - destruct (mounted w); [by apply sw_unmount | done].
Qed.

Lemma sw_change f w :
  sound (set_filters (f (filters (comp w))) (comp w)) ->
  sound_world w -> sound_world (change f w).
Proof.
  intros Hf Hw. unfold change.
  destruct (mounted w) eqn:Hm; [|done].
  assert (H1 : sound_world (setState (λ _, set_filters (f (filters (comp w))) (comp w)) w)).
  { destruct Hw as (_ & Ht & Hr). split; [|done]. simpl. by rewrite Hm. }
  destruct (decide _); [done|].
  by apply sw_call_fetchSites.
Qed.

Lemma sw_finish a render r w :
  sound render -> sound_world w -> sound_world (finish a render r w).
Proof.
  intros Hrender Hw. unfold finish. destruct r as [resp|message].
  - destruct (ok resp).
    + pose proof (sw_call_fetchSites render w Hrender Hw) as H1.
      destruct a; try done. by apply sw_send.
    + by apply sw_setState.
  - by apply sw_setState.
Qed.

Lemma pageAsked_from_1 st e page :
  sound st -> pageAsked st e = Some page -> 1 <= page.
Proof.
  intros (Hp & _). unfold pageAsked. destruct (paginationShown st) eqn:Hshown; [|done].
  assert (Htotal : 1 < totalPages st).
  { unfold paginationShown in Hshown. destruct (display st) eqn:Hd; try done.
    unfold display in Hd. destruct (loading st); [done|].
    destruct (truthy _); [done|]. destruct (sites st); [done|].
    injection Hd as _ <-. by apply Z.ltb_lt. }
  destruct e; try done.
  - destruct (_ <=? 1); [done|]. intros [= <-]. lia.
  - destruct (1 <=? page0) eqn:E; [|done]. apply Z.leb_le in E.
    destruct (_ <=? _); [|done]. by intros [= <-].
  - destruct (_ <=? _); [done|]. intros [= <-]. lia.
Qed.

Lemma step_all_sound s e : all_sound s -> all_sound (PhishingListing.step s e).
Proof.
  intros [Hw Ha]. pose proof Hw as (Hc & _).
  assert (Hctl : ∀ f,
    sound (set_filters (f (filters (comp (world s)))) (comp (world s))) ->
    all_sound (on_world (change f) s)).
  { intros f Hf. split; [by apply sw_change | done]. }
  assert (Hpage : ∀ e', match pageAsked (comp (world s)) e' with
                        | Some page => all_sound (on_world (change (setCurrentPage page)) s)
                        | None => all_sound s
                        end).
  { intros e'. destruct (pageAsked _ e') as [page|] eqn:E; [|done].
    apply Hctl. pose proof Hc as (_ & ? & ?). split; [|done].
    simpl. by apply (pageAsked_from_1 (comp (world s)) e'). }
  destruct e; simpl.
  - split; [by apply sw_scan_step | done].
  - by apply Hctl.
  - by apply Hctl.
  - by apply Hctl.
  - by apply Hctl.
  - by apply Hctl.
  - apply Hctl. by pose proof Hc as (_ & ? & ?).
  - pose proof (Hpage ClickPrevious) as Hp. by destruct (pageAsked _ _).
  - pose proof (Hpage (ClickPage page)) as Hp. by destruct (pageAsked _ _).
  - pose proof (Hpage ClickNext) as Hp. by destruct (pageAsked _ _).
  - split; [|done]. apply sw_setState; [|done].
    intros st Hst. unfold fetchSites. destruct r as [resp|?]; [|done].
    by destruct (ok resp).
  - destruct (_ && _); [|done]. split; [done|]. simpl.
    apply Forall_app. split; [done|]. by constructor.
  - destruct (awaiting s !! k) as [[a render]|] eqn:E; [|done].
    split.
    + apply sw_finish; [|done].
      by apply (Forall_lookup_1 _ _ _ _ Ha E).
    + simpl. by apply Forall_delete.
Qed.

Lemma run_all_sound s es : all_sound s -> all_sound (PhishingListing.run s es).
Proof.
  revert s. induction es as [|e es IH]; intros s Hs; [done|].
  apply IH. by apply step_all_sound.
Qed.

Lemma mount_all_sound first next :
  sound first -> all_sound (PhishingListing.mount first next).
Proof.
  intros Hf. split; [|by constructor]. simpl.
  apply sw_call_fetchSites; [done|]. unfold PhishingDetection.mount.
  apply sw_send; [done|]. apply sw_call_fetchSites; [done|].
  split; [done|]. split; [|by constructor].
  intros i c. simpl. by rewrite lookup_empty.
Qed.
End SoundQueries.

Section ListingFrame.
Import PhishingDetection PhishingListing.

(** The component after a change of the filter state. *)
Lemma comp_change f w :
  comp (change f w) =
  if mounted w then
    let st := set_filters (f (filters (comp w))) (comp w) in
    if decide (filters st = filters (comp w)) then st else set_loading true st
  else comp w.
Proof.
  unfold change. destruct (mounted w) eqn:Hm; [|done]. cbv zeta.
  destruct (decide _); simpl; by rewrite Hm.
Qed.

Lemma change_keeps_error f w : error (comp (change f w)) = error (comp w).
Proof.
  rewrite comp_change. destruct (mounted w); [|done]. cbv zeta.
  by destruct (decide _).
Qed.

Lemma change_page f w :
  currentPage (filters (comp (change f w))) =
  if mounted w then currentPage (f (filters (comp w)))
  else currentPage (filters (comp w)).
Proof.
  rewrite comp_change. destruct (mounted w); [|done]. cbv zeta.
  by destruct (decide _).
Qed.

Lemma listing_step_keeps_error s e :
  is_Some (error (comp (world s))) ->
  is_Some (error (comp (world (PhishingListing.step s e)))).
Proof.
  intros He.
  assert (Hother :
    match e with
    | Scanning _ | SitesAnswer _ | Click _ | ActionAnswer _ _ => True
    | _ => False
    end -> is_Some (error (comp (world (PhishingListing.step s e))))).
  { intros Hk. by apply (other_event_keeps (λ st, is_Some (error st))). }
  destruct e; try (by apply Hother); simpl; rewrite ?change_keeps_error; try done.
  all: destruct (pageAsked _ _); simpl; by rewrite ?change_keeps_error.
Qed.

Lemma run_keeps_error_set s es :
  is_Some (error (comp (world s))) ->
  is_Some (error (comp (world (PhishingListing.run s es)))).
Proof.
  revert s. induction es as [|e es IH]; intros s Hs; [done|].
  apply IH. by apply listing_step_keeps_error.
Qed.

Lemma pageAsked_shown st e page :
  pageAsked st e = Some page ->
  paginationShown st = true ∧ (e = ClickPrevious ∨ e = ClickNext ∨ ∃ k, e = ClickPage k).
Proof.
  unfold pageAsked. destruct (paginationShown st); [|done].
  intros Hp. split; [done|]. destruct e; try done; eauto.
Qed.
End ListingFrame.

(** X10. The sites queries of the phishing screen. In every session
    (filter controls, pagination, the report, status and URL-check
    buttons with their answers, scans with their polling, unmounting),
    the page is 1 or more and every sites query sent asks for a page
    from 1 on, 10 sites a page, sorted by first detection, newest
    first. Mounting alone sends the sites query twice, once by each of
    the two effects. *)
Theorem sites_queries_are_sound (activeTab0 : string) (scanInProgress0 : bool)
    (scanProgress0 : option PhishingDetection.ScanProgress)
    (scanInterval0 : option PhishingDetection.TimerId)
    (next : PhishingDetection.TimerId) (es : list PhishingListing.Event) :
  let first :=
    PhishingDetection.initialState activeTab0 scanInProgress0 scanProgress0
      scanInterval0 in
  let s := PhishingListing.run (PhishingListing.mount first next) es in
  1 <= PhishingDetection.currentPage
         (PhishingDetection.filters (PhishingDetection.comp (PhishingListing.world s))) ∧
  Forall PhishingListing.well_asked
    (PhishingDetection.requests (PhishingListing.world s)) ∧
  PhishingDetection.requests (PhishingListing.world (PhishingListing.mount first next))
  = [ PhishingDetection.GetSites (PhishingDetection.fetchSites_query first);
      PhishingDetection.GetStats;
      PhishingDetection.GetSites (PhishingDetection.fetchSites_query first) ].
Proof.
  intros first s.
  assert (Hs : PhishingListing.all_sound s).
  { apply run_all_sound, mount_all_sound. done. }
  destruct Hs as [((Hp & _) & _ & Hr) _]. done.
Qed.

(** X11. The phishing screen never resets its error. Once an error is
    stored (a failed sites query, scan start, report, status update or
    URL check), it is stored after every later event, answers that
    succeed included; sites are displayed again only if a later request
    was rejected with an empty message, which overwrites the error. *)
Theorem phishing_error_is_never_reset (s : PhishingListing.Screen)
    (es : list PhishingListing.Event) :
  is_Some (PhishingDetection.error (PhishingDetection.comp (PhishingListing.world s))) ->
  let st :=
    PhishingDetection.comp (PhishingListing.world (PhishingListing.run s es)) in
  is_Some (PhishingDetection.error st) ∧
  (PhishingListing.display st = PhishingListing.Spinner ∨
   (∃ message, PhishingListing.display st = PhishingListing.ErrorBox message) ∨
   PhishingDetection.error st = Some "").
Proof.
  intros He st. pose proof (run_keeps_error_set s es He) as Hst. fold st in Hst.
  split; [done|]. unfold PhishingListing.display.
  destruct (PhishingDetection.loading st); [by left|]. right.
  destruct Hst as [message Hm]. rewrite Hm.
  destruct message as [|c message]; [by right|]. left. by eexists.
Qed.

(** X11 at a session: the second sites query of the mount fails with
    status 500; the user then opens the tab "all", and the query that
    follows is answered with two sites. The error box stays. *)
Lemma phishing_error_outlives_successful_answer :
  let failing :=
    PhishingListing.SitesAnswer
      (PhishingDetection.Fulfilled
         {| PhishingDetection.ok := false;
            PhishingDetection.statusText := "Internal Server Error";
            PhishingDetection.X_Total_Count := None;
            PhishingDetection.body := [] |}) in
  let later :=
    [ PhishingListing.ClickTab "all";
      PhishingListing.SitesAnswer
        (ListingFixtures.pageOf "25"
           [ListingFixtures.site "ps-1"; ListingFixtures.site "ps-2"]) ] in
  let st :=
    PhishingDetection.comp
      (PhishingListing.world
         (PhishingListing.run
            (PhishingListing.step ListingFixtures.firstPageShown failing) later)) in
  (is_Some (PhishingDetection.error st) ∧
   (PhishingListing.display st = PhishingListing.Spinner ∨
    (∃ message, PhishingListing.display st = PhishingListing.ErrorBox message) ∨
    PhishingDetection.error st = Some "")) ∧
  PhishingListing.display st
  = PhishingListing.ErrorBox "Error fetching phishing sites: Internal Server Error".
Proof.
  intros failing later st. split; [|reflexivity].
  apply (phishing_error_is_never_reset
           (PhishingListing.step ListingFixtures.firstPageShown failing) later).
  eexists. reflexivity.
Defined.

(** X12. Only "Reset Filters" and the pagination bar change the page of
    the phishing screen, the bar only while it is rendered: changing the
    tab, the time range, the threshold, the target or the search text
    keeps the page the user is on, and so does every answer. *)
Theorem page_changes_by_pagination_or_reset_only (s : PhishingListing.Screen)
    (e : PhishingListing.Event) :
  PhishingDetection.currentPage
    (PhishingDetection.filters
       (PhishingDetection.comp (PhishingListing.world (PhishingListing.step s e))))
  ≠ PhishingDetection.currentPage
      (PhishingDetection.filters (PhishingDetection.comp (PhishingListing.world s))) ->
  e = PhishingListing.ClickResetFilters ∨
  (PhishingListing.paginationShown (PhishingDetection.comp (PhishingListing.world s))
   = true ∧
   (e = PhishingListing.ClickPrevious ∨ e = PhishingListing.ClickNext ∨
    ∃ k, e = PhishingListing.ClickPage k)).
Proof.
  intros Hne.
  assert (Hother :
    match e with
    | PhishingListing.Scanning _ | PhishingListing.SitesAnswer _
    | PhishingListing.Click _ | PhishingListing.ActionAnswer _ _ => True
    | _ => False
    end -> False).
  { intros Hk. apply Hne.
    by apply (other_event_keeps
                (λ st, PhishingDetection.currentPage (PhishingDetection.filters st)
                       = PhishingDetection.currentPage
                           (PhishingDetection.filters
                              (PhishingDetection.comp (PhishingListing.world s))))). }
  assert (Hctl : ∀ f,
    (∀ fl, PhishingDetection.currentPage (f fl) = PhishingDetection.currentPage fl) ->
    PhishingDetection.currentPage
      (PhishingDetection.filters
         (PhishingDetection.comp (PhishingListing.change f (PhishingListing.world s))))
    = PhishingDetection.currentPage
        (PhishingDetection.filters (PhishingDetection.comp (PhishingListing.world s)))).
  { intros f Hf. rewrite change_page.
    by destruct (PhishingDetection.mounted _). }
  destruct e; try (by destruct Hother); try (by left);
    try (exfalso; apply Hne; simpl; by apply Hctl).
  all: right; simpl in Hne.
  all: match type of Hne with
       | context [PhishingListing.pageAsked ?st ?e] =>
           destruct (PhishingListing.pageAsked st e) as [page'|] eqn:E; [|done];
           by apply pageAsked_shown in E
       end.
Qed.

(** X12 at page 1 of 3, listed: "Next" takes the screen to page 2. *)
Lemma next_on_first_page_changes_page :
  PhishingListing.paginationShown
    (PhishingDetection.comp (PhishingListing.world ListingFixtures.firstPageShown))
  = true.
Proof.
  destruct (page_changes_by_pagination_or_reset_only ListingFixtures.firstPageShown
              PhishingListing.ClickNext) as [Hreset|[Hshown _]].
  - vm_compute. discriminate.
  - discriminate Hreset.
  - exact Hshown.
Defined.

(** ** Numbers read back from strings *)

Section ReadBack.
Import JSNumber PhishingDetection.







End ReadBack.



(** ** The indicators tab *)

Section IndicatorsTab.
Context {Indicator : Type}.
Import IndicatorsView.

Lemma refetch_in_flight (st : State Indicator) (s : Session Indicator) :
  length (sent s) = answered s -> one_in_flight (refetch st s).
Proof.
  intros Hs. left. split; [done|]. simpl. rewrite length_app, Hs. simpl.
  split; [lia|]. by rewrite last_snoc.
Qed.

Lemma step_one_in_flight (s : Session Indicator) (e : Event Indicator) :
  one_in_flight s -> one_in_flight (step s e).
Proof.
  intros Hs. destruct e as [value|value|r]; simpl.
  - destruct (controlsShown (view s)) eqn:Hc; [|done]. simpl.
    destruct (negb _); [|done].
    destruct Hs as [(Hl & _)|(_ & Hn)]; [|by apply refetch_in_flight].
    unfold controlsShown, display in Hc. by rewrite Hl in Hc.
  - destruct (controlsShown (view s)) eqn:Hc; [|done]. simpl.
    destruct (negb _); [|done].
    destruct Hs as [(Hl & _)|(_ & Hn)]; [|by apply refetch_in_flight].
    unfold controlsShown, display in Hc. by rewrite Hl in Hc.
  - destruct (Nat.ltb_spec (answered s) (length (sent s))) as [Hlt|Hge]; [|done].
    destruct Hs as [(Hl & Hn & _)|(_ & Hn)]; [|lia].
    right. simpl. split; [|done]. by destruct r as [[] ? ?|?].
Qed.

Lemma run_one_in_flight (s : Session Indicator) (es : list (Event Indicator)) :
  one_in_flight s -> one_in_flight (run s es).
Proof.
  revert s. induction es as [|e es IH]; intros s Hs; [done|].
  apply IH. by apply step_one_in_flight.
Qed.

Lemma mount_one_in_flight : one_in_flight (mount (Indicator := Indicator)).
Proof. by apply refetch_in_flight. Qed.

(** A session in which every query is answered and an error is stored
    does not move. *)
Lemma stuck_on_error (s : Session Indicator) (es : list (Event Indicator)) :
  loading (view s) = false -> truthy (error (view s)) = true ->
  length (sent s) = answered s ->
  run s es = s.
Proof.
  intros Hl He Hn. induction es as [|e es IH]; [done|].
  assert (Hc : controlsShown (view s) = false).
  { unfold controlsShown, display. by rewrite Hl, He. }
  assert (Hstep : step s e = s).
  { destruct e as [value|value|r]; simpl; rewrite ?Hc; try done.
    by rewrite (proj2 (Nat.ltb_ge _ _)) by lia. }
  simpl. by rewrite Hstep.
Qed.
End IndicatorsTab.

(** X14. The indicators tab has at most one query in flight. In every
    session, either the last query sent awaits its answer, and then the
    spinner is shown and the query is the one of the current type and
    time range; or every query has been answered. An answer therefore
    always belongs to the settings it is displayed under. *)
Theorem indicators_answer_matches_settings (Indicator : Type)
    (es : list (IndicatorsView.Event Indicator)) :
  let s := IndicatorsView.run IndicatorsView.mount es in
  (length (IndicatorsView.sent s) <= S (IndicatorsView.answered s))%nat ∧
  (IndicatorsView.answered s <= length (IndicatorsView.sent s))%nat ∧
  ((IndicatorsView.answered s < length (IndicatorsView.sent s))%nat ->
   IndicatorsView.display (IndicatorsView.view s) = IndicatorsView.LoadingSpinner ∧
   last (IndicatorsView.sent s)
   = Some (IndicatorsView.fetchIndicators_params (IndicatorsView.view s))) ∧
  (∀ r, (IndicatorsView.answered s < length (IndicatorsView.sent s))%nat ->
        let s' := IndicatorsView.step s (IndicatorsView.Answer r) in
        IndicatorsView.answered s' = length (IndicatorsView.sent s') ∧
        last (IndicatorsView.sent s')
        = Some (IndicatorsView.fetchIndicators_params (IndicatorsView.view s'))).
Proof.
  intros s.
  pose proof (run_one_in_flight IndicatorsView.mount es mount_one_in_flight) as Hs.
  fold s in Hs.
  destruct Hs as [(Hl & Hn & Hq)|(Hl & Hn)].
  - split; [lia|]. split; [lia|]. split.
    + intros _. split; [|done]. unfold IndicatorsView.display. by rewrite Hl.
    + intros r _. simpl. rewrite (proj2 (Nat.ltb_lt _ _)) by lia. simpl.
      split; [done|]. rewrite Hq. by destruct r as [[] ? ?|?].
  - split; [lia|]. split; [lia|]. split; intros; lia.
Qed.

(** X15. A failed query leaves the indicators tab without a way out. When
    the answer to the query in flight is a failure, the error message is
    returned in place of the whole view, filter controls included: from
    then on no event changes the state and no query is sent. *)
Theorem indicators_failure_is_final (Indicator : Type)
    (before after : list (IndicatorsView.Event Indicator))
    (r : ThreatsView.Fetched (list Indicator)) :
  let s := IndicatorsView.run IndicatorsView.mount before in
  let s' := IndicatorsView.step s (IndicatorsView.Answer r) in
  (IndicatorsView.answered s < length (IndicatorsView.sent s))%nat ->
  ThreatsSession.failed r = true ->
  IndicatorsView.run s' after = s' ∧
  IndicatorsView.display (IndicatorsView.view s')
  = IndicatorsView.ErrorMessage IndicatorsView.failure.
Proof.
  intros s s' Hflight Hr.
  pose proof (run_one_in_flight IndicatorsView.mount before mount_one_in_flight) as Hs.
  fold s in Hs. destruct Hs as [(Hl & Hn & Hq)|(Hl & Hn)]; [|lia].
  assert (Hs' : s' = {| IndicatorsView.view := IndicatorsView.fetchIndicators
                                                 (IndicatorsView.view s) r;
                        IndicatorsView.sent := IndicatorsView.sent s;
                        IndicatorsView.answered := S (IndicatorsView.answered s) |}).
  { unfold s'. simpl. by rewrite (proj2 (Nat.ltb_lt _ _)) by lia. }
  assert (Hview : IndicatorsView.loading (IndicatorsView.view s') = false ∧
                  IndicatorsView.error (IndicatorsView.view s')
                  = Some IndicatorsView.failure).
  { rewrite Hs'. simpl. by destruct r as [[] ? ?|?]. }
  destruct Hview as [Hl' He'].
  split.
  - apply stuck_on_error; [done | by rewrite He' | by rewrite Hs'].
  - unfold IndicatorsView.display. by rewrite Hl', He'.
Qed.

(** X15 at a session: the first query is rejected; selecting a type
    afterwards sends nothing. *)
Lemma indicators_stuck_after_rejection :
  IndicatorsView.sent
    (IndicatorsView.run (Indicator := string) IndicatorsView.mount
       [ IndicatorsView.Answer (ThreatsView.Rejected "Failed to fetch");
         IndicatorsView.SelectType "domain" ])
  = [ {| IndicatorsView.q_days := "30"; IndicatorsView.q_type := None |} ].
Proof.
  pose proof (indicators_failure_is_final string []
                [IndicatorsView.SelectType "domain"]
                (ThreatsView.Rejected "Failed to fetch")
                ltac:(simpl; lia) eq_refl) as [Hrun _].
  change (IndicatorsView.run IndicatorsView.mount
            [ IndicatorsView.Answer (ThreatsView.Rejected "Failed to fetch");
              IndicatorsView.SelectType "domain" ])
    with (IndicatorsView.run
            (IndicatorsView.step
               (IndicatorsView.run (Indicator := string) IndicatorsView.mount [])
               (IndicatorsView.Answer (ThreatsView.Rejected "Failed to fetch")))
            [IndicatorsView.SelectType "domain"]).
  rewrite Hrun. reflexivity.
Defined.


(** ** The date label of the news screen *)

Section DateLabels.
Context `{Runtime}.
Import NewsPage NewsScreen.

Lemma kept_record_labelled st now a :
  keeps st now (Some a) = true -> dateLabel a ≠ DateUnavailable.
Proof.
  unfold keeps. rewrite !andb_true_iff. intros [_ Hd].
  apply dateMatch_true in Hd. unfold dateLabel, new_Date.
  destruct (published_date a) as [raw|]; [|done].
  destruct Hd as [->|(t & Ht & _)]; [done|].
  simpl. rewrite Ht. by destruct raw.
Qed.

Lemma handleSearch_labelled st now : labelled st -> labelled (handleSearch st now).
Proof.
  intros Hst. unfold handleSearch. destruct (news st) eqn:Hn; [done|].
  intros a Ha. simpl in Ha. apply in_map_iff in Ha as (a' & [= ->] & Ha).
  apply In_sortedResults in Ha as [_ Hk]. by eapply kept_record_labelled.
Qed.

Lemma effect_labelled st now : labelled st -> labelled (effect now st).
Proof.
  intros Hst. unfold effect. destruct (news st) eqn:Hn; [done|].
  by apply handleSearch_labelled.
Qed.

Lemma step_labelled s e s' :
  labelled (state s) -> step s e = Some s' -> labelled (state s').
Proof.
  intros Hs. destruct e as [data now| |v|v|v|v now|v|v|now]; simpl.
  - destruct (renders _); [|done]. intros [= <-]. simpl.
    unfold effect. cbn [news set_filteredNews set_news].
    destruct data as [|o data]; [by intros a []|].
    intros a Ha. unfold handleSearch in Ha. cbn [news set_filteredNews set_news] in Ha.
    simpl in Ha. apply in_map_iff in Ha as (a' & [= ->] & Ha).
    apply In_sortedResults in Ha as [_ Hk]. by eapply kept_record_labelled.
  - by intros [= <-].
  - by intros [= <-].
  - by intros [= <-].
  - by intros [= <-].
  - intros [= <-]. destruct (_ || _); simpl; [by apply effect_labelled | done].
  - by intros [= <-].
  - by intros [= <-].
  - intros [= <-]. simpl. by apply handleSearch_labelled.
Qed.

Lemma run_labelled s es s' :
  labelled (state s) -> run s es = Some s' -> labelled (state s').
Proof.
  revert s. induction es as [|e es IH]; intros s Hs; simpl.
  - by intros [= <-].
  - destruct (step s e) as [s1|] eqn:E; [|done].
    apply IH. by eapply step_labelled.
Qed.
End DateLabels.

(** X16. The label "Date unavailable" of the news screen is never shown
    for a listed record: whatever arrives and whatever the user does, once
    the effect of the last event has run, every record in the displayed
    list has either no date label, its [published_date] being missing or
    empty, or the formatted date of a timestamp that parses. *)
Theorem date_unavailable_is_never_listed (R : Runtime)
    (es : list NewsScreen.Event) (s : NewsScreen.Screen) (a : NewsPage.Article) :
  NewsScreen.run NewsScreen.initial es = Some s ->
  In (Some a) (NewsPage.filteredNews (NewsScreen.state s)) ->
  NewsScreen.dateLabel a = NewsScreen.NoLabel ∨
  ∃ raw t, NewsPage.published_date a = Some raw ∧ Date_parse raw = Some t ∧
           NewsScreen.dateLabel a = NewsScreen.Formatted t.
Proof.
  intros Hrun Hin.
  assert (Hl : NewsScreen.labelled (NewsScreen.state s)).
  { apply (run_labelled NewsScreen.initial es); [by intros ? []|done]. }
  specialize (Hl a Hin). unfold NewsScreen.dateLabel, new_Date in *.
  destruct (truthy (NewsPage.published_date a)) eqn:Ht; [|by left].
  destruct (NewsPage.published_date a) as [raw|]; [|done]. simpl in *.
  destruct (Date_parse raw) as [t|] eqn:Hp; [|done].
  right. by exists raw, t.
Qed.

(** X16 at the run of three records: the record of the evening of 24
    February is listed with its date. *)
Lemma evening_record_is_listed_with_its_date :
  NewsScreen.dateLabel (H := iso_runtime 0)
    (MoreFixtures.article (Some "Ransomware") None (Some "2025-02-24T20:00:00Z"))
  = NewsScreen.Formatted 1740427200000.
Proof.
  destruct (date_unavailable_is_never_listed (iso_runtime 0)
              [ NewsScreen.NewsArrive MoreFixtures.threeArticles noon_25_feb_2025 ]
              {| NewsScreen.state :=
                   NewsPage.handleSearch (H := iso_runtime 0)
                     MoreFixtures.threeLoaded noon_25_feb_2025;
                 NewsScreen.loading := false; NewsScreen.error := None |}
              (MoreFixtures.article (Some "Ransomware") None
                 (Some "2025-02-24T20:00:00Z"))
              eq_refl ltac:(vm_compute; auto))
    as [Hno|(raw & t & Hraw & Ht & Hlabel)].
  - discriminate Hno.
  - injection Hraw as <-. rewrite Hlabel. f_equal.
    assert (Hparse : Date_parse (Runtime := iso_runtime 0) "2025-02-24T20:00:00Z"
                     = Some 1740427200000) by reflexivity.
    congruence.
Defined.

(** ** The refresh after a button request *)

Section Refresh.
Import PhishingDetection PhishingListing.

Lemma control_keeps_awaiting s e :
  isControl e = true -> awaiting (PhishingListing.step s e) = awaiting s.
Proof.
  intros He. destruct e; try done; simpl; by destruct (pageAsked _ _).
Qed.

Lemma controls_keep_awaiting s es :
  forallb isControl es = true -> awaiting (PhishingListing.run s es) = awaiting s.
Proof.
  revert s. induction es as [|e es IH]; intros s; [done|].
  simpl. rewrite andb_true_iff. intros [He Hes].
  change (awaiting (PhishingListing.run (PhishingListing.step s e) es) = awaiting s).
  rewrite IH by done. by apply control_keeps_awaiting.
Qed.

Lemma requests_finish_ok a render resp w :
  ok resp = true ->
  requests (finish a render (Fulfilled resp) w)
  = (requests w ++ refreshOf a render)%list.
Proof.
  intros Hok. unfold finish. rewrite Hok.
  destruct a; simpl; by rewrite <- ?app_assoc.
Qed.
End Refresh.

(** X17. The refresh after a report, a status update or a URL check asks
    for the page and the filters of the render whose button was clicked.
    Whatever the user changes between the click and the answer (tab,
    filters, page), and whatever else arrives, the successful answer is
    followed by the sites query of the settings at the time of the
    click. *)
Theorem refresh_asks_for_settings_at_click (s : PhishingListing.Screen)
    (a : PhishingListing.Action) (es : list PhishingListing.Event)
    (resp : PhishingDetection.Response unit) :
  PhishingDetection.mounted (PhishingListing.world s) = true ->
  PhishingListing.clickable (PhishingDetection.comp (PhishingListing.world s)) a
  = true ->
  forallb PhishingListing.isControl es = true ->
  PhishingDetection.ok resp = true ->
  let clicked := PhishingDetection.comp (PhishingListing.world s) in
  let s1 := PhishingListing.run (PhishingListing.step s (PhishingListing.Click a)) es in
  let s2 :=
    PhishingListing.step s1
      (PhishingListing.ActionAnswer (length (PhishingListing.awaiting s))
         (PhishingDetection.Fulfilled resp)) in
  PhishingDetection.requests (PhishingListing.world s2)
  = (PhishingDetection.requests (PhishingListing.world s1)
     ++ PhishingListing.refreshOf a clicked)%list.
Proof.
  intros Hm Hc Hes Hok clicked s1 s2.
  assert (Ha : PhishingListing.awaiting s1
               = (PhishingListing.awaiting s ++ [(a, clicked)])%list).
  { unfold s1. rewrite controls_keep_awaiting by done. simpl.
    by rewrite Hm, Hc. }
  unfold s2. simpl. rewrite Ha.
  rewrite lookup_app_r, Nat.sub_diag by done. simpl.
  by apply requests_finish_ok.
Qed.

(** X17 at page 1 of 3: the user reports a site, opens the tab "all",
    and the report succeeds; the query that follows is the one for the
    tab "detected", which was open at the click. *)
Lemma refresh_after_report_asks_for_detected_tab :
  last
    (PhishingDetection.requests
       (PhishingListing.world
          (PhishingListing.run ListingFixtures.firstPageShown
             [ PhishingListing.Click (PhishingListing.reportSite "ps-1");
               PhishingListing.ClickTab "all";
               PhishingListing.ActionAnswer 0
                 (PhishingDetection.Fulfilled
                    {| PhishingDetection.ok := true;
                       PhishingDetection.statusText := "OK";
                       PhishingDetection.X_Total_Count := None;
                       PhishingDetection.body := tt |}) ])))
  = Some (PhishingDetection.GetSites
            (PhishingDetection.fetchSites_query
               (PhishingDetection.comp
                  (PhishingListing.world ListingFixtures.firstPageShown)))).
Proof.
  pose proof (refresh_asks_for_settings_at_click ListingFixtures.firstPageShown
                (PhishingListing.reportSite "ps-1")
                [PhishingListing.ClickTab "all"]
                {| PhishingDetection.ok := true;
                   PhishingDetection.statusText := "OK";
                   PhishingDetection.X_Total_Count := None;
                   PhishingDetection.body := tt |}
                eq_refl eq_refl eq_refl eq_refl) as Hreq.
  cbv zeta in Hreq.
  change (PhishingListing.run ListingFixtures.firstPageShown
            [ PhishingListing.Click (PhishingListing.reportSite "ps-1");
              PhishingListing.ClickTab "all";
              PhishingListing.ActionAnswer 0
                (PhishingDetection.Fulfilled
                   {| PhishingDetection.ok := true;
                      PhishingDetection.statusText := "OK";
                      PhishingDetection.X_Total_Count := None;
                      PhishingDetection.body := tt |}) ])
    with (PhishingListing.step
            (PhishingListing.run
               (PhishingListing.step ListingFixtures.firstPageShown
                  (PhishingListing.Click (PhishingListing.reportSite "ps-1")))
               [PhishingListing.ClickTab "all"])
            (PhishingListing.ActionAnswer
               (length (PhishingListing.awaiting ListingFixtures.firstPageShown))
               (PhishingDetection.Fulfilled
                  {| PhishingDetection.ok := true;
                     PhishingDetection.statusText := "OK";
                     PhishingDetection.X_Total_Count := None;
                     PhishingDetection.body := tt |}))).
  rewrite Hreq. cbn [PhishingListing.refreshOf]. apply last_snoc.
Defined.
